(** * Object-key generation of the S3 comparison programs

    A shallow embedding of [GenerateImageKey] and [GenerateImageKeyWithEnv]
    as they appear in [cmd/sdk-v1/main.go] and in the SDK v2 program, with
    the Go library calls they make ([strings.Split], [time.Now],
    [Time.Format], [gonanoid.New], [fmt.Errorf], [fmt.Sprintf]). *)

From Stdlib Require Import ZArith List Bool Ascii String Lia.
Import ListNotations.

Local Open Scope string_scope.
Local Open Scope Z_scope.

(* ------------------------------------------------------------------ *)
(** ** Go strings *)

(** Go strings are byte sequences; [string] is a sequence of 8-bit
    characters. [len_s] is Go's [len] on a string, [len] on a slice. *)

Definition len_s (s : string) : Z := Z.of_nat (String.length s).

Definition len {A : Type} (l : list A) : Z := Z.of_nat (List.length l).

(** [contains_char c s]: the byte [c] occurs in [s]. *)
Fixpoint contains_char (c : ascii) (s : string) : bool :=
  match s with
  | EmptyString => false
  | String a s' => Ascii.eqb a c || contains_char c s'
  end.

(** [all_chars p s]: every byte of [s] satisfies [p]. *)
Fixpoint all_chars (p : ascii -> bool) (s : string) : bool :=
  match s with
  | EmptyString => true
  | String a s' => p a && all_chars p s'
  end.

(** Go's [strings.HasPrefix]: [s] begins with [pre]. *)
Fixpoint HasPrefix (s pre : string) {struct pre} : bool :=
  match pre with
  | EmptyString => true
  | String c pre' =>
      match s with
      | String a s' => Ascii.eqb a c && HasPrefix s' pre'
      | EmptyString => false
      end
  end.

(** Go's [strings.Split(s, sep)] for a separator of one byte, the only
    way the programs call it: the substrings of [s] between the
    occurrences of [sep], in order; one more than the number of
    occurrences, so never empty. *)
Fixpoint Split (s : string) (sep : ascii) : list string :=
  match s with
  | EmptyString => [EmptyString]
  | String a s' =>
      if Ascii.eqb a sep then EmptyString :: Split s' sep
      else match Split s' sep with
           | p :: ps => String a p :: ps
           | [] => [String a EmptyString]
           end
  end.

(** The text after the last occurrence of [c] in [s]; [None] when [c]
    does not occur. This is the reading of "the substring after the last
    delimiter" that the properties below are stated against. *)
Fixpoint after_last (c : ascii) (s : string) : option string :=
  match s with
  | EmptyString => None
  | String a s' =>
      match after_last c s' with
      | Some t => Some t
      | None => if Ascii.eqb a c then Some s' else None
      end
  end.

(** A text of ASCII bytes only: every byte is below 128. *)
Definition is_ascii (s : string) : bool :=
  all_chars (fun a => Z.of_N (N_of_ascii a) <? 128) s.

(** ASCII case: an upper-case letter, and the lower-case form of a byte
    and of a string. [ToLower] is Go's [strings.ToLower] on a text of
    ASCII bytes, where it moves the letters A-Z and nothing else; on
    other text Go folds case rune by rune, which [ToLower] does not
    model, so it is used under [is_ascii] only. *)
Definition is_upper (a : ascii) : bool :=
  let n := Z.of_N (N_of_ascii a) in (65 <=? n) && (n <=? 90).

Definition lower_char (a : ascii) : ascii :=
  if is_upper a then ascii_of_N (N_of_ascii a + 32) else a.

Fixpoint ToLower (s : string) : string :=
  match s with
  | EmptyString => EmptyString
  | String a s' => String (lower_char a) (ToLower s')
  end.

Definition has_upper (s : string) : bool := negb (all_chars (fun a => negb (is_upper a)) s).

(* ------------------------------------------------------------------ *)
(** ** Errors *)

(** A Go [error] value: one made by [errors.New], or one made by
    [fmt.Errorf] with the verb [%w], which keeps the wrapped error. *)
Inductive error : Type :=
| errors_New (msg : string)
| wrapError (msg : string) (cause : error).

(** The [Error()] method. *)
Definition Error (e : error) : string :=
  match e with
  | errors_New msg => msg
  | wrapError msg _ => msg
  end.

(** [errors.Unwrap]. *)
Definition Unwrap (e : error) : option error :=
  match e with
  | errors_New _ => None
  | wrapError _ cause => Some cause
  end.

(** [fmt.Errorf(prefix + "%w", err)]. *)
Definition fmt_Errorf_w (prefix : string) (err : error) : error :=
  wrapError (prefix ++ Error err) err.

(* ------------------------------------------------------------------ *)
(** ** Time *)

Inductive Month : Type :=
| January | February | March | April | May | June
| July | August | September | October | November | December.

(** [int(m)] for a [time.Month]. *)
Definition Month_int (m : Month) : Z :=
  match m with
  | January => 1 | February => 2 | March => 3 | April => 4
  | May => 5 | June => 6 | July => 7 | August => 8
  | September => 9 | October => 10 | November => 11 | December => 12
  end.

(** A clock reading, by its civil fields in the local time zone. *)
Record Time : Type := mkTime {
  Year : Z;
  Mon : Month;
  Day : Z;
  Hour : Z;
  Minute : Z;
  Second : Z;
  Nanosecond : Z
}.

(** The character of a decimal digit [0 <= d <= 9]. *)
Definition digit_char (d : Z) : ascii := ascii_of_N (48 + Z.to_N d).

(** The decimal digits of [u >= 0], most significant first. [fuel]
    bounds the number of digits. *)
Fixpoint utoa (fuel : nat) (u : Z) : string :=
  match fuel with
  | O => EmptyString
  | S f =>
      (if u <? 10 then EmptyString else utoa f (u / 10))
        ++ String (digit_char (u mod 10)) EmptyString
  end.

Definition decimal (u : Z) : string := utoa (S (Z.to_nat (Z.log2 u))) u.

Fixpoint zeros (n : nat) : string :=
  match n with
  | O => EmptyString
  | S k => String "0"%char (zeros k)
  end.

(** The [appendInt] of package time: a minus sign for a negative [x],
    then the decimal digits of [|x|] padded with zeros on the left to
    [width] digits. *)
Definition appendInt (x : Z) (width : nat) : string :=
  let u := Z.abs x in
  let ds := decimal u in
  (if x <? 0 then "-" else "") ++ zeros (width - String.length ds) ++ ds.

(** [t.Format("200601")]: the layout is the chunk [2006] (the year, at
    least four digits) followed by the chunk [01] (the month, two
    digits). *)
Definition Format_200601 (t : Time) : string :=
  appendInt (Year t) 4 ++ appendInt (Month_int (Mon t)) 2.

(** Two clock readings fall within the same calendar month. *)
Definition same_month (t1 t2 : Time) : Prop :=
  Year t1 = Year t2 /\ Mon t1 = Mon t2.

(* ------------------------------------------------------------------ *)
(** ** The ambient state of a run *)

(** What the process can read or change around a call: the wall clock,
    the identifier generator ([nanoidSource k size] is what the [k]-th
    call [gonanoid.New(size)] of the run returns) and the standard
    output. *)
Record World : Type := mkWorld {
  wallClock : Time;
  nanoidSource : nat -> Z -> string * option error;
  nanoidCalls : nat;
  stdout : list string
}.

(** A Go computation: it reads and changes the world and returns a
    value, or panics ([None]). *)
Definition Go (A : Type) : Type := World -> option (A * World).

Definition ret {A : Type} (a : A) : Go A := fun w => Some (a, w).

Definition bind {A B : Type} (m : Go A) (k : A -> Go B) : Go B :=
  fun w => match m w with
           | Some (a, w') => k a w'
           | None => None
           end.

Definition panic {A : Type} : Go A := fun _ => None.

Notation "x <- m ;; k" := (bind m (fun x => k))
  (at level 61, m at next level, right associativity).
Notation "' pat <- m ;; k" := (bind m (fun x => match x with pat => k end))
  (at level 61, pat pattern, m at next level, right associativity).

(** [l[i]] on a slice: a run-time panic when [i] is out of range. *)
Definition index {A : Type} (l : list A) (i : Z) : Go A :=
  if (i <? 0) || (len l <=? i) then panic
  else match nth_error l (Z.to_nat i) with
       | Some a => ret a
       | None => panic
       end.

(** [time.Now()]. *)
Definition time_Now : Go Time := fun w => Some (wallClock w, w).

(** The world once one identifier has been drawn: nothing else moves. *)
Definition advance (w : World) : World :=
  mkWorld (wallClock w) (nanoidSource w) (S (nanoidCalls w)) (stdout w).

(** [gonanoid.New(size)]: the next outcome of the generator. *)
Definition gonanoid_New (size : Z) : Go (string * option error) :=
  fun w => Some (nanoidSource w (nanoidCalls w) size, advance w).

(** What the next call [gonanoid.New(15)] returns in [w]. *)
Definition next_nanoid (w : World) : string * option error :=
  nanoidSource w (nanoidCalls w) 15.

(** The alphabet of the generator: [A-Za-z0-9_-]. *)
Definition url_safe (a : ascii) : bool :=
  let n := Z.of_N (N_of_ascii a) in
  ((65 <=? n) && (n <=? 90)) || ((97 <=? n) && (n <=? 122))
  || ((48 <=? n) && (n <=? 57)) || (n =? 95) || (n =? 45).

(** A well-formed identifier of [size] characters. *)
Definition nanoid_ok (size : Z) (id : string) : Prop :=
  len_s id = size /\ all_chars url_safe id = true.

(** [fmt.Sprintf("%s/%s.%s", a, b, c)]. *)
Definition Sprintf_key (a b c : string) : string :=
  a ++ "/" ++ b ++ "." ++ c.

(* ------------------------------------------------------------------ *)
(** ** The SDK v1 program, [cmd/sdk-v1/main.go] *)

Module SdkV1.

Definition GenerateImageKey (filename : string) : Go (string * option error) :=
  (* Extract file extension *)
  let parts := Split filename "." in
  ext <- (if 1 <? len parts then index parts (len parts - 1) else ret "jpg") ;;
  (* Generate date-based prefix *)
  now <- time_Now ;;
  let yearMonth := Format_200601 now in
  (* Generate nanoid for uniqueness *)
  '(nanoID, err) <- gonanoid_New 15 ;;
  match err with
  | Some e => ret ("", Some (fmt_Errorf_w "failed to generate nanoid: " e))
  | None =>
      (* Format: YYYYMM/nanoid.ext *)
      ret (Sprintf_key yearMonth nanoID ext, None)
  end.

Definition GenerateImageKeyWithEnv (filename environment : string)
  : Go (string * option error) :=
  '(key, err) <- GenerateImageKey filename ;;
  match err with
  | Some e => ret ("", Some e)
  | None =>
      (* Add dev prefix for development environment *)
      if String.eqb environment "dev" || String.eqb environment "development"
      then ret ("dev/" ++ key, None)
      else ret (key, None)
  end.

End SdkV1.

(* ------------------------------------------------------------------ *)
(** ** The SDK v2 program *)

Module SdkV2.

Definition GenerateImageKey (filename : string) : Go (string * option error) :=
  (* Extract file extension *)
  let parts := Split filename "." in
  ext <- (if 1 <? len parts then index parts (len parts - 1) else ret "jpg") ;;
  (* Generate date-based prefix *)
  now <- time_Now ;;
  let yearMonth := Format_200601 now in
  (* Generate nanoid for uniqueness *)
  '(nanoID, err) <- gonanoid_New 15 ;;
  match err with
  | Some e => ret ("", Some (fmt_Errorf_w "failed to generate nanoid: " e))
  | None =>
      (* Format: YYYYMM/nanoid.ext *)
      ret (Sprintf_key yearMonth nanoID ext, None)
  end.

Definition GenerateImageKeyWithEnv (filename environment : string)
  : Go (string * option error) :=
  '(key, err) <- GenerateImageKey filename ;;
  match err with
  | Some e => ret ("", Some e)
  | None =>
      (* Add dev prefix for development environment *)
      if String.eqb environment "dev" || String.eqb environment "development"
      then ret ("dev/" ++ key, None)
      else ret (key, None)
  end.

End SdkV2.

(* ------------------------------------------------------------------ *)
(** ** Reading a key *)

(** The date segment of a key: the text before its first [/]. *)
Definition date_segment (key : string) : string :=
  hd EmptyString (Split key "/").

(** The number of [/]-delimited segments of a key. *)
Definition segment_count (key : string) : nat :=
  List.length (Split key "/").

(** The environment values for which the prefix is added. *)
Definition dev_environment (environment : string) : Prop :=
  environment = "dev" \/ environment = "development".

Definition is_digit (a : ascii) : bool :=
  let n := Z.of_N (N_of_ascii a) in (48 <=? n) && (n <=? 57).

(** The bytes a formatted integer is made of. *)
Definition int_char (a : ascii) : bool := is_digit a || Ascii.eqb a "-".

(** Reading a decimal numeral back: [atoi_acc], and [parseInt] with an
    optional leading minus sign. *)
Definition digit_val (a : ascii) : Z := Z.of_N (N_of_ascii a) - 48.

Fixpoint atoi_acc (acc : Z) (s : string) : Z :=
  match s with
  | EmptyString => acc
  | String a s' => atoi_acc (acc * 10 + digit_val a) s'
  end.

Definition parseInt (s : string) : Z :=
  match s with
  | String a r => if Ascii.eqb a "-" then - atoi_acc 0 r else atoi_acc 0 s
  | EmptyString => 0
  end.

(** Regular-expression pieces: exactly [n] bytes of a class, and a
    literal; each returns the rest of the text. *)
Fixpoint take_class (p : ascii -> bool) (n : nat) (s : string) : option string :=
  match n with
  | O => Some s
  | S k =>
      match s with
      | String a s' => if p a then take_class p k s' else None
      | EmptyString => None
      end
  end.

Fixpoint take_lit (lit s : string) {struct lit} : option string :=
  match lit with
  | EmptyString => Some s
  | String c lit' =>
      match s with
      | String a s' => if Ascii.eqb a c then take_lit lit' s' else None
      | EmptyString => None
      end
  end.

(** The pattern [^\d{6}/[A-Za-z0-9_-]{15}\.PNG$]. *)
Definition matches_PNG_key (key : string) : bool :=
  match take_class is_digit 6 key with
  | Some r1 =>
      match take_lit "/" r1 with
      | Some r2 =>
          match take_class url_safe 15 r2 with
          | Some r3 => String.eqb r3 ".PNG"
          | None => false
          end
      | None => false
      end
  | None => false
  end.

(** The extension the programs choose for a file name. *)
Definition chosen_ext (filename : string) : string :=
  match after_last "." filename with
  | Some suf => suf
  | None => "jpg"
  end.

(** A key is non-empty and has two segments, or three under the
    development prefix. *)
Definition well_segmented (environment key : string) : Prop :=
  key <> ""
  /\ (dev_environment environment -> segment_count key = 3%nat)
  /\ (~ dev_environment environment -> segment_count key = 2%nat).

(* ------------------------------------------------------------------ *)
(** ** Sample runs *)

Definition sample_id : string := "V1StGXR8_Z5jdHi".

Definition sample_time : Time := mkTime 2026 November 2 18 5 0 0.

(** A world where the generator succeeds. *)
Definition sample_world : World :=
  mkWorld sample_time (fun _ _ => (sample_id, None)) 0 [].

(** The same clock and the same next identifier later in a run, after
    seven identifiers were drawn and a line was printed. *)
Definition later_world : World :=
  mkWorld sample_time (fun _ _ => (sample_id, None)) 7
          ["--- Test 3: Generate File Key ---"].

(** A world a month later. *)
Definition december_world : World :=
  mkWorld (mkTime 2026 December 1 0 0 0 0) (fun _ _ => (sample_id, None)) 0 [].

(** A world whose clock shows a five-digit year. *)
Definition far_world : World :=
  mkWorld (mkTime 10000 January 1 0 0 0 0) (fun _ _ => (sample_id, None)) 0 [].

(** A world where the generator fails. *)
Definition broken_world : World :=
  mkWorld sample_time (fun _ _ => ("", Some (errors_New "entropy exhausted"))) 0 [].

(* ------------------------------------------------------------------ *)
(** ** More of the Go library, for [main] *)

(** The line feed. *)
Definition nl : string := String "010"%char EmptyString.

(** [s[:n]] on a string: a run-time panic when [n] is out of range. *)
Definition slice_to (s : string) (n : Z) : Go string :=
  if (n <? 0) || (len_s s <? n) then panic
  else ret (String.substring 0 (Z.to_nat n) s).

(** The verb [%d] on an [int]. *)
Definition fmt_d (n : Z) : string :=
  (if n <? 0 then "-" else "") ++ decimal (Z.abs n).

(** One write of [fmt.Printf] on the standard output, and
    [fmt.Println], which ends the line. *)
Definition fmt_Print (s : string) : Go unit :=
  fun w => Some (tt, mkWorld (wallClock w) (nanoidSource w) (nanoidCalls w)
                             (stdout w ++ [s])).

Definition fmt_Println (s : string) : Go unit := fmt_Print (s ++ nl).

(** The world after the writes [lines] on the standard output. *)
Definition printed (w : World) (lines : list string) : World :=
  mkWorld (wallClock w) (nanoidSource w) (nanoidCalls w) (stdout w ++ lines).

Notation "m ;;; k" := (bind m (fun _ => k))
  (at level 61, right associativity).

(** Go's [strings.HasSuffix] and [strings.TrimSuffix]. *)
Definition HasSuffix (s suffix : string) : bool :=
  (String.length suffix <=? String.length s)%nat
  && String.eqb (String.substring (String.length s - String.length suffix)
                                  (String.length suffix) s) suffix.

Definition TrimSuffix (s suffix : string) : string :=
  if HasSuffix s suffix
  then String.substring 0 (String.length s - String.length suffix) s
  else s.

(** How a step of [main] ends: [log.Fatal] was called with a message
    (the process exits with status 1), [main] returned, or the run goes
    on. *)
Inductive flow (A : Type) : Type :=
| Fatal (msg : string)
| Returned
| Continue (a : A).

Arguments Fatal {A} msg.
Arguments Returned {A}.
Arguments Continue {A} a.

(* ------------------------------------------------------------------ *)
(** ** Steps of [main] in the SDK v1 program *)

Module MainV1.

(** Lines 75-85: the check of the required variables and the report of
    the configuration, on the values read from the environment. *)
Definition reportConfig
  (accessKeyID secretAccessKey region bucketName endpointURL : string)
  : Go (flow unit) :=
  (* Validate required environment variables *)
  if String.eqb accessKeyID "" || String.eqb secretAccessKey ""
     || String.eqb region "" || String.eqb bucketName ""
  then ret (Fatal "Missing required environment variables: AWS_ACCESS_KEY_ID, AWS_SECRET_ACCESS_KEY, AWS_DEFAULT_REGION, AWS_BUCKET_NAME")
  else
    fmt_Print ("AWS Config:" ++ nl) ;;;
    fmt_Print ("  Access Key ID: " ++ accessKeyID ++ nl) ;;;
    head <- slice_to secretAccessKey 5 ;;
    fmt_Print ("  Secret Access Key: " ++ (head ++ "***") ++ " (length: "
               ++ fmt_d (len_s secretAccessKey) ++ ")" ++ nl) ;;;
    fmt_Print ("  Region: " ++ region ++ nl) ;;;
    fmt_Print ("  Bucket: " ++ bucketName ++ nl) ;;;
    fmt_Print ("  Endpoint URL: " ++ endpointURL ++ nl) ;;;
    ret (Continue tt).

(** Lines 133-141: test 3, the generation of a key. *)
Definition generateKeyStep (environment : string) : Go (flow string) :=
  fmt_Println (nl ++ "--- Test 3: Generate File Key ---") ;;;
  let filename := "test-upload.txt" in
  '(key, err) <- SdkV1.GenerateImageKeyWithEnv filename environment ;;
  match err with
  | Some e =>
      fmt_Print ("Error generating file key: " ++ Error e ++ nl) ;;;
      ret Returned
  | None =>
      fmt_Print ("Generated file key: " ++ key ++ nl) ;;;
      ret (Continue key)
  end.

(** Lines 196-204: test 7, the public URL of an object. *)
Definition publicURL (endpointURL bucketName region key : string) : string :=
  if negb (String.eqb endpointURL "") then
    (* Custom endpoint (like DigitalOcean Spaces, MinIO, etc.) *)
    let endpointURL := TrimSuffix endpointURL "/" in
    endpointURL ++ "/" ++ bucketName ++ "/" ++ key
  else
    (* Standard AWS S3 URL *)
    "https://" ++ bucketName ++ ".s3." ++ region ++ ".amazonaws.com/" ++ key.

(** Lines 222-226: test 9, the prefix the objects are listed under. *)
Definition listPrefix (key : string) : Go string :=
  let keyParts := Split key "/" in
  if 1 <? len keyParts then
    first <- index keyParts 0 ;;
    ret (first ++ "/") (* Get the date prefix or env prefix *)
  else ret "".

(** Lines 244 and 250: test 10, the key of the soft-deleted copy and
    the source of the copy. *)
Definition deletedKey (key : string) : string := key ++ ".deleted".

Definition copySource (bucketName key : string) : string :=
  bucketName ++ "/" ++ key.

End MainV1.

(* ------------------------------------------------------------------ *)
(** ** Steps of [main] in the SDK v2 program *)

Module MainV2.

(** Lines 76-87. *)
Definition reportConfig
  (accessKeyID secretAccessKey region bucketName endpointURL environment : string)
  : Go (flow unit) :=
  (* Validate required environment variables *)
  if String.eqb accessKeyID "" || String.eqb secretAccessKey ""
     || String.eqb region "" || String.eqb bucketName ""
  then ret (Fatal "Missing required environment variables: AWS_ACCESS_KEY_ID, AWS_SECRET_ACCESS_KEY, AWS_DEFAULT_REGION, AWS_BUCKET_NAME")
  else
    fmt_Print ("AWS Config from environment:" ++ nl) ;;;
    fmt_Print ("  Access Key ID: " ++ accessKeyID ++ nl) ;;;
    head <- slice_to secretAccessKey 5 ;;
    fmt_Print ("  Secret Access Key: " ++ head ++ "*** (length: "
               ++ fmt_d (len_s secretAccessKey) ++ ")" ++ nl) ;;;
    fmt_Print ("  Region: " ++ region ++ nl) ;;;
    fmt_Print ("  Bucket: " ++ bucketName ++ nl) ;;;
    fmt_Print ("  Endpoint URL: " ++ endpointURL ++ nl) ;;;
    fmt_Print ("  Environment: " ++ environment ++ nl) ;;;
    ret (Continue tt).

(** Lines 145-153. *)
Definition generateKeyStep (environment : string) : Go (flow string) :=
  fmt_Println (nl ++ "--- Test 3: Generate File Key ---") ;;;
  let filename := "test-upload.txt" in
  '(key, err) <- SdkV2.GenerateImageKeyWithEnv filename environment ;;
  match err with
  | Some e =>
      fmt_Print ("Error generating file key: " ++ Error e ++ nl) ;;;
      ret Returned
  | None =>
      fmt_Print ("Generated file key: " ++ key ++ nl) ;;;
      ret (Continue key)
  end.

(** Lines 229-237. *)
Definition publicURL (endpointURL bucketName region testKey : string) : string :=
  if negb (String.eqb endpointURL "") then
    (* Custom endpoint (like Tebi.io, DigitalOcean Spaces, MinIO, etc.) *)
    let endpointURLTrimmed := TrimSuffix endpointURL "/" in
    endpointURLTrimmed ++ "/" ++ bucketName ++ "/" ++ testKey
  else
    (* Standard AWS S3 URL *)
    "https://" ++ bucketName ++ ".s3." ++ region ++ ".amazonaws.com/" ++ testKey.

(** Lines 257-261. *)
Definition listPrefix (testKey : string) : Go string :=
  let keyParts := Split testKey "/" in
  if 1 <? len keyParts then
    first <- index keyParts 0 ;;
    ret (first ++ "/") (* Get the folder prefix *)
  else ret "".

(** Lines 279 and 285. *)
Definition deletedKey (testKey : string) : string := testKey ++ ".deleted".

Definition copySource (bucketName testKey : string) : string :=
  bucketName ++ "/" ++ testKey.

End MainV2.

(** The bytes of a key made from a well-formed identifier and a
    URL-safe extension. *)
Definition key_char (a : ascii) : bool :=
  url_safe a || Ascii.eqb a "/" || Ascii.eqb a ".".

(** The calendar month of [t1] is before that of [t2]. *)
Definition earlier_month (t1 t2 : Time) : Prop :=
  Year t1 < Year t2
  \/ (Year t1 = Year t2 /\ Month_int (Mon t1) < Month_int (Mon t2)).

(** Two calls one after the other, as a caller makes them. *)
Definition two_calls (filename1 environment1 filename2 environment2 : string)
  : Go ((string * option error) * (string * option error)) :=
  r1 <- SdkV1.GenerateImageKeyWithEnv filename1 environment1 ;;
  r2 <- SdkV1.GenerateImageKeyWithEnv filename2 environment2 ;;
  ret (r1, r2).

(** A world where the generator returns a different identifier on each
    of its first two calls. *)
Definition two_id_world : World :=
  mkWorld sample_time
          (fun k _ => match k with
                      | O => (sample_id, None)
                      | _ => ("Uakgb_J5m9g-0JD", None)
                      end) 0 [].

(* ------------------------------------------------------------------ *)
(** ** The object store, as [main] sees it *)

(** A call of the S3 client, with the arguments [main] gives it. *)
Inductive request : Type :=
| ListBuckets
| HeadBucket (bucket : string)
| PutObject (bucket key body : string)
            (contentType : option string) (contentLength : option Z)
| WaitUntilObjectExists (bucket key : string)
| HeadObject (bucket key : string)
| PresignGetObject (bucket key : string) (expires : Z)
| ListObjectsV2 (bucket prefix : string) (maxKeys : Z)
| CopyObject (bucket key copySource : string)
| DeleteObject (bucket key : string).

(** The fields [main] reads in what the client returns; a pointer field
    is [None] when it is nil. *)
Record HeadObjectOutput : Type := mkHeadObjectOutput {
  ContentLength : option Z;
  LastModified : option Time;
  ETag : option string
}.

Record S3Object : Type := mkS3Object {
  Key : option string;
  Size : option Z;
  ObjectLastModified : option Time
}.

(** What one call returns: its error, and the output [main] may read
    when there is none. *)
Record Response : Type := mkResponse {
  respErr : option error;
  respBuckets : list (option string);
  respHead : HeadObjectOutput;
  respURL : string;
  respContents : list S3Object
}.

(** The state of a run of [main]: the world, the calls of the client
    made so far and their number. *)
Record RunState : Type := mkRun {
  world : World;
  ncalls : nat;
  calls : list request
}.

Definition Run (A : Type) : Type := RunState -> option (A * RunState).

Definition retR {A : Type} (a : A) : Run A := fun st => Some (a, st).

Definition bindR {A B : Type} (m : Run A) (k : A -> Run B) : Run B :=
  fun st => match m st with
            | Some (a, st') => k a st'
            | None => None
            end.

Notation "x <~ m ;; k" := (bindR m (fun x => k))
  (at level 61, m at next level, right associativity).
Notation "' pat <~ m ;; k" :=
  (bindR m (fun x => match x with pat => k end))
  (at level 61, pat pattern, m at next level, right associativity).
Notation "m ;;> k" := (bindR m (fun _ => k))
  (at level 61, right associativity).

(** A computation on the world alone. *)
Definition liftGo {A : Type} (m : Go A) : Run A :=
  fun st => match m (world st) with
            | Some (a, w') => Some (a, mkRun w' (ncalls st) (calls st))
            | None => None
            end.

Definition printR (s : string) : Run unit := liftGo (fmt_Print s).

Definition printlnR (s : string) : Run unit := liftGo (fmt_Println s).

(** [*p]: a run-time panic on a nil pointer. *)
Definition derefR {A : Type} (p : option A) : Run A :=
  fun st => match p with
            | Some a => Some (a, st)
            | None => None
            end.

(** [for i, x := range l], from the index [i]. *)
Fixpoint forRange {A : Type} (i : Z) (l : list A) (body : Z -> A -> Run unit)
  : Run unit :=
  match l with
  | [] => retR tt
  | x :: l' => body i x ;;> forRange (i + 1) l' body
  end.

(** Going on after a step that may end the run. *)
Definition andThen {A B : Type} (m : Run (flow A)) (k : A -> Run (flow B))
  : Run (flow B) :=
  r <~ m ;;
  match r with
  | Fatal msg => retR (Fatal msg)
  | Returned => retR Returned
  | Continue a => k a
  end.

(** [t.Format("2006-01-02 15:04:05")]. *)
Definition Format_datetime (t : Time) : string :=
  appendInt (Year t) 4 ++ "-" ++ appendInt (Month_int (Mon t)) 2 ++ "-"
  ++ appendInt (Day t) 2 ++ " " ++ appendInt (Hour t) 2 ++ ":"
  ++ appendInt (Minute t) 2 ++ ":" ++ appendInt (Second t) 2.

(** [15 * time.Minute], in nanoseconds. *)
Definition fifteen_minutes : Z := 15 * (60 * 1000000000).

(** The state after the writes [lines] and the calls [reqs]. *)
Definition after (st : RunState) (lines : list string) (reqs : list request)
  : RunState :=
  mkRun (printed (world st) lines) (List.length reqs + ncalls st)
        (calls st ++ reqs).

(** Every pointer field of every response is set. *)
Definition complete_object (o : S3Object) : Prop :=
  Key o <> None /\ Size o <> None /\ ObjectLastModified o <> None.

Definition complete_response (r : Response) : Prop :=
  Forall (fun b : option string => b <> None) (respBuckets r)
  /\ ContentLength (respHead r) <> None
  /\ LastModified (respHead r) <> None
  /\ ETag (respHead r) <> None
  /\ Forall complete_object (respContents r).

Section Store.

(** [backend k] is what the [k]-th call of the client returns;
    [Time_String] is the [String] method of [time.Time]. *)
Variable backend : nat -> Response.
Variable Time_String : Time -> string.

Definition call (req : request) : Run Response :=
  fun st => Some (backend (ncalls st),
                  mkRun (world st) (S (ncalls st)) (calls st ++ [req])).

(** *** Steps that both programs share *)

(** Test 1 (v1 lines 110-120, v2 lines 122-132). *)
Definition listBucketsStep : Run unit :=
  printlnR (nl ++ "--- Test 1: List Buckets ---") ;;>
  result <~ call ListBuckets ;;
  match respErr result with
  | Some err => printR ("Error listing buckets: " ++ Error err ++ nl)
  | None =>
      printR ("Successfully listed buckets: "
              ++ fmt_d (len (respBuckets result)) ++ " buckets found" ++ nl) ;;>
      forRange 0 (respBuckets result)
        (fun _ bucket =>
           name <~ derefR bucket ;;
           printR ("  - " ++ name ++ nl))
  end.

(** Test 2 (v1 lines 122-131, v2 lines 134-143). *)
Definition headBucketStep (bucketName : string) : Run unit :=
  printlnR (nl ++ "--- Test 2: Head Bucket ---") ;;>
  result <~ call (HeadBucket bucketName) ;;
  match respErr result with
  | Some err =>
      printR ("Error checking bucket '" ++ bucketName ++ "': " ++ Error err ++ nl)
  | None => printR ("Bucket '" ++ bucketName ++ "' exists and is accessible" ++ nl)
  end.

(** Test 6 (v1 lines 179-192, v2 lines 212-225); returns the error. *)
Definition metadataStep (bucketName key : string) : Run (option error) :=
  printlnR (nl ++ "--- Test 6: Get File Metadata ---") ;;>
  headResult <~ call (HeadObject bucketName key) ;;
  match respErr headResult with
  | Some err =>
      printR ("Error getting file metadata: " ++ Error err ++ nl) ;;>
      retR (Some err)
  | None =>
      printR ("✓ File metadata retrieved:" ++ nl) ;;>
      contentLength <~ derefR (ContentLength (respHead headResult)) ;;
      printR ("  Content Length: " ++ fmt_d contentLength ++ " bytes" ++ nl) ;;>
      lastModified <~ derefR (LastModified (respHead headResult)) ;;
      printR ("  Last Modified: " ++ Time_String lastModified ++ nl) ;;>
      eTag <~ derefR (ETag (respHead headResult)) ;;
      printR ("  ETag: " ++ eTag ++ nl) ;;>
      retR None
  end.

(** The report of test 9 (v1 lines 233-240, v2 lines 268-275). *)
Definition reportListing (listResult : Response) (prefix : string) : Run unit :=
  match respErr listResult with
  | Some err => printR ("Error listing files: " ++ Error err ++ nl)
  | None =>
      printR ("Found " ++ fmt_d (len (respContents listResult))
              ++ " files with prefix '" ++ prefix ++ "':" ++ nl) ;;>
      forRange 0 (respContents listResult)
        (fun i obj =>
           objKey <~ derefR (Key obj) ;;
           objSize <~ derefR (Size obj) ;;
           lastModified <~ derefR (ObjectLastModified obj) ;;
           printR ("  " ++ fmt_d (i + 1) ++ ". " ++ objKey ++ " ("
                   ++ fmt_d objSize ++ " bytes, "
                   ++ Format_datetime lastModified ++ ")" ++ nl))
  end.

(** Test 10 (v1 lines 242-267, v2 lines 277-302); returns the error. *)
Definition softDeleteStep (bucketName key : string) : Run (option error) :=
  printlnR (nl ++ "--- Test 10: Soft Delete ---") ;;>
  let deletedKey := key ++ ".deleted" in
  (* Copy to deleted key *)
  copied <~ call (CopyObject bucketName deletedKey (bucketName ++ "/" ++ key)) ;;
  match respErr copied with
  | Some err =>
      printR ("Error copying file for soft delete: " ++ Error err ++ nl) ;;>
      retR (Some err)
  | None =>
      printR ("✓ File copied to deleted key: " ++ deletedKey ++ nl) ;;>
      (* Delete original *)
      deleted <~ call (DeleteObject bucketName key) ;;
      match respErr deleted with
      | Some err =>
          printR ("Error deleting original file: " ++ Error err ++ nl) ;;>
          retR (Some err)
      | None =>
          printR ("✓ Original file deleted" ++ nl) ;;>
          retR None
      end
  end.

(** Test 11 (v1 lines 269-292, v2 lines 304-327); returns the error. *)
Definition verifySoftDeleteStep (bucketName key : string) : Run (option error) :=
  printlnR (nl ++ "--- Test 11: Verify Soft Delete ---") ;;>
  let deletedKey := key ++ ".deleted" in
  (* Check if original file is gone *)
  original <~ call (HeadObject bucketName key) ;;
  match respErr original with
  | Some _ => printR ("✓ Original file no longer exists (expected)" ++ nl)
  | None => printR ("✗ Original file still exists (unexpected)" ++ nl)
  end ;;>
  (* Check if deleted version exists *)
  copy <~ call (HeadObject bucketName deletedKey) ;;
  match respErr copy with
  | Some err =>
      printR ("✗ Deleted file does not exist: " ++ Error err ++ nl) ;;>
      retR (Some err)
  | None =>
      printR ("✓ Deleted file exists with .deleted suffix" ++ nl) ;;>
      retR None
  end.

(** Test 12 (v1 lines 294-304, v2 lines 329-339); returns the error. *)
Definition cleanupStep (bucketName key : string) : Run (option error) :=
  printlnR (nl ++ "--- Test 12: Cleanup ---") ;;>
  let deletedKey := key ++ ".deleted" in
  result <~ call (DeleteObject bucketName deletedKey) ;;
  match respErr result with
  | Some err =>
      printR ("Error cleaning up deleted file: " ++ Error err ++ nl) ;;>
      retR (Some err)
  | None =>
      printR ("✓ Cleanup complete - deleted file removed" ++ nl) ;;>
      retR None
  end.

End Store.

(* ------------------------------------------------------------------ *)
(** ** [main] of the SDK v1 program, from line 75 on *)

Module ProgramV1.

Section Program.

(** [sessionErr] is the error that [session.NewSession] returns. *)
Variable backend : nat -> Response.
Variable Time_String : Time -> string.
Variable sessionErr : option error.

Definition fileContent : string :=
  "Hello from AWS SDK v1!" ++ nl ++ "This should work without chunked encoding.".

(** Lines 87-108. *)
Definition initClient (endpointURL : string) : Run (flow unit) :=
  printlnR (nl ++ "--- Initializing AWS SDK v1 Client ---") ;;>
  match sessionErr with
  | Some err => retR (Fatal ("Failed to create AWS session: " ++ Error err))
  | None =>
      printR ("Using custom endpoint: " ++ endpointURL ++ nl) ;;>
      retR (Continue tt)
  end.

(** Test 4, lines 143-162; returns the key. *)
Definition uploadStep : Run (flow string) :=
  printlnR (nl ++ "--- Test 4: Upload File ---") ;;>
  let key := "test-folder/test-file.txt" in
  let bucket := "sharex" in
  result <~ call backend
              (PutObject bucket key fileContent (Some "text/plain") None) ;;
  match respErr result with
  | Some err => retR (Fatal ("upload failed: " ++ Error err))
  | None =>
      printR ("✓ File uploaded successfully with key: " ++ key ++ " ("
              ++ fmt_d (len_s fileContent) ++ " bytes)" ++ nl) ;;>
      retR (Continue key)
  end.

(** Test 5, lines 164-177. *)
Definition waitStep (bucketName key : string) : Run (option error) :=
  printlnR (nl ++ "--- Test 5: Verify Upload ---") ;;>
  result <~ call backend (WaitUntilObjectExists bucketName key) ;;
  match respErr result with
  | Some err =>
      printR ("Error waiting for object to exist: " ++ Error err ++ nl) ;;>
      retR (Some err)
  | None =>
      printR ("✓ Object exists and is accessible" ++ nl) ;;>
      retR None
  end.

(** Test 7, lines 194-205. *)
Definition publicURLStep (endpointURL bucketName region key : string) : Run unit :=
  printlnR (nl ++ "--- Test 7: Generate Public URL ---") ;;>
  let publicURL := MainV1.publicURL endpointURL bucketName region key in
  printR ("✓ Public URL: " ++ publicURL ++ nl).

(** Test 8, lines 207-218. *)
Definition presignStep (bucketName key : string) : Run (option error) :=
  printlnR (nl ++ "--- Test 8: Generate Presigned URL ---") ;;>
  result <~ call backend (PresignGetObject bucketName key fifteen_minutes) ;;
  match respErr result with
  | Some err =>
      printR ("Error generating presigned URL: " ++ Error err ++ nl) ;;>
      retR (Some err)
  | None =>
      printR ("✓ Presigned URL: " ++ respURL result ++ nl) ;;>
      retR None
  end.

(** Test 9, lines 220-240. *)
Definition listStep (bucketName key : string) : Run (option error) :=
  printlnR (nl ++ "--- Test 9: List Files ---") ;;>
  prefix <~ liftGo (MainV1.listPrefix key) ;;
  listResult <~ call backend (ListObjectsV2 bucketName prefix 10) ;;
  reportListing listResult prefix ;;>
  retR (respErr listResult).

(** Lines 143-307: from the upload to the end of [main]. *)
Definition afterKey (region bucketName endpointURL : string) : Run (flow unit) :=
  andThen uploadStep (fun key =>
    waitStep bucketName key ;;>
    metadataStep backend Time_String bucketName key ;;>
    publicURLStep endpointURL bucketName region key ;;>
    presignStep bucketName key ;;>
    listStep bucketName key ;;>
    softDeleteStep backend bucketName key ;;>
    verifySoftDeleteStep backend bucketName key ;;>
    cleanupStep backend bucketName key ;;>
    printlnR (nl ++ "--- All Tests Complete ---") ;;>
    printlnR "All S3 operations have been tested using AWS SDK v1 (no chunked encoding)." ;;>
    retR (Continue tt)).

(** Lines 75-307, on the values read from the environment. The key of
    test 3 is replaced by a fixed one at line 148. *)
Definition mainFromConfig
  (accessKeyID secretAccessKey region bucketName endpointURL environment : string)
  : Run (flow unit) :=
  andThen (liftGo (MainV1.reportConfig accessKeyID secretAccessKey region
                                        bucketName endpointURL)) (fun _ =>
  andThen (initClient endpointURL) (fun _ =>
  listBucketsStep backend ;;>
  headBucketStep backend bucketName ;;>
  andThen (liftGo (MainV1.generateKeyStep environment)) (fun _ =>
  afterKey region bucketName endpointURL))).

End Program.

End ProgramV1.

(* ------------------------------------------------------------------ *)
(** ** [main] of the SDK v2 program, from line 76 on *)

Module ProgramV2.

Section Program.

(** [loadConfigErr] is the error that [config.LoadDefaultConfig]
    returns. *)
Variable backend : nat -> Response.
Variable Time_String : Time -> string.
Variable loadConfigErr : option error.

Definition fileContent : string :=
  "Hello from AWS SDK v2 with environment variables!" ++ nl
  ++ "This should work with proper Tebi.io configuration.".

(** Lines 89-120. *)
Definition initClient (endpointURL : string) : Run (flow unit) :=
  printlnR (nl ++ "--- Initializing AWS SDK v2 Client ---") ;;>
  match loadConfigErr with
  | Some err => retR (Fatal ("Failed to load AWS config: " ++ Error err))
  | None =>
      if negb (String.eqb endpointURL "") then
        printR ("Using custom endpoint: " ++ endpointURL ++ nl) ;;>
        retR (Continue tt)
      else
        printR ("Using default AWS S3 endpoint" ++ nl) ;;>
        retR (Continue tt)
  end.

(** Test 4, lines 155-196; returns [testKey] and [err]. *)
Definition uploadStep (bucketName : string) : Run (string * option error) :=
  printlnR (nl ++ "--- Test 4: Upload File ---") ;;>
  let testKey := "test-folder/test-file-v2.txt" in
  (* Try different upload approaches with AWS SDK v2 *)
  printR ("Attempting upload with key: " ++ testKey ++ nl) ;;>
  (* Method 1: Basic PutObject *)
  first <~ call backend
             (PutObject bucketName testKey fileContent (Some "text/plain")
                        (Some (len_s fileContent))) ;;
  match respErr first with
  | Some err =>
      printR ("PutObject failed: " ++ Error err ++ nl) ;;>
      (* Method 2: Try with minimal parameters *)
      printlnR "Trying minimal PutObject..." ;;>
      second <~ call backend
                  (PutObject bucketName (testKey ++ "-minimal") fileContent
                             None None) ;;
      match respErr second with
      | Some err =>
          printR ("Minimal PutObject also failed: " ++ Error err ++ nl) ;;>
          printlnR "Upload failed with AWS SDK v2 - this appears to be a Tebi.io compatibility issue" ;;>
          retR (testKey, Some err)
      | None =>
          printR ("✓ Minimal PutObject succeeded with key: "
                  ++ (testKey ++ "-minimal") ++ " ("
                  ++ fmt_d (len_s fileContent) ++ " bytes)" ++ nl) ;;>
          (* Use the successful key for remaining tests *)
          retR (testKey ++ "-minimal", None)
      end
  | None =>
      printR ("✓ PutObject succeeded with key: " ++ testKey ++ " ("
              ++ fmt_d (len_s fileContent) ++ " bytes)" ++ nl) ;;>
      retR (testKey, None)
  end.

(** Test 5, lines 200-210. *)
Definition headStep (bucketName testKey : string) : Run (option error) :=
  printlnR (nl ++ "--- Test 5: Verify Upload ---") ;;>
  result <~ call backend (HeadObject bucketName testKey) ;;
  match respErr result with
  | Some err =>
      printR ("Error verifying object exists: " ++ Error err ++ nl) ;;>
      retR (Some err)
  | None =>
      printR ("✓ Object exists and is accessible" ++ nl) ;;>
      retR None
  end.

(** Test 7, lines 227-238. *)
Definition publicURLStep (endpointURL bucketName region testKey : string)
  : Run unit :=
  printlnR (nl ++ "--- Test 7: Generate Public URL ---") ;;>
  let publicURL := MainV2.publicURL endpointURL bucketName region testKey in
  printR ("✓ Public URL: " ++ publicURL ++ nl).

(** Test 8, lines 240-253. *)
Definition presignStep (bucketName testKey : string) : Run (option error) :=
  printlnR (nl ++ "--- Test 8: Generate Presigned URL ---") ;;>
  presignedResult <~ call backend
                       (PresignGetObject bucketName testKey fifteen_minutes) ;;
  match respErr presignedResult with
  | Some err =>
      printR ("Error generating presigned URL: " ++ Error err ++ nl) ;;>
      retR (Some err)
  | None =>
      printR ("✓ Presigned URL: " ++ respURL presignedResult ++ nl) ;;>
      retR None
  end.

(** Test 9, lines 255-275. *)
Definition listStep (bucketName testKey : string) : Run (option error) :=
  printlnR (nl ++ "--- Test 9: List Files ---") ;;>
  prefix <~ liftGo (MainV2.listPrefix testKey) ;;
  listResult <~ call backend (ListObjectsV2 bucketName prefix 10) ;;
  reportListing listResult prefix ;;>
  retR (respErr listResult).

(** Lines 199-340, the body of [if err == nil]. The variable [err] of
    [main] is assigned by test 5 only: test 6 declares another [err],
    which the tests after it use. The result is the [err] of [main]. *)
Definition verifySteps (region bucketName endpointURL testKey : string)
  : Run (option error) :=
  err <~ headStep bucketName testKey ;;
  metadataStep backend Time_String bucketName testKey ;;>
  publicURLStep endpointURL bucketName region testKey ;;>
  presignStep bucketName testKey ;;>
  listStep bucketName testKey ;;>
  softDeleteStep backend bucketName testKey ;;>
  verifySoftDeleteStep backend bucketName testKey ;;>
  cleanupStep backend bucketName testKey ;;>
  retR err.

(** Lines 342-348. *)
Definition summaryStep (err : option error) : Run unit :=
  printlnR (nl ++ "--- All Tests Complete ---") ;;>
  match err with
  | Some _ =>
      printlnR "Some tests failed due to upload issues with AWS SDK v2 and Tebi.io." ;;>
      printlnR "This appears to be a known compatibility issue between AWS SDK v2 and Tebi.io's S3 implementation."
  | None =>
      printlnR "All S3 operations completed successfully using AWS SDK v2!"
  end.

(** Lines 155-348: from the upload to the end of [main]. *)
Definition afterKey (region bucketName endpointURL : string) : Run (flow unit) :=
  '(testKey, err) <~ uploadStep bucketName ;;
  err <~ match err with
         | None =>
             (* If upload succeeded, continue with other tests *)
             verifySteps region bucketName endpointURL testKey
         | Some e => retR (Some e)
         end ;;
  summaryStep err ;;>
  retR (Continue tt).

(** Lines 76-348, on the values read from the environment. *)
Definition mainFromConfig
  (accessKeyID secretAccessKey region bucketName endpointURL environment : string)
  : Run (flow unit) :=
  andThen (liftGo (MainV2.reportConfig accessKeyID secretAccessKey region
                                        bucketName endpointURL environment))
          (fun _ =>
  andThen (initClient endpointURL) (fun _ =>
  listBucketsStep backend ;;>
  headBucketStep backend bucketName ;;>
  andThen (liftGo (MainV2.generateKeyStep environment)) (fun _ =>
  afterKey region bucketName endpointURL))).

End Program.

End ProgramV2.

(** The line written last. *)
Definition last_line (st : RunState) : string :=
  List.last (stdout (world st)) EmptyString.

(** A store that accepts everything and holds one bucket and one
    object, and one that refuses every call. *)
Definition sample_response : Response :=
  mkResponse None [Some "bucket"]
    (mkHeadObjectOutput (Some 66) (Some sample_time) (Some "etag"))
    "https://s3.example/presigned"
    [mkS3Object (Some "test-folder/test-file.txt") (Some 66) (Some sample_time)].

Definition accepting_backend : nat -> Response := fun _ => sample_response.

Definition refused_response : Response :=
  mkResponse (Some (errors_New "AccessDenied")) []
    (mkHeadObjectOutput (Some 0) (Some sample_time) (Some "")) "" [].

Definition refusing_backend : nat -> Response := fun _ => refused_response.

(** A store that refuses the calls whose numbers are in [ks] and
    accepts the others. *)
Definition backend_refusing (ks : list nat) : nat -> Response :=
  fun k => if existsb (Nat.eqb k) ks then refused_response else sample_response.

Definition sample_Time_String (t : Time) : string := Format_datetime t.

Definition start : RunState := mkRun sample_world 0 [].

(** The state once the generator has been called. *)
Definition drawn (st : RunState) : RunState :=
  mkRun (advance (world st)) (ncalls st) (calls st).

(** The calls of tests 8 to 12 on [key]: the removal of the original is
    there only when the copy succeeded. *)
Definition closing_calls (bucketName key prefix : string) (copied : bool)
  : list request :=
  [PresignGetObject bucketName key fifteen_minutes;
   ListObjectsV2 bucketName prefix 10;
   CopyObject bucketName (key ++ ".deleted") (bucketName ++ "/" ++ key)]
  ++ (if copied then [DeleteObject bucketName key] else [])
  ++ [HeadObject bucketName key;
      HeadObject bucketName (key ++ ".deleted");
      DeleteObject bucketName (key ++ ".deleted")].

(** The call succeeded. *)
Definition accepted (r : Response) : bool :=
  match respErr r with
  | None => true
  | Some _ => false
  end.

(** The four required values are there and the secret key is long
    enough for the report. *)
Definition configured (accessKeyID secretAccessKey region bucketName : string)
  : Prop :=
  accessKeyID <> "" /\ secretAccessKey <> "" /\ region <> "" /\ bucketName <> ""
  /\ 5 <= len_s secretAccessKey.

Example run_photo :
  option_map fst (SdkV1.GenerateImageKeyWithEnv "photo.PNG" "production" sample_world)
  = Some ("202611/V1StGXR8_Z5jdHi.PNG", None).
Proof. vm_compute. reflexivity. Qed.

Example run_dev :
  option_map fst (SdkV1.GenerateImageKeyWithEnv "scan" "dev" sample_world)
  = Some ("dev/202611/V1StGXR8_Z5jdHi.jpg", None).
Proof. vm_compute. reflexivity. Qed.

Example run_broken :
  option_map fst (SdkV1.GenerateImageKeyWithEnv "photo.PNG" "dev" broken_world)
  = Some ("", Some (wrapError "failed to generate nanoid: entropy exhausted"
                              (errors_New "entropy exhausted"))).
Proof. vm_compute. reflexivity. Qed.

(* ------------------------------------------------------------------ *)
(** ** Strings: concatenation and occurrences *)

Section StringFacts.

Lemma append_nil_r (s : string) : s ++ "" = s.
Proof. induction s as [|a s IH]; simpl; [reflexivity | now rewrite IH]. Qed.

Lemma append_assoc (a b c : string) : (a ++ b) ++ c = a ++ (b ++ c).
Proof. induction a as [|x a IH]; simpl; [reflexivity | now rewrite IH]. Qed.

Lemma length_append (a b : string) :
  String.length (a ++ b) = (String.length a + String.length b)%nat.
Proof. induction a as [|x a IH]; simpl; [reflexivity | now rewrite IH]. Qed.

Lemma append_inj_same_length (a1 a2 b1 b2 : string) :
  String.length a1 = String.length a2 ->
  a1 ++ b1 = a2 ++ b2 -> a1 = a2 /\ b1 = b2.
Proof.
  revert a2. induction a1 as [|x a1 IH]; intros [|y a2] Hl He; simpl in *;
    try discriminate.
  - now split.
  - injection He as -> He. injection Hl as Hl.
    destruct (IH a2 Hl He) as [-> ->]. now split.
Qed.

Lemma append_inj_tail_length (a1 a2 b1 b2 : string) :
  String.length b1 = String.length b2 ->
  a1 ++ b1 = a2 ++ b2 -> a1 = a2 /\ b1 = b2.
Proof.
  intros Hl He. apply append_inj_same_length; [|exact He].
  apply (f_equal String.length) in He. rewrite !length_append in He. lia.
Qed.

Lemma contains_char_append (c : ascii) (a b : string) :
  contains_char c (a ++ b) = contains_char c a || contains_char c b.
Proof.
  induction a as [|x a IH]; simpl; [reflexivity|].
  now rewrite IH, orb_assoc.
Qed.

Lemma all_chars_append (p : ascii -> bool) (a b : string) :
  all_chars p (a ++ b) = all_chars p a && all_chars p b.
Proof.
  induction a as [|x a IH]; simpl; [reflexivity|].
  now rewrite IH, andb_assoc.
Qed.

Lemma all_chars_excludes (p : ascii -> bool) (c : ascii) (s : string) :
  p c = false -> all_chars p s = true -> contains_char c s = false.
Proof.
  intros Hc. induction s as [|a s IH]; simpl; [reflexivity|].
  intros H. apply andb_prop in H as [Ha Hs]. rewrite (IH Hs), orb_false_r.
  destruct (Ascii.eqb_spec a c) as [->|]; [congruence | reflexivity].
Qed.

Lemma all_chars_weaken (p q : ascii -> bool) (s : string) :
  (forall a, p a = true -> q a = true) ->
  all_chars p s = true -> all_chars q s = true.
Proof.
  intros Hpq. induction s as [|a s IH]; simpl; [reflexivity|].
  intros H. apply andb_prop in H as [Ha Hs]. now rewrite (Hpq a Ha), IH.
Qed.

End StringFacts.

(* ------------------------------------------------------------------ *)
(** ** [Split] and the text after the last separator *)

Section SplitFacts.

Variable c : ascii.

Lemma Split_not_nil (s : string) : Split s c <> [].
Proof.
  destruct s as [|a s]; simpl; [discriminate|].
  destruct (Ascii.eqb a c); [discriminate|].
  destruct (Split s c); discriminate.
Qed.

(** The loop of [strings.Split] stops when no separator is left ... *)
Lemma Split_no_sep (s : string) :
  contains_char c s = false -> Split s c = [s].
Proof.
  induction s as [|a s IH]; simpl; [reflexivity|].
  intros H. apply orb_false_elim in H as [Ha Hs].
  now rewrite Ha, (IH Hs).
Qed.

(** ... and otherwise cuts at the first separator and goes on with the
    rest. *)
Lemma Split_first_sep (a b : string) :
  contains_char c a = false ->
  Split (a ++ String c b) c = a :: Split b c.
Proof.
  induction a as [|x a IH]; simpl.
  - intros _. now rewrite Ascii.eqb_refl.
  - intros H. apply orb_false_elim in H as [Hx Ha].
    now rewrite Hx, (IH Ha).
Qed.

Lemma after_last_none (s : string) :
  after_last c s = None <-> contains_char c s = false.
Proof.
  induction s as [|a s IH]; simpl; [tauto|].
  destruct (after_last c s) as [t|].
  - split; [discriminate|]. intros H. apply orb_false_elim in H as [_ Hs].
    apply IH in Hs. discriminate.
  - destruct IH as [IH _]. rewrite (IH eq_refl), orb_false_r.
    destruct (Ascii.eqb a c); split; congruence.
Qed.

(** [after_last] returns the text after a separator that is followed by
    no other. *)
Lemma after_last_sound (s t : string) :
  after_last c s = Some t ->
  contains_char c t = false /\ exists pre, s = pre ++ String c t.
Proof.
  revert t. induction s as [|a s IH]; simpl; [discriminate|].
  intros t. destruct (after_last c s) as [u|] eqn:E.
  - intros [= ->]. destruct (IH t eq_refl) as [Ht [pre ->]].
    split; [exact Ht|]. now exists (String a pre).
  - destruct (Ascii.eqb_spec a c) as [->|]; [|discriminate].
    intros [= ->]. split; [now apply after_last_none|]. now exists "".
Qed.

Lemma after_last_complete (pre suf : string) :
  contains_char c suf = false ->
  after_last c (pre ++ String c suf) = Some suf.
Proof.
  intros Hs. apply after_last_none in Hs.
  induction pre as [|a pre IH]; simpl.
  - now rewrite Hs, Ascii.eqb_refl.
  - now rewrite IH.
Qed.

(** With a separator in [s], the slice has at least two elements and
    its last one is the text after the last separator. *)
Lemma Split_with_sep (s : string) :
  contains_char c s = true ->
  exists front t,
    after_last c s = Some t /\ front <> [] /\ Split s c = (front ++ [t])%list.
Proof.
  induction s as [|a s IH]; simpl; [discriminate|].
  destruct (contains_char c s) eqn:Hs.
  - intros _. destruct (IH eq_refl) as (front & t & Ht & Hne & Hsp).
    rewrite Ht, Hsp. destruct (Ascii.eqb a c).
    + exists ("" :: front)%list, t.
      split; [reflexivity | split; [discriminate | reflexivity]].
    + destruct front as [|p front]; [congruence|]. simpl.
      exists (String a p :: front)%list, t.
      split; [reflexivity | split; [discriminate | reflexivity]].
  - rewrite orb_false_r. intros Ha. rewrite Ha.
    rewrite (proj2 (after_last_none s) Hs), (Split_no_sep s Hs).
    exists [""], s.
    split; [reflexivity | split; [discriminate | reflexivity]].
Qed.

End SplitFacts.

(* ------------------------------------------------------------------ *)
(** ** What a run returns *)

Section Runs.

(** Lines 23-27: the slice access never panics, and the extension is
    [chosen_ext]. *)
Lemma extension_step (filename : string) (w : World) :
  (if 1 <? len (Split filename ".")
   then index (Split filename ".") (len (Split filename ".") - 1)
   else ret "jpg") w
  = Some (chosen_ext filename, w).
Proof.
  unfold chosen_ext.
  destruct (contains_char "." filename) eqn:Hd.
  - destruct (Split_with_sep "." filename Hd) as (front & t & Ht & Hne & Hsp).
    rewrite Ht, Hsp.
    assert (Hlen : len (front ++ [t])%list = Z.of_nat (List.length front) + 1)
      by (unfold len; rewrite length_app; simpl; lia).
    assert (Hpos : (0 < List.length front)%nat)
      by (destruct front; [congruence | simpl; lia]).
    unfold index. rewrite Hlen.
    destruct (Z.ltb_spec 1 (Z.of_nat (List.length front) + 1)); [|lia].
    destruct (Z.ltb_spec (Z.of_nat (List.length front) + 1 - 1) 0); [lia|].
    destruct (Z.leb_spec (Z.of_nat (List.length front) + 1)
                         (Z.of_nat (List.length front) + 1 - 1)); [lia|].
    simpl orb. cbv iota.
    replace (Z.to_nat (Z.of_nat (List.length front) + 1 - 1))
      with (List.length front) by lia.
    now rewrite nth_error_app2, Nat.sub_diag by lia.
  - rewrite (Split_no_sep "." filename Hd).
    now rewrite (proj2 (after_last_none "." filename) Hd).
Qed.

Lemma GenerateImageKey_run (filename : string) (w : World) :
  SdkV1.GenerateImageKey filename w
  = Some (match snd (next_nanoid w) with
          | Some e => ("", Some (fmt_Errorf_w "failed to generate nanoid: " e))
          | None => (Sprintf_key (Format_200601 (wallClock w))
                                 (fst (next_nanoid w)) (chosen_ext filename), None)
          end, advance w).
Proof.
  unfold SdkV1.GenerateImageKey. cbv zeta. unfold bind at 1.
  rewrite (extension_step filename w).
  unfold bind, time_Now, gonanoid_New, next_nanoid, ret.
  destruct (nanoidSource w (nanoidCalls w) 15) as [id [e|]]; reflexivity.
Qed.

Lemma GenerateImageKeyWithEnv_run (filename environment : string) (w : World) :
  SdkV1.GenerateImageKeyWithEnv filename environment w
  = Some (match snd (next_nanoid w) with
          | Some e => ("", Some (fmt_Errorf_w "failed to generate nanoid: " e))
          | None =>
              let key := Sprintf_key (Format_200601 (wallClock w))
                                     (fst (next_nanoid w)) (chosen_ext filename) in
              (if String.eqb environment "dev" || String.eqb environment "development"
               then "dev/" ++ key else key, None)
          end, advance w).
Proof.
  unfold SdkV1.GenerateImageKeyWithEnv, bind.
  rewrite GenerateImageKey_run.
  destruct (snd (next_nanoid w)) as [e|]; [reflexivity|].
  cbv zeta.
  destruct (String.eqb environment "dev" || String.eqb environment "development");
    reflexivity.
Qed.

Lemma dev_environment_eqb (environment : string) :
  String.eqb environment "dev" || String.eqb environment "development" = true
  <-> dev_environment environment.
Proof.
  unfold dev_environment. rewrite orb_true_iff, !String.eqb_eq. tauto.
Qed.

End Runs.

(* ------------------------------------------------------------------ *)
(** ** Decimal formatting *)

Section Decimal.

Ltac digit_cases d :=
  assert (d = 0 \/ d = 1 \/ d = 2 \/ d = 3 \/ d = 4 \/ d = 5 \/ d = 6
          \/ d = 7 \/ d = 8 \/ d = 9) as Hcases by lia;
  repeat (destruct Hcases as [-> | Hcases]; [reflexivity|]);
  subst; reflexivity.

Lemma digit_char_is_digit (d : Z) :
  0 <= d <= 9 -> is_digit (digit_char d) = true.
Proof. intros H. digit_cases d. Qed.

Lemma digit_val_char (d : Z) :
  0 <= d <= 9 -> digit_val (digit_char d) = d.
Proof. intros H. digit_cases d. Qed.

Lemma utoa_digits (f : nat) : forall u,
  0 <= u -> all_chars is_digit (utoa f u) = true.
Proof.
  induction f as [|f IH]; intros u Hu; simpl; [reflexivity|].
  rewrite all_chars_append. simpl.
  rewrite digit_char_is_digit by (pose proof (Z.mod_pos_bound u 10); lia).
  destruct (u <? 10); simpl; [reflexivity|].
  rewrite IH by (apply Z.div_pos; lia). reflexivity.
Qed.

Lemma utoa_not_empty (f : nat) (u : Z) : utoa (S f) u <> "".
Proof.
  simpl. destruct (if u <? 10 then "" else utoa f (u / 10)); discriminate.
Qed.

Lemma utoa_length (f : nat) : forall (k : nat) u,
  (1 <= k)%nat -> 0 <= u < 10 ^ Z.of_nat k ->
  (String.length (utoa f u) <= k)%nat.
Proof.
  induction f as [|f IH]; intros k u Hk Hu; simpl; [lia|].
  rewrite length_append. simpl.
  destruct (Z.ltb_spec u 10) as [Hlt|Hge]; simpl; [lia|].
  destruct k as [|[|k]]; [lia | simpl in Hu; lia |].
  assert (String.length (utoa f (u / 10)) <= S k)%nat; [|lia].
  apply IH; [lia|]. split; [apply Z.div_pos; lia|].
  apply Z.div_lt_upper_bound; [lia|].
  replace (Z.of_nat (S (S k))) with (Z.succ (Z.of_nat (S k))) in Hu by lia.
  rewrite Z.pow_succ_r in Hu by lia. lia.
Qed.

Lemma atoi_acc_append (a b : string) : forall acc,
  atoi_acc acc (a ++ b) = atoi_acc (atoi_acc acc a) b.
Proof. induction a as [|x a IH]; intros acc; simpl; [reflexivity | apply IH]. Qed.

Lemma atoi_zeros (n : nat) : atoi_acc 0 (zeros n) = 0.
Proof. induction n as [|n IH]; simpl; [reflexivity | exact IH]. Qed.

Lemma atoi_utoa (f : nat) : forall u,
  0 <= u < 10 ^ Z.of_nat f -> atoi_acc 0 (utoa f u) = u.
Proof.
  induction f as [|f IH]; intros u Hu.
  - simpl in *. lia.
  - simpl utoa. rewrite atoi_acc_append. simpl.
    rewrite digit_val_char by (pose proof (Z.mod_pos_bound u 10); lia).
    destruct (Z.ltb_spec u 10) as [Hlt|Hge]; simpl.
    + rewrite Z.mod_small; lia.
    + rewrite IH.
      * pose proof (Z.div_mod u 10). lia.
      * split; [apply Z.div_pos; lia|].
        apply Z.div_lt_upper_bound; [lia|].
        replace (Z.of_nat (S f)) with (Z.succ (Z.of_nat f)) in Hu by lia.
        rewrite Z.pow_succ_r in Hu by lia. lia.
Qed.

(** The fuel of [decimal] is enough for every digit. *)
Lemma decimal_fuel (u : Z) :
  0 <= u -> u < 10 ^ Z.of_nat (S (Z.to_nat (Z.log2 u))).
Proof.
  intros Hu. pose proof (Z.log2_nonneg u) as Hl.
  replace (Z.of_nat (S (Z.to_nat (Z.log2 u)))) with (Z.succ (Z.log2 u)) by lia.
  assert (H2 : u < 2 ^ Z.succ (Z.log2 u)).
  { destruct (Z.eq_dec u 0) as [->|Hne]; [reflexivity|].
    apply Z.log2_spec. lia. }
  assert (2 ^ Z.succ (Z.log2 u) <= 10 ^ Z.succ (Z.log2 u))
    by (apply Z.pow_le_mono_l; lia).
  lia.
Qed.

Lemma atoi_decimal (u : Z) : 0 <= u -> atoi_acc 0 (decimal u) = u.
Proof.
  intros Hu. unfold decimal. apply atoi_utoa.
  split; [exact Hu | now apply decimal_fuel].
Qed.

Lemma zeros_digits (n : nat) : all_chars is_digit (zeros n) = true.
Proof. induction n as [|n IH]; simpl; [reflexivity | exact IH]. Qed.

Lemma zeros_length (n : nat) : String.length (zeros n) = n.
Proof. induction n as [|n IH]; simpl; [reflexivity | now rewrite IH]. Qed.

Lemma padded_digits (u : Z) (width : nat) :
  0 <= u ->
  all_chars is_digit (zeros (width - String.length (decimal u)) ++ decimal u) = true.
Proof.
  intros Hu. rewrite all_chars_append, zeros_digits. simpl.
  now apply utoa_digits.
Qed.

Lemma is_digit_int_char (a : ascii) : is_digit a = true -> int_char a = true.
Proof. unfold int_char. now intros ->. Qed.

(** A formatted integer is an optional minus sign and digits. *)
Lemma appendInt_chars (x : Z) (width : nat) :
  all_chars int_char (appendInt x width) = true.
Proof.
  unfold appendInt. cbv zeta.
  assert (H : all_chars int_char
                (zeros (width - String.length (decimal (Z.abs x)))
                 ++ decimal (Z.abs x)) = true).
  { apply (all_chars_weaken is_digit); [exact is_digit_int_char|].
    apply padded_digits. lia. }
  destruct (x <? 0); simpl; exact H.
Qed.

Lemma appendInt_not_empty (x : Z) (width : nat) : appendInt x width <> "".
Proof.
  unfold appendInt. cbv zeta. intros H.
  apply (f_equal String.length) in H. rewrite !length_append in H.
  pose proof (utoa_not_empty (Z.to_nat (Z.log2 (Z.abs x))) (Z.abs x)) as Hne.
  fold (decimal (Z.abs x)) in Hne.
  destruct (decimal (Z.abs x)); [congruence|]. simpl in H. lia.
Qed.

Lemma parseInt_digits (s : string) :
  all_chars is_digit s = true -> parseInt s = atoi_acc 0 s.
Proof.
  destruct s as [|a r]; simpl; [reflexivity|].
  intros H. apply andb_prop in H as [Ha _].
  destruct (Ascii.eqb_spec a "-") as [->|]; [discriminate | reflexivity].
Qed.

(** Reading a formatted integer gives the integer back. *)
Lemma parseInt_appendInt (x : Z) (width : nat) :
  parseInt (appendInt x width) = x.
Proof.
  unfold appendInt. cbv zeta.
  assert (Hv : atoi_acc 0 (zeros (width - String.length (decimal (Z.abs x)))
                           ++ decimal (Z.abs x)) = Z.abs x).
  { rewrite atoi_acc_append, atoi_zeros. apply atoi_decimal. lia. }
  destruct (Z.ltb_spec x 0) as [Hneg|Hpos].
  - simpl. rewrite Hv. lia.
  - simpl append. rewrite parseInt_digits by (apply padded_digits; lia).
    rewrite Hv. lia.
Qed.

Lemma appendInt_inj (x y : Z) (width : nat) :
  appendInt x width = appendInt y width -> x = y.
Proof.
  intros H. apply (f_equal parseInt) in H.
  now rewrite !parseInt_appendInt in H.
Qed.

(** Within the range of the width the result is exactly [width] digits. *)
Lemma appendInt_in_range (x : Z) (width : nat) :
  (1 <= width)%nat -> 0 <= x < 10 ^ Z.of_nat width ->
  String.length (appendInt x width) = width
  /\ all_chars is_digit (appendInt x width) = true.
Proof.
  intros Hw Hx. unfold appendInt. cbv zeta.
  destruct (Z.ltb_spec x 0) as [Hneg|_]; [lia|]. simpl append.
  rewrite Z.abs_eq by lia. split.
  - rewrite length_append, zeros_length.
    pose proof (utoa_length (S (Z.to_nat (Z.log2 x))) width x Hw Hx) as Hl.
    fold (decimal x) in Hl. lia.
  - apply padded_digits. lia.
Qed.

Lemma month_two_digits (m : Month) :
  String.length (appendInt (Month_int m) 2) = 2%nat
  /\ all_chars is_digit (appendInt (Month_int m) 2) = true.
Proof. destruct m; vm_compute; split; reflexivity. Qed.

Lemma Month_int_inj (m1 m2 : Month) : Month_int m1 = Month_int m2 -> m1 = m2.
Proof. destruct m1, m2; simpl; intros H; try reflexivity; discriminate. Qed.

End Decimal.

(* ------------------------------------------------------------------ *)
(** ** The date segment *)

Section DateSegment.

Lemma Format_chars (t : Time) : all_chars int_char (Format_200601 t) = true.
Proof.
  unfold Format_200601. now rewrite all_chars_append, !appendInt_chars.
Qed.

Lemma Format_excludes (c : ascii) (t : Time) :
  int_char c = false -> contains_char c (Format_200601 t) = false.
Proof.
  intros Hc. apply (all_chars_excludes int_char); [exact Hc | apply Format_chars].
Qed.

Lemma Format_head (t : Time) :
  exists a r, Format_200601 t = String a r /\ int_char a = true.
Proof.
  pose proof (Format_chars t) as Hc.
  destruct (Format_200601 t) as [|a r] eqn:E.
  - unfold Format_200601 in E.
    pose proof (appendInt_not_empty (Year t) 4) as Hne.
    destruct (appendInt (Year t) 4); [congruence | discriminate].
  - simpl in Hc. apply andb_prop in Hc as [Ha _]. now exists a, r.
Qed.

(** The formatted month determines the calendar month. *)
Lemma Format_inj (t1 t2 : Time) :
  Format_200601 t1 = Format_200601 t2 -> same_month t1 t2.
Proof.
  unfold Format_200601, same_month. intros H.
  apply append_inj_tail_length in H.
  - destruct H as [Hy Hm]. split.
    + now apply appendInt_inj in Hy.
    + apply Month_int_inj. now apply appendInt_inj in Hm.
  - now rewrite (proj1 (month_two_digits (Mon t1))),
                (proj1 (month_two_digits (Mon t2))).
Qed.

(** For a four-digit year the segment is six digits. *)
Lemma Format_six_digits (t : Time) :
  0 <= Year t <= 9999 ->
  String.length (Format_200601 t) = 6%nat
  /\ all_chars is_digit (Format_200601 t) = true.
Proof.
  intros Hy. unfold Format_200601.
  destruct (appendInt_in_range (Year t) 4) as [Hl Hd]; [lia | simpl; lia |].
  destruct (month_two_digits (Mon t)) as [Hl2 Hd2].
  now rewrite length_append, all_chars_append, Hl, Hl2, Hd, Hd2.
Qed.

End DateSegment.

(* ------------------------------------------------------------------ *)
(** ** The shape of a key *)

Section KeyShape.

Lemma Sprintf_key_dot (a b c : string) :
  Sprintf_key a b c = (a ++ "/" ++ b) ++ String "." c.
Proof. unfold Sprintf_key. now rewrite !append_assoc. Qed.

Lemma Sprintf_key_slash (a b c : string) :
  Sprintf_key a b c = a ++ String "/" (b ++ "." ++ c).
Proof. reflexivity. Qed.

Lemma chosen_ext_no_dot (filename : string) :
  contains_char "." (chosen_ext filename) = false.
Proof.
  unfold chosen_ext. destruct (after_last "." filename) as [suf|] eqn:E.
  - now apply after_last_sound in E.
  - reflexivity.
Qed.

(** The key ends in a dot and the chosen extension. *)
Lemma key_after_last_dot (a b : string) (filename : string) :
  after_last "." (Sprintf_key a b (chosen_ext filename))
  = Some (chosen_ext filename).
Proof.
  rewrite Sprintf_key_dot. apply after_last_complete, chosen_ext_no_dot.
Qed.

Lemma chosen_ext_suffix (pre suf : string) :
  contains_char "." suf = false -> chosen_ext (pre ++ "." ++ suf) = suf.
Proof.
  intros H. unfold chosen_ext. simpl append.
  now rewrite (after_last_complete "." pre suf H).
Qed.

Lemma chosen_ext_default (filename : string) :
  contains_char "." filename = false -> chosen_ext filename = "jpg".
Proof.
  intros H. unfold chosen_ext.
  now rewrite (proj2 (after_last_none "." filename) H).
Qed.

(** The key starts with the date segment. *)
Lemma key_date_segment (t : Time) (b c : string) :
  date_segment (Sprintf_key (Format_200601 t) b c) = Format_200601 t.
Proof.
  unfold date_segment. rewrite Sprintf_key_slash, Split_first_sep.
  - reflexivity.
  - now apply Format_excludes.
Qed.

Lemma key_segments (t : Time) (b c : string) :
  contains_char "/" b = false -> contains_char "/" c = false ->
  Split (Sprintf_key (Format_200601 t) b c) "/"
  = [Format_200601 t; b ++ "." ++ c].
Proof.
  intros Hb Hc. rewrite Sprintf_key_slash, Split_first_sep.
  - rewrite Split_no_sep; [reflexivity|].
    rewrite contains_char_append, Hb. simpl. exact Hc.
  - now apply Format_excludes.
Qed.

Lemma key_not_dev_prefixed (t : Time) (b c : string) :
  HasPrefix (Sprintf_key (Format_200601 t) b c) "dev/" = false.
Proof.
  destruct (Format_head t) as (a & r & E & Ha).
  unfold Sprintf_key. rewrite E. simpl.
  destruct (Ascii.eqb_spec a "d") as [->|]; [discriminate | reflexivity].
Qed.

Lemma url_safe_no_slash (id : string) :
  all_chars url_safe id = true -> contains_char "/" id = false.
Proof. now apply all_chars_excludes. Qed.

Lemma take_class_append (p : ascii -> bool) (a b : string) :
  all_chars p a = true -> take_class p (String.length a) (a ++ b) = Some b.
Proof.
  induction a as [|x a IH]; simpl; [reflexivity|].
  intros H. apply andb_prop in H as [-> Ha]. now apply IH.
Qed.

Lemma take_class_exact (p : ascii -> bool) (n : nat) (a b : string) :
  String.length a = n -> all_chars p a = true ->
  take_class p n (a ++ b) = Some b.
Proof. intros <-. apply take_class_append. Qed.

Lemma lower_char_fixed (a : ascii) : lower_char a = a -> is_upper a = false.
Proof.
  destruct a as [[] [] [] [] [] [] [] []]; vm_compute; intros H;
    solve [reflexivity | discriminate H].
Qed.

Lemma ToLower_fixed (s : string) : ToLower s = s <-> has_upper s = false.
Proof.
  unfold has_upper. rewrite negb_false_iff.
  induction s as [|a s IH]; simpl; [tauto|].
  rewrite andb_true_iff, negb_true_iff, <- IH. split.
  - intros [= Ha Hs]. split; [now apply lower_char_fixed | exact Hs].
  - intros [Ha Hs]. unfold lower_char. now rewrite Ha, Hs.
Qed.

End KeyShape.

(* ------------------------------------------------------------------ *)
(** ** Properties of the generated keys *)

(** C1. When the generator succeeds, [GenerateImageKey] returns a key
    whose extension (the text after the key's last dot) is the text
    after the last dot of the file name whenever the file name has a
    dot, and is "jpg" whenever it has none. *)
Theorem key_extension_from_filename (filename : string) (w : World) (id : string) :
  next_nanoid w = (id, None) ->
  exists key,
    SdkV1.GenerateImageKey filename w = Some ((key, None), advance w)
    /\ (forall pre suf,
          filename = pre ++ "." ++ suf -> contains_char "." suf = false ->
          after_last "." key = Some suf)
    /\ (contains_char "." filename = false -> after_last "." key = Some "jpg").
Proof.
  intros Hn. rewrite GenerateImageKey_run, Hn. simpl snd. simpl fst.
  eexists. split; [reflexivity|]. rewrite key_after_last_dot. split.
  - intros pre suf -> Hs. now rewrite chosen_ext_suffix.
  - intros Hd. now rewrite chosen_ext_default.
Qed.

(** On "holiday.photo.PNG" the extension of the key is "PNG". *)
Lemma key_extension_from_filename_witness :
  next_nanoid sample_world = (sample_id, None)
  /\ exists key,
       SdkV1.GenerateImageKey "holiday.photo.PNG" sample_world
       = Some ((key, None), advance sample_world)
       /\ after_last "." key = Some "PNG".
Proof.
  split; [reflexivity|].
  destruct (key_extension_from_filename "holiday.photo.PNG" sample_world sample_id
              eq_refl) as (key & Hrun & Hdot & _).
  exists key. split; [exact Hrun|].
  apply (Hdot "holiday.photo" "PNG"); reflexivity.
Defined.

(** C2. When the generator succeeds, the key returned by
    [GenerateImageKeyWithEnv] starts with "dev/" if and only if the
    environment is exactly "dev" or exactly "development". *)
Theorem dev_prefix_iff_dev_environment
  (filename environment : string) (w : World) (id : string) :
  next_nanoid w = (id, None) ->
  exists key,
    SdkV1.GenerateImageKeyWithEnv filename environment w
    = Some ((key, None), advance w)
    /\ (HasPrefix key "dev/" = true <-> dev_environment environment).
Proof.
  intros Hn. rewrite GenerateImageKeyWithEnv_run, Hn. simpl snd. simpl fst.
  cbv zeta. eexists. split; [reflexivity|].
  rewrite <- dev_environment_eqb.
  destruct (String.eqb environment "dev" || String.eqb environment "development").
  - split; reflexivity.
  - rewrite key_not_dev_prefixed. split; discriminate.
Qed.

(** The environment "Dev" does not add the prefix. *)
Lemma dev_prefix_iff_dev_environment_witness :
  next_nanoid sample_world = (sample_id, None)
  /\ exists key,
       SdkV1.GenerateImageKeyWithEnv "photo.PNG" "Dev" sample_world
       = Some ((key, None), advance sample_world)
       /\ HasPrefix key "dev/" = false.
Proof.
  split; [reflexivity|].
  destruct (dev_prefix_iff_dev_environment "photo.PNG" "Dev" sample_world sample_id
              eq_refl) as (key & Hrun & Hiff).
  exists key. split; [exact Hrun|].
  destruct (HasPrefix key "dev/"); [|reflexivity].
  destruct (proj1 Hiff eq_refl) as [H|H]; discriminate H.
Defined.

(** C3, as stated, fails: for the file name "my.dir/photo" the chosen
    extension is "dir/photo", and under the environment "dev" the key
    has four segments. *)
Lemma path_filename_four_segments :
  nanoid_ok 15 sample_id
  /\ SdkV1.GenerateImageKeyWithEnv "my.dir/photo" "dev" sample_world
     = Some (("dev/202611/V1StGXR8_Z5jdHi.dir/photo", None), advance sample_world)
  /\ segment_count "dev/202611/V1StGXR8_Z5jdHi.dir/photo" = 4%nat
  /\ ~ well_segmented "dev" "dev/202611/V1StGXR8_Z5jdHi.dir/photo".
Proof.
  split; [split; reflexivity|]. split; [reflexivity|]. split; [reflexivity|].
  intros (_ & Hdev & _). specialize (Hdev (or_introl eq_refl)). discriminate Hdev.
Qed.

(** C3, amended. When the generator yields a well-formed identifier and
    the text after the last dot of the file name holds no slash, the key
    of [GenerateImageKeyWithEnv] is non-empty and its segments are the
    date and the identifier with the extension, preceded by "dev" under
    a development environment: two segments, or three. *)
Theorem key_two_or_three_segments
  (filename environment : string) (w : World) (id : string) :
  next_nanoid w = (id, None) ->
  nanoid_ok 15 id ->
  (forall suf, after_last "." filename = Some suf -> contains_char "/" suf = false) ->
  exists key,
    SdkV1.GenerateImageKeyWithEnv filename environment w
    = Some ((key, None), advance w)
    /\ well_segmented environment key
    /\ (dev_environment environment ->
        Split key "/" = ["dev"; Format_200601 (wallClock w);
                         id ++ "." ++ chosen_ext filename])
    /\ (~ dev_environment environment ->
        Split key "/" = [Format_200601 (wallClock w);
                         id ++ "." ++ chosen_ext filename]).
Proof.
  intros Hn [_ Hid] Hext.
  rewrite GenerateImageKeyWithEnv_run, Hn. simpl snd. simpl fst. cbv zeta.
  eexists. split; [reflexivity|].
  assert (Hc : contains_char "/" (chosen_ext filename) = false).
  { unfold chosen_ext. destruct (after_last "." filename) as [suf|] eqn:E;
      [now apply Hext | reflexivity]. }
  pose proof (key_segments (wallClock w) id (chosen_ext filename)
                (url_safe_no_slash id Hid) Hc) as Hseg.
  unfold well_segmented, segment_count.
  destruct (String.eqb environment "dev" || String.eqb environment "development")
    eqn:Hdev.
  - apply dev_environment_eqb in Hdev.
    assert (Hsp : Split ("dev/" ++ Sprintf_key (Format_200601 (wallClock w)) id
                                               (chosen_ext filename)) "/"
                  = ["dev"; Format_200601 (wallClock w);
                     id ++ "." ++ chosen_ext filename]).
    { change ("dev/" ++ ?k) with ("dev" ++ String "/" k).
      rewrite (Split_first_sep "/" "dev") by reflexivity. now rewrite Hseg. }
    rewrite Hsp. repeat split; try tauto; discriminate.
  - assert (Hnd : ~ dev_environment environment).
    { intros H. apply dev_environment_eqb in H. congruence. }
    rewrite Hseg. repeat split; try tauto.
    destruct (Format_head (wallClock w)) as (a & r & E & _).
    unfold Sprintf_key. rewrite E. discriminate.
Qed.

(** "photo.PNG" under "development": three segments. *)
Lemma key_two_or_three_segments_witness :
  next_nanoid sample_world = (sample_id, None)
  /\ nanoid_ok 15 sample_id
  /\ (forall suf, after_last "." "photo.PNG" = Some suf ->
                  contains_char "/" suf = false)
  /\ exists key,
       SdkV1.GenerateImageKeyWithEnv "photo.PNG" "development" sample_world
       = Some ((key, None), advance sample_world)
       /\ well_segmented "development" key.
Proof.
  assert (Hext : forall suf, after_last "." "photo.PNG" = Some suf ->
                             contains_char "/" suf = false)
    by (intros suf [= <-]; reflexivity).
  split; [reflexivity|]. split; [split; reflexivity|]. split; [exact Hext|].
  destruct (key_two_or_three_segments "photo.PNG" "development" sample_world
              sample_id eq_refl (conj eq_refl eq_refl) Hext)
    as (key & Hrun & Hws & _).
  exists key. split; [exact Hrun | exact Hws].
Defined.

(** C4, as stated, fails: the extension of "photo.PNG" goes into the key
    as "PNG", which is not its lower-case form "png". *)
Lemma upper_case_extension_kept :
  SdkV1.GenerateImageKey "photo.PNG" sample_world
  = Some (("202611/V1StGXR8_Z5jdHi.PNG", None), advance sample_world)
  /\ after_last "." "photo.PNG" = Some "PNG"
  /\ is_ascii "PNG" = true
  /\ ToLower "PNG" = "png"
  /\ after_last "." "202611/V1StGXR8_Z5jdHi.PNG" = Some "PNG"
  /\ after_last "." "202611/V1StGXR8_Z5jdHi.PNG" <> Some (ToLower "PNG").
Proof. repeat split; try reflexivity. discriminate. Qed.

(** C4, amended. For a file name with a dot, the extension in the key of
    [GenerateImageKey] is the text after the last dot of the file name
    exactly as written, whatever its bytes; when that text is made of
    ASCII bytes, it is its own lower-case form if and only if it holds
    no upper-case letter. *)
Theorem key_extension_case_preserved (filename : string) (w : World) (id : string) :
  next_nanoid w = (id, None) ->
  exists key,
    SdkV1.GenerateImageKey filename w = Some ((key, None), advance w)
    /\ forall pre suf,
         filename = pre ++ "." ++ suf -> contains_char "." suf = false ->
         after_last "." key = Some suf
         /\ (is_ascii suf = true ->
             (after_last "." key = Some (ToLower suf) <-> has_upper suf = false)).
Proof.
  intros Hn. rewrite GenerateImageKey_run, Hn. simpl snd. simpl fst.
  eexists. split; [reflexivity|]. intros pre suf -> Hs.
  rewrite key_after_last_dot, chosen_ext_suffix by exact Hs.
  split; [reflexivity|]. intros _. rewrite <- ToLower_fixed. split.
  - intros [= H]. now symmetry.
  - intros H. now rewrite H.
Qed.

(** "IMG.Jpeg" keeps its mixed-case extension. *)
Lemma key_extension_case_preserved_witness :
  next_nanoid sample_world = (sample_id, None)
  /\ exists key,
       SdkV1.GenerateImageKey "IMG.Jpeg" sample_world
       = Some ((key, None), advance sample_world)
       /\ after_last "." key = Some "Jpeg"
       /\ is_ascii "Jpeg" = true
       /\ after_last "." key <> Some (ToLower "Jpeg").
Proof.
  split; [reflexivity|].
  destruct (key_extension_case_preserved "IMG.Jpeg" sample_world sample_id eq_refl)
    as (key & Hrun & Hext).
  destruct (Hext "IMG" "Jpeg" eq_refl eq_refl) as [Hkeep Hiff].
  exists key. split; [exact Hrun|]. split; [exact Hkeep|].
  split; [reflexivity|].
  intros H. apply (Hiff eq_refl) in H. discriminate H.
Defined.

(** C5, as stated, fails: with a clock in the year 10000 and a
    well-formed identifier, the date segment has seven digits and the
    key does not match the pattern. *)
Lemma five_digit_year_breaks_pattern :
  nanoid_ok 15 sample_id
  /\ next_nanoid far_world = (sample_id, None)
  /\ SdkV1.GenerateImageKeyWithEnv "photo.PNG" "production" far_world
     = Some (("1000001/V1StGXR8_Z5jdHi.PNG", None), advance far_world)
  /\ matches_PNG_key "1000001/V1StGXR8_Z5jdHi.PNG" = false.
Proof. split; [split; reflexivity|]. repeat split; vm_compute; reflexivity. Qed.

Lemma matches_PNG_key_shape (date id : string) :
  String.length date = 6%nat -> all_chars is_digit date = true ->
  String.length id = 15%nat -> all_chars url_safe id = true ->
  matches_PNG_key (date ++ "/" ++ id ++ ".PNG") = true.
Proof.
  intros Hd Hdd Hi Hid. unfold matches_PNG_key.
  rewrite (take_class_exact is_digit 6 date) by assumption.
  change (take_lit "/" ("/" ++ id ++ ".PNG")) with (Some (id ++ ".PNG")).
  cbv beta iota.
  rewrite (take_class_exact url_safe 15 id) by assumption. reflexivity.
Qed.

(** C5, amended. With a clock whose year is between 0 and 9999 and a
    generator that yields 15 characters of the URL-safe alphabet, the
    call on "photo.PNG" and "production" returns a key that matches
    [^\d{6}/[A-Za-z0-9_-]{15}\.PNG$]: the case of the extension is
    kept. *)
Theorem photo_PNG_key_matches_pattern (w : World) (id : string) :
  0 <= Year (wallClock w) <= 9999 ->
  next_nanoid w = (id, None) ->
  nanoid_ok 15 id ->
  exists key,
    SdkV1.GenerateImageKeyWithEnv "photo.PNG" "production" w
    = Some ((key, None), advance w)
    /\ key = Format_200601 (wallClock w) ++ "/" ++ id ++ ".PNG"
    /\ matches_PNG_key key = true.
Proof.
  intros Hy Hn [Hlen Hid].
  rewrite GenerateImageKeyWithEnv_run, Hn. simpl snd. simpl fst. cbv zeta.
  change (String.eqb "production" "dev" || String.eqb "production" "development")
    with false. cbv iota.
  change (chosen_ext "photo.PNG") with "PNG".
  eexists. split; [reflexivity|]. split; [reflexivity|].
  destruct (Format_six_digits (wallClock w) Hy) as [Hl Hd].
  unfold Sprintf_key. apply matches_PNG_key_shape; try assumption.
  unfold len_s in Hlen. lia.
Qed.

(** The sample world, in the year 2026, gives a matching key. *)
Lemma photo_PNG_key_matches_pattern_witness :
  0 <= Year (wallClock sample_world) <= 9999
  /\ next_nanoid sample_world = (sample_id, None)
  /\ nanoid_ok 15 sample_id
  /\ exists key,
       SdkV1.GenerateImageKeyWithEnv "photo.PNG" "production" sample_world
       = Some ((key, None), advance sample_world)
       /\ matches_PNG_key key = true.
Proof.
  assert (Hy : 0 <= Year (wallClock sample_world) <= 9999) by (simpl; lia).
  split; [exact Hy|]. split; [reflexivity|]. split; [split; reflexivity|].
  destruct (photo_PNG_key_matches_pattern sample_world sample_id Hy eq_refl
              (conj eq_refl eq_refl)) as (key & Hrun & _ & Hm).
  exists key. split; [exact Hrun | exact Hm].
Defined.

(** C6. [GenerateImageKeyWithEnv] never panics, whatever the file name
    and the environment. It returns an error exactly when the generator
    does; then the key is empty and the error is the one
    [GenerateImageKey] made by wrapping the generator's; otherwise the
    key is not empty. *)
Theorem fails_exactly_when_generator_fails
  (filename environment : string) (w : World) :
  exists key err,
    SdkV1.GenerateImageKeyWithEnv filename environment w
    = Some ((key, err), advance w)
    /\ (err <> None <-> snd (next_nanoid w) <> None)
    /\ (forall e, snd (next_nanoid w) = Some e ->
          key = ""
          /\ err = Some (fmt_Errorf_w "failed to generate nanoid: " e)
          /\ option_map Unwrap err = Some (Some e)
          /\ SdkV1.GenerateImageKey filename w = Some (("", err), advance w))
    /\ (snd (next_nanoid w) = None -> key <> "").
Proof.
  rewrite GenerateImageKeyWithEnv_run, GenerateImageKey_run.
  destruct (snd (next_nanoid w)) as [e|]; cbv zeta.
  - eexists _, _. split; [reflexivity|]. split; [split; discriminate|].
    split; [|discriminate]. intros e' [= <-]. repeat split.
  - eexists _, _. split; [reflexivity|]. split; [split; congruence|].
    split; [discriminate|]. intros _.
    destruct (Format_head (wallClock w)) as (a & r & E & _).
    unfold Sprintf_key. rewrite E.
    destruct (String.eqb environment "dev" || String.eqb environment "development");
      discriminate.
Qed.

(** With a failing generator and an empty file name the call returns
    the wrapped error and no key. *)
Lemma fails_exactly_when_generator_fails_witness :
  exists err,
    SdkV1.GenerateImageKeyWithEnv "" "dev" broken_world
    = Some (("", Some err), advance broken_world)
    /\ Unwrap err = Some (errors_New "entropy exhausted").
Proof.
  destruct (fails_exactly_when_generator_fails "" "dev" broken_world)
    as (key & err & Hrun & _ & Hfail & _).
  destruct (Hfail (errors_New "entropy exhausted") eq_refl)
    as (Hk & He & _ & _).
  rewrite Hk, He in Hrun. eexists. split; [exact Hrun | reflexivity].
Defined.

(** C7. For two successful calls of [GenerateImageKey], on any two file
    names, the date segments of the two keys are equal if and only if
    the two clock readings fall within the same calendar month. *)
Theorem date_segment_tracks_month
  (filename1 filename2 : string) (w1 w2 : World) (id1 id2 : string) :
  next_nanoid w1 = (id1, None) ->
  next_nanoid w2 = (id2, None) ->
  exists key1 key2,
    SdkV1.GenerateImageKey filename1 w1 = Some ((key1, None), advance w1)
    /\ SdkV1.GenerateImageKey filename2 w2 = Some ((key2, None), advance w2)
    /\ date_segment key1 = Format_200601 (wallClock w1)
    /\ (same_month (wallClock w1) (wallClock w2)
        <-> date_segment key1 = date_segment key2).
Proof.
  intros H1 H2. rewrite !GenerateImageKey_run, H1, H2. simpl snd. simpl fst.
  eexists _, _. split; [reflexivity|]. split; [reflexivity|].
  rewrite !key_date_segment. split; [reflexivity|]. split.
  - intros [Hy Hm]. unfold Format_200601. now rewrite Hy, Hm.
  - apply Format_inj.
Qed.

(** November and December 2026 give different date segments. *)
Lemma date_segment_tracks_month_witness :
  next_nanoid sample_world = (sample_id, None)
  /\ next_nanoid december_world = (sample_id, None)
  /\ exists key1 key2,
       SdkV1.GenerateImageKey "a.png" sample_world
       = Some ((key1, None), advance sample_world)
       /\ SdkV1.GenerateImageKey "a.png" december_world
          = Some ((key2, None), advance december_world)
       /\ date_segment key1 = "202611"
       /\ date_segment key1 <> date_segment key2.
Proof.
  split; [reflexivity|]. split; [reflexivity|].
  destruct (date_segment_tracks_month "a.png" "a.png" sample_world december_world
              sample_id sample_id eq_refl eq_refl)
    as (key1 & key2 & Hr1 & Hr2 & Hd & Hiff).
  exists key1, key2. split; [exact Hr1|]. split; [exact Hr2|].
  split; [exact Hd|].
  intros H. apply Hiff in H. destruct H as [_ Hm]. discriminate Hm.
Defined.

(** C8. The result of [GenerateImageKeyWithEnv] is determined by the
    file name, the environment, the clock reading and the outcome of
    the generator: two worlds that agree on the last two give the same
    result, whatever else they hold. The call prints nothing and leaves
    the clock and the generator as they were; it only draws one
    identifier. *)
Theorem result_determined_by_inputs
  (filename environment : string) (w1 w2 : World) :
  wallClock w1 = wallClock w2 ->
  next_nanoid w1 = next_nanoid w2 ->
  exists r,
    SdkV1.GenerateImageKeyWithEnv filename environment w1 = Some (r, advance w1)
    /\ SdkV1.GenerateImageKeyWithEnv filename environment w2 = Some (r, advance w2)
    /\ stdout (advance w1) = stdout w1
    /\ wallClock (advance w1) = wallClock w1
    /\ nanoidSource (advance w1) = nanoidSource w1
    /\ nanoidCalls (advance w1) = S (nanoidCalls w1).
Proof.
  intros Hc Hn. rewrite !GenerateImageKeyWithEnv_run.
  eexists. split; [reflexivity|]. split; [now rewrite Hc, Hn|].
  repeat split.
Qed.

(** Two worlds that differ in what was printed and in how many
    identifiers were drawn give the same result. *)
Lemma result_determined_by_inputs_witness :
  wallClock sample_world = wallClock later_world
  /\ next_nanoid sample_world = next_nanoid later_world
  /\ stdout sample_world <> stdout later_world
  /\ exists r,
       SdkV1.GenerateImageKeyWithEnv "photo.PNG" "dev" sample_world
       = Some (r, advance sample_world)
       /\ SdkV1.GenerateImageKeyWithEnv "photo.PNG" "dev" later_world
          = Some (r, advance later_world).
Proof.
  split; [reflexivity|]. split; [reflexivity|]. split; [discriminate|].
  destruct (result_determined_by_inputs "photo.PNG" "dev" sample_world later_world
              eq_refl eq_refl) as (r & H1 & H2 & _).
  exists r. split; [exact H1 | exact H2].
Defined.

(** C9. The pair of functions of the SDK v1 program and the pair of the
    SDK v2 program return the same result, error and world on every
    file name, environment and world. *)
Theorem sdk_v1_v2_agree (filename environment : string) (w : World) :
  SdkV1.GenerateImageKey filename w = SdkV2.GenerateImageKey filename w
  /\ SdkV1.GenerateImageKeyWithEnv filename environment w
     = SdkV2.GenerateImageKeyWithEnv filename environment w.
Proof. split; reflexivity. Qed.

(** C10. With the clock and the generator's output fixed, the key of
    [GenerateImageKeyWithEnv] is the key of [GenerateImageKey] with
    "dev/" in front when the environment is "dev" or "development", and
    the result of [GenerateImageKey] unchanged for every other
    environment. *)
Theorem environment_only_adds_prefix (filename : string) (w : World) (id : string) :
  next_nanoid w = (id, None) ->
  exists key,
    SdkV1.GenerateImageKey filename w = Some ((key, None), advance w)
    /\ forall environment,
         (dev_environment environment ->
          SdkV1.GenerateImageKeyWithEnv filename environment w
          = Some (("dev/" ++ key, None), advance w))
         /\ (~ dev_environment environment ->
             SdkV1.GenerateImageKeyWithEnv filename environment w
             = SdkV1.GenerateImageKey filename w).
Proof.
  intros Hn. rewrite GenerateImageKey_run, Hn. simpl snd. simpl fst.
  eexists. split; [reflexivity|]. intros environment.
  rewrite GenerateImageKeyWithEnv_run, Hn. simpl snd. simpl fst. cbv zeta.
  rewrite <- dev_environment_eqb.
  destruct (String.eqb environment "dev" || String.eqb environment "development").
  - split; [reflexivity | intros H; now contradiction H].
  - split; [discriminate | reflexivity].
Qed.

(** "development" adds the prefix to the key, "staging" does not. *)
Lemma environment_only_adds_prefix_witness :
  next_nanoid sample_world = (sample_id, None)
  /\ exists key,
       SdkV1.GenerateImageKey "photo.PNG" sample_world
       = Some ((key, None), advance sample_world)
       /\ SdkV1.GenerateImageKeyWithEnv "photo.PNG" "development" sample_world
          = Some (("dev/" ++ key, None), advance sample_world)
       /\ SdkV1.GenerateImageKeyWithEnv "photo.PNG" "staging" sample_world
          = Some ((key, None), advance sample_world).
Proof.
  split; [reflexivity|].
  destruct (environment_only_adds_prefix "photo.PNG" sample_world sample_id eq_refl)
    as (key & Hrun & Henv).
  exists key. split; [exact Hrun|]. split.
  - apply (proj1 (Henv "development")). right. reflexivity.
  - rewrite <- Hrun. apply (proj2 (Henv "staging")).
    intros [H|H]; discriminate H.
Defined.

(* ------------------------------------------------------------------ *)
(** ** Substrings, suffixes and prefixes *)

Section Substrings.

Lemma substring_0_append (a b : string) :
  String.substring 0 (String.length a) (a ++ b) = a.
Proof.
  induction a as [|x a IH]; simpl; [now destruct b | now rewrite IH].
Qed.

Lemma substring_skip (a b : string) (m : nat) :
  String.substring (String.length a) m (a ++ b) = String.substring 0 m b.
Proof. induction a as [|x a IH]; simpl; [reflexivity | exact IH]. Qed.

Lemma substring_0_all (s : string) :
  String.substring 0 (String.length s) s = s.
Proof. induction s as [|x s IH]; simpl; [reflexivity | now rewrite IH]. Qed.

Lemma HasSuffix_append (a suffix : string) : HasSuffix (a ++ suffix) suffix = true.
Proof.
  unfold HasSuffix. rewrite length_append.
  replace (String.length a + String.length suffix - String.length suffix)%nat
    with (String.length a) by lia.
  rewrite substring_skip, substring_0_all, String.eqb_refl, andb_true_r.
  apply Nat.leb_le. lia.
Qed.

Lemma TrimSuffix_append (a suffix : string) : TrimSuffix (a ++ suffix) suffix = a.
Proof.
  unfold TrimSuffix. rewrite HasSuffix_append, length_append.
  replace (String.length a + String.length suffix - String.length suffix)%nat
    with (String.length a) by lia.
  apply substring_0_append.
Qed.

Lemma HasPrefix_append (p s : string) : HasPrefix (p ++ s) p = true.
Proof.
  induction p as [|x p IH]; simpl; [reflexivity|].
  now rewrite Ascii.eqb_refl, IH.
Qed.

Lemma append_cancel_l (a x y : string) : a ++ x = a ++ y -> x = y.
Proof.
  induction a as [|c a IH]; simpl; [trivial|]. intros [= H]. now apply IH.
Qed.

(** Cutting at the first separator is unambiguous. *)
Lemma first_sep_unique (c : ascii) (a a' b b' : string) :
  contains_char c a = false -> contains_char c a' = false ->
  a ++ String c b = a' ++ String c b' -> a = a' /\ b = b'.
Proof.
  intros Ha Ha' H.
  pose proof (f_equal (fun s => Split s c) H) as Hs. cbv beta in Hs.
  rewrite !Split_first_sep in Hs by assumption.
  injection Hs as -> _. split; [reflexivity|].
  apply append_cancel_l in H. now injection H.
Qed.

(** Joining what [Split] returns gives the text back. *)
Lemma concat_Split (c : ascii) (s : string) :
  String.concat (String c EmptyString) (Split s c) = s.
Proof.
  induction s as [|a s IH]; simpl; [reflexivity|].
  destruct (Ascii.eqb_spec a c) as [->|Hne].
  - pose proof (Split_not_nil c s) as Hn.
    simpl. destruct (Split s c) as [|p ps]; [congruence|].
    simpl in *. now rewrite IH.
  - pose proof (Split_not_nil c s) as Hn.
    destruct (Split s c) as [|p ps]; [congruence|].
    simpl in *. destruct ps as [|q ps].
    + now rewrite <- IH.
    + now rewrite <- IH.
Qed.

(** A text with a separator is cut at its first one. *)
Lemma first_sep_exists (c : ascii) (s : string) :
  contains_char c s = true ->
  exists a b, s = a ++ String c b /\ contains_char c a = false.
Proof.
  induction s as [|x s IH]; simpl; [discriminate|].
  destruct (Ascii.eqb_spec x c) as [->|Hne]; simpl.
  - intros _. now exists "", s.
  - intros H. destruct (IH H) as (a & b & -> & Ha).
    exists (String x a), b. split; [reflexivity|]. simpl.
    rewrite Ha, orb_false_r. now apply Ascii.eqb_neq.
Qed.

End Substrings.

(* ------------------------------------------------------------------ *)
(** ** The report of the configuration *)

Section ReportConfig.

Lemma eqb_empty_length (s : string) :
  String.eqb s "" = (String.length s =? 0)%nat.
Proof. now destruct s. Qed.

Lemma fmt_Print_then {A : Type} (line : string) (k : Go A) (w : World) :
  (fmt_Print line ;;; k) w = k (printed w [line]).
Proof. reflexivity. Qed.

Lemma printed_printed (w : World) (l1 l2 : list string) :
  printed (printed w l1) l2 = printed w (l1 ++ l2)%list.
Proof. unfold printed. simpl. now rewrite <- app_assoc. Qed.

Lemma slice_to_run (s : string) (n : Z) (w : World) :
  0 <= n ->
  slice_to s n w
  = if len_s s <? n then None
    else Some (String.substring 0 (Z.to_nat n) s, w).
Proof.
  intros Hn. unfold slice_to.
  destruct (Z.ltb_spec n 0) as [|_]; [lia|]. simpl.
  now destruct (len_s s <? n).
Qed.

(** The lines of the report, with the secret shown by its first five
    bytes. *)
Lemma reportConfig_run_v1
  (accessKeyID secretAccessKey region bucketName endpointURL : string) (w : World) :
  MainV1.reportConfig accessKeyID secretAccessKey region bucketName endpointURL w
  = if String.eqb accessKeyID "" || String.eqb secretAccessKey ""
       || String.eqb region "" || String.eqb bucketName ""
    then Some (Fatal "Missing required environment variables: AWS_ACCESS_KEY_ID, AWS_SECRET_ACCESS_KEY, AWS_DEFAULT_REGION, AWS_BUCKET_NAME", w)
    else if len_s secretAccessKey <? 5 then None
    else Some (Continue tt,
               printed w
                 ["AWS Config:" ++ nl;
                  "  Access Key ID: " ++ accessKeyID ++ nl;
                  "  Secret Access Key: "
                    ++ (String.substring 0 5 secretAccessKey ++ "***")
                    ++ " (length: " ++ fmt_d (len_s secretAccessKey) ++ ")" ++ nl;
                  "  Region: " ++ region ++ nl;
                  "  Bucket: " ++ bucketName ++ nl;
                  "  Endpoint URL: " ++ endpointURL ++ nl]).
Proof.
  unfold MainV1.reportConfig.
  destruct (String.eqb accessKeyID "" || String.eqb secretAccessKey ""
            || String.eqb region "" || String.eqb bucketName ""); [reflexivity|].
  rewrite !fmt_Print_then. unfold bind at 1.
  rewrite slice_to_run by lia.
  destruct (len_s secretAccessKey <? 5); [reflexivity|].
  rewrite !fmt_Print_then, !printed_printed. reflexivity.
Qed.

Lemma reportConfig_run_v2
  (accessKeyID secretAccessKey region bucketName endpointURL environment : string)
  (w : World) :
  MainV2.reportConfig accessKeyID secretAccessKey region bucketName endpointURL
                      environment w
  = if String.eqb accessKeyID "" || String.eqb secretAccessKey ""
       || String.eqb region "" || String.eqb bucketName ""
    then Some (Fatal "Missing required environment variables: AWS_ACCESS_KEY_ID, AWS_SECRET_ACCESS_KEY, AWS_DEFAULT_REGION, AWS_BUCKET_NAME", w)
    else if len_s secretAccessKey <? 5 then None
    else Some (Continue tt,
               printed w
                 ["AWS Config from environment:" ++ nl;
                  "  Access Key ID: " ++ accessKeyID ++ nl;
                  "  Secret Access Key: "
                    ++ String.substring 0 5 secretAccessKey
                    ++ "*** (length: " ++ fmt_d (len_s secretAccessKey) ++ ")" ++ nl;
                  "  Region: " ++ region ++ nl;
                  "  Bucket: " ++ bucketName ++ nl;
                  "  Endpoint URL: " ++ endpointURL ++ nl;
                  "  Environment: " ++ environment ++ nl]).
Proof.
  unfold MainV2.reportConfig.
  destruct (String.eqb accessKeyID "" || String.eqb secretAccessKey ""
            || String.eqb region "" || String.eqb bucketName ""); [reflexivity|].
  rewrite !fmt_Print_then. unfold bind at 1.
  rewrite slice_to_run by lia.
  destruct (len_s secretAccessKey <? 5); [reflexivity|].
  rewrite !fmt_Print_then, !printed_printed. reflexivity.
Qed.

Lemma required_missing_iff (a s r b : string) :
  String.eqb a "" || String.eqb s "" || String.eqb r "" || String.eqb b "" = true
  <-> a = "" \/ s = "" \/ r = "" \/ b = "".
Proof. rewrite !orb_true_iff, !String.eqb_eq. tauto. Qed.

End ReportConfig.

(** X1. The report of the configuration ends in [log.Fatal], having
    printed nothing, exactly when the access key, the secret key, the
    region or the bucket name is empty; the endpoint URL is never
    required. *)
Theorem reportConfig_fatal_iff_missing
  (accessKeyID secretAccessKey region bucketName endpointURL : string) (w : World) :
  (accessKeyID = "" \/ secretAccessKey = "" \/ region = "" \/ bucketName = "")
  <-> exists msg,
        MainV1.reportConfig accessKeyID secretAccessKey region bucketName
                            endpointURL w
        = Some (Fatal msg, w).
Proof.
  rewrite reportConfig_run_v1, <- required_missing_iff.
  destruct (String.eqb accessKeyID "" || String.eqb secretAccessKey ""
            || String.eqb region "" || String.eqb bucketName "").
  - split; [eauto | reflexivity].
  - split; [discriminate|]. intros [msg H].
    destruct (len_s secretAccessKey <? 5); discriminate H.
Qed.

(** X2. With the four required values present, the report panics at the
    slice [secretAccessKey[:5]] exactly when the secret key has fewer
    than five bytes; otherwise it goes on, having written six lines. *)
Theorem reportConfig_panics_iff_short_secret
  (accessKeyID secretAccessKey region bucketName endpointURL : string) (w : World) :
  accessKeyID <> "" -> secretAccessKey <> "" -> region <> "" -> bucketName <> "" ->
  (MainV1.reportConfig accessKeyID secretAccessKey region bucketName endpointURL w
   = None <-> len_s secretAccessKey < 5)
  /\ (5 <= len_s secretAccessKey ->
      exists lines,
        MainV1.reportConfig accessKeyID secretAccessKey region bucketName
                            endpointURL w
        = Some (Continue tt, printed w lines)
        /\ List.length lines = 6%nat).
Proof.
  intros Ha Hs Hr Hb. rewrite reportConfig_run_v1.
  destruct (String.eqb accessKeyID "" || String.eqb secretAccessKey ""
            || String.eqb region "" || String.eqb bucketName "") eqn:E.
  - apply required_missing_iff in E. tauto.
  - destruct (Z.ltb_spec (len_s secretAccessKey) 5) as [Hlt|Hge]; split.
    + tauto.
    + lia.
    + split; [discriminate | lia].
    + intros _. eexists. split; reflexivity.
Qed.

(** A secret of three bytes makes the program panic. *)
Lemma reportConfig_panics_iff_short_secret_witness :
  "AKIAEXAMPLE" <> "" /\ "abc" <> "" /\ "eu-central-1" <> "" /\ "bucket" <> ""
  /\ len_s "abc" < 5
  /\ MainV1.reportConfig "AKIAEXAMPLE" "abc" "eu-central-1" "bucket" "" sample_world
     = None.
Proof.
  assert (Ha : "AKIAEXAMPLE" <> "") by discriminate.
  assert (Hs : "abc" <> "") by discriminate.
  assert (Hr : "eu-central-1" <> "") by discriminate.
  assert (Hb : "bucket" <> "") by discriminate.
  assert (Hl : len_s "abc" < 5) by (vm_compute; reflexivity).
  repeat (split; [assumption|]).
  apply (proj1 (reportConfig_panics_iff_short_secret
                  "AKIAEXAMPLE" "abc" "eu-central-1" "bucket" "" sample_world
                  Ha Hs Hr Hb)).
  exact Hl.
Defined.

(** X3. The report depends on the secret key only through its first
    five bytes and its length: two secrets that agree on both give the
    same outcome and the same output. *)
Theorem reportConfig_masks_secret
  (accessKeyID secret1 secret2 region bucketName endpointURL : string) (w : World) :
  String.substring 0 5 secret1 = String.substring 0 5 secret2 ->
  String.length secret1 = String.length secret2 ->
  MainV1.reportConfig accessKeyID secret1 region bucketName endpointURL w
  = MainV1.reportConfig accessKeyID secret2 region bucketName endpointURL w.
Proof.
  intros Hh Hl. rewrite !reportConfig_run_v1.
  unfold len_s. rewrite !(eqb_empty_length secret1), !(eqb_empty_length secret2).
  now rewrite Hh, Hl.
Qed.

Lemma reportConfig_masks_secret_witness :
  String.substring 0 5 "s3cr3t-alpha" = String.substring 0 5 "s3cr3t-omega"
  /\ String.length "s3cr3t-alpha" = String.length "s3cr3t-omega"
  /\ MainV1.reportConfig "AKIAEXAMPLE" "s3cr3t-alpha" "eu" "bucket" "" sample_world
     = MainV1.reportConfig "AKIAEXAMPLE" "s3cr3t-omega" "eu" "bucket" "" sample_world.
Proof.
  split; [reflexivity|]. split; [reflexivity|].
  apply (reportConfig_masks_secret "AKIAEXAMPLE" "s3cr3t-alpha" "s3cr3t-omega");
    reflexivity.
Defined.

(** X4. The two programs treat a configuration alike: the report of the
    SDK v2 program ends in [log.Fatal], panics or goes on exactly when
    that of the SDK v1 program does, and when both go on the v2 report
    is the v1 report under another heading, with one more line for the
    environment. The other steps modelled here are the same in both
    programs. *)
Theorem main_steps_agree
  (accessKeyID secretAccessKey region bucketName endpointURL environment : string)
  (key : string) (w : World) :
  option_map fst (MainV2.reportConfig accessKeyID secretAccessKey region bucketName
                                      endpointURL environment w)
  = option_map fst (MainV1.reportConfig accessKeyID secretAccessKey region
                                        bucketName endpointURL w)
  /\ (forall w1,
        MainV1.reportConfig accessKeyID secretAccessKey region bucketName
                            endpointURL w = Some (Continue tt, w1) ->
        exists rest,
          w1 = printed w (("AWS Config:" ++ nl) :: rest)
          /\ MainV2.reportConfig accessKeyID secretAccessKey region bucketName
                                 endpointURL environment w
             = Some (Continue tt,
                     printed w (("AWS Config from environment:" ++ nl) :: rest
                                ++ ["  Environment: " ++ environment ++ nl])))
  /\ MainV2.generateKeyStep environment w = MainV1.generateKeyStep environment w
  /\ MainV2.publicURL endpointURL bucketName region key
     = MainV1.publicURL endpointURL bucketName region key
  /\ MainV2.listPrefix key w = MainV1.listPrefix key w
  /\ MainV2.deletedKey key = MainV1.deletedKey key
  /\ MainV2.copySource bucketName key = MainV1.copySource bucketName key.
Proof.
  rewrite reportConfig_run_v1, reportConfig_run_v2.
  split; [|split; [|repeat split]].
  - destruct (String.eqb accessKeyID "" || String.eqb secretAccessKey ""
              || String.eqb region "" || String.eqb bucketName ""); [reflexivity|].
    now destruct (len_s secretAccessKey <? 5).
  - intros w1.
    destruct (String.eqb accessKeyID "" || String.eqb secretAccessKey ""
              || String.eqb region "" || String.eqb bucketName ""); [discriminate|].
    destruct (len_s secretAccessKey <? 5); [discriminate|].
    intros [= <-]. eexists. split; [reflexivity|].
    do 3 f_equal. simpl. do 3 f_equal. now rewrite !append_assoc.
Qed.

Lemma main_steps_agree_witness :
  exists rest,
    MainV1.reportConfig "AKIAEXAMPLE" "s3cr3t-alpha" "eu" "bucket" "" sample_world
    = Some (Continue tt, printed sample_world (("AWS Config:" ++ nl) :: rest))
    /\ MainV2.reportConfig "AKIAEXAMPLE" "s3cr3t-alpha" "eu" "bucket" "" "dev"
                           sample_world
       = Some (Continue tt,
               printed sample_world
                 (("AWS Config from environment:" ++ nl) :: rest
                  ++ ["  Environment: dev" ++ nl])).
Proof.
  destruct (main_steps_agree "AKIAEXAMPLE" "s3cr3t-alpha" "eu" "bucket" "" "dev"
              "" sample_world) as (_ & Hc & _).
  destruct (Hc _ eq_refl) as (rest & H1 & H2).
  exists rest. split; [|exact H2]. rewrite <- H1. reflexivity.
Defined.

Section KeyStep.

Lemma generateKeyStep_run (environment : string) (w : World) :
  MainV1.generateKeyStep environment w
  = match SdkV1.GenerateImageKeyWithEnv "test-upload.txt" environment w with
    | Some ((key, Some e), w') =>
        Some (Returned,
              printed w' [nl ++ "--- Test 3: Generate File Key ---" ++ nl;
                          "Error generating file key: " ++ Error e ++ nl])
    | Some ((key, None), w') =>
        Some (Continue key,
              printed w' [nl ++ "--- Test 3: Generate File Key ---" ++ nl;
                          "Generated file key: " ++ key ++ nl])
    | None => None
    end.
Proof.
  unfold MainV1.generateKeyStep, fmt_Println. rewrite fmt_Print_then. cbv zeta.
  unfold bind at 1. rewrite !GenerateImageKeyWithEnv_run.
  change (next_nanoid (printed w ?l)) with (next_nanoid w).
  destruct (snd (next_nanoid w)) as [e|]; cbv beta iota zeta;
    unfold bind, fmt_Print, ret, printed, advance;
    cbn [wallClock nanoidSource nanoidCalls stdout];
    rewrite <- app_assoc; reflexivity.
Qed.

End KeyStep.

(** X5. Test 3 of [main] never panics. It prints its heading and one
    more line; when the generator fails, that line is the wrapped error
    and [main] returns; otherwise the line shows the key, which is the
    one [GenerateImageKeyWithEnv] returns for "test-upload.txt", with
    the extension "txt". *)
Theorem generateKeyStep_outcome (environment : string) (w : World) :
  exists out line,
    MainV1.generateKeyStep environment w
    = Some (out, printed (advance w)
                   [nl ++ "--- Test 3: Generate File Key ---" ++ nl; line])
    /\ (forall e, snd (next_nanoid w) = Some e ->
          out = Returned
          /\ line = "Error generating file key: failed to generate nanoid: "
                    ++ Error e ++ nl)
    /\ (snd (next_nanoid w) = None ->
        exists key,
          out = Continue key
          /\ line = "Generated file key: " ++ key ++ nl
          /\ SdkV1.GenerateImageKeyWithEnv "test-upload.txt" environment w
             = Some ((key, None), advance w)
          /\ after_last "." key = Some "txt").
Proof.
  rewrite generateKeyStep_run, GenerateImageKeyWithEnv_run.
  destruct (snd (next_nanoid w)) as [e|]; cbv zeta.
  - eexists _, _. split; [reflexivity|]. split; [|discriminate].
    intros e' [= <-]. split; [reflexivity|].
    reflexivity.
  - eexists _, _. split; [reflexivity|]. split; [discriminate|].
    intros _. eexists. split; [reflexivity|]. split; [reflexivity|].
    split; [reflexivity|].
    change "txt" with (chosen_ext "test-upload.txt").
    destruct (String.eqb environment "dev" || String.eqb environment "development").
    + change ("dev/" ++ Sprintf_key ?a ?b ?c) with (Sprintf_key ("dev/" ++ a) b c).
      apply key_after_last_dot.
    + apply key_after_last_dot.
Qed.

Lemma generateKeyStep_outcome_witness :
  MainV1.generateKeyStep "dev" broken_world
  = Some (Returned,
          printed (advance broken_world)
            [nl ++ "--- Test 3: Generate File Key ---" ++ nl;
             "Error generating file key: failed to generate nanoid: entropy exhausted"
             ++ nl]).
Proof.
  destruct (generateKeyStep_outcome "dev" broken_world)
    as (out & line & Hrun & Hfail & _).
  destruct (Hfail (errors_New "entropy exhausted") eq_refl) as [Ho Hl].
  rewrite Hrun, Ho, Hl. reflexivity.
Defined.

(* ------------------------------------------------------------------ *)
(** ** The public URL, the listing prefix and the soft-deleted copy *)

(** X6. An endpoint written with a trailing slash loses exactly one
    slash: the public URL is the rest, the bucket and the key joined by
    slashes. An endpoint that is not empty and has no trailing slash
    gives the same URL as with one. *)
Theorem publicURL_trailing_slash (endpointURL bucketName region key : string) :
  MainV1.publicURL (endpointURL ++ "/") bucketName region key
  = endpointURL ++ "/" ++ bucketName ++ "/" ++ key
  /\ (endpointURL <> "" -> HasSuffix endpointURL "/" = false ->
      MainV1.publicURL endpointURL bucketName region key
      = MainV1.publicURL (endpointURL ++ "/") bucketName region key).
Proof.
  assert (H1 : MainV1.publicURL (endpointURL ++ "/") bucketName region key
               = endpointURL ++ "/" ++ bucketName ++ "/" ++ key).
  { unfold MainV1.publicURL. rewrite TrimSuffix_append.
    destruct (String.eqb_spec (endpointURL ++ "/") "") as [E|_]; [|reflexivity].
    destruct endpointURL; discriminate E. }
  split; [exact H1|]. intros Hne Hs. rewrite H1.
  unfold MainV1.publicURL, TrimSuffix. rewrite Hs.
  destruct (String.eqb_spec endpointURL "") as [E|_]; [congruence | reflexivity].
Qed.

Lemma publicURL_trailing_slash_witness :
  "https://s3.tebi.io" <> "" /\ HasSuffix "https://s3.tebi.io" "/" = false
  /\ MainV1.publicURL "https://s3.tebi.io" "bucket" "eu" "test-folder/test-file.txt"
     = MainV1.publicURL "https://s3.tebi.io/" "bucket" "eu"
                        "test-folder/test-file.txt".
Proof.
  assert (Hne : "https://s3.tebi.io" <> "") by discriminate.
  split; [exact Hne|]. split; [reflexivity|].
  apply (proj2 (publicURL_trailing_slash "https://s3.tebi.io" "bucket" "eu"
                  "test-folder/test-file.txt") Hne eq_refl).
Defined.

(** X7. Whatever the endpoint, the bucket and the region, the public
    URL ends with a slash and the key. *)
Theorem publicURL_ends_with_key (endpointURL bucketName region key : string) :
  HasSuffix (MainV1.publicURL endpointURL bucketName region key) ("/" ++ key) = true.
Proof.
  unfold MainV1.publicURL. destruct (negb (String.eqb endpointURL "")); cbv zeta.
  - replace (TrimSuffix endpointURL "/" ++ "/" ++ bucketName ++ "/" ++ key)
      with ((TrimSuffix endpointURL "/" ++ "/" ++ bucketName) ++ "/" ++ key)
      by now rewrite !append_assoc.
    apply HasSuffix_append.
  - replace ("https://" ++ bucketName ++ ".s3." ++ region ++ ".amazonaws.com/" ++ key)
      with (("https://" ++ bucketName ++ ".s3." ++ region ++ ".amazonaws.com")
            ++ "/" ++ key).
    + apply HasSuffix_append.
    + rewrite !append_assoc. reflexivity.
Qed.

Section ListPrefix.

Lemma listPrefix_run (key : string) (w : World) :
  MainV1.listPrefix key w
  = Some (if contains_char "/" key then date_segment key ++ "/" else "", w).
Proof.
  unfold MainV1.listPrefix, date_segment. cbv zeta.
  destruct (contains_char "/" key) eqn:Hc.
  - destruct (first_sep_exists "/" key Hc) as (a & b & -> & Ha).
    rewrite Split_first_sep by exact Ha.
    pose proof (Split_not_nil "/" b) as Hn.
    destruct (Split b "/") as [|p ps]; [congruence|].
    replace (1 <? len (a :: p :: ps)) with true
      by (symmetry; apply Z.ltb_lt; unfold len; simpl List.length; lia).
    reflexivity.
  - now rewrite (Split_no_sep "/" key Hc).
Qed.

End ListPrefix.

(** X8. The computation of the listing prefix never panics and leaves
    the world alone. The prefix is a prefix of the key; it is empty when
    the key has no slash, and otherwise is the text before the first
    slash followed by a slash. *)
Theorem listPrefix_is_key_prefix (key : string) (w : World) :
  exists prefix,
    MainV1.listPrefix key w = Some (prefix, w)
    /\ HasPrefix key prefix = true
    /\ (contains_char "/" key = false -> prefix = "")
    /\ (forall folder rest,
          key = folder ++ "/" ++ rest -> contains_char "/" folder = false ->
          prefix = folder ++ "/").
Proof.
  rewrite listPrefix_run. eexists. split; [reflexivity|].
  destruct (contains_char "/" key) eqn:Hc.
  - destruct (first_sep_exists "/" key Hc) as (a & b & -> & Ha).
    unfold date_segment. rewrite Split_first_sep by exact Ha. simpl hd.
    split; [|split; [discriminate|]].
    + change (a ++ String "/" b) with (a ++ "/" ++ b).
      rewrite <- append_assoc. apply HasPrefix_append.
    + intros folder rest Hk Hf.
      destruct (first_sep_unique "/" a folder b rest Ha Hf Hk) as [-> _].
      reflexivity.
  - split; [reflexivity|]. split; [reflexivity|].
    intros folder rest -> _. rewrite contains_char_append in Hc.
    simpl in Hc. rewrite orb_true_r in Hc. discriminate Hc.
Qed.

Lemma listPrefix_is_key_prefix_witness :
  MainV1.listPrefix "test-folder/sub/test-file.txt" sample_world
  = Some ("test-folder/", sample_world).
Proof.
  destruct (listPrefix_is_key_prefix "test-folder/sub/test-file.txt" sample_world)
    as (prefix & Hrun & _ & _ & Hp).
  rewrite Hrun. now rewrite (Hp "test-folder" "sub/test-file.txt" eq_refl eq_refl).
Defined.

(** X10. The key of the soft-deleted copy is never the key of the
    original, different keys have different copies, and the copy is
    listed under the same prefix as the original. *)
Theorem deletedKey_beside_original (key : string) (w : World) :
  MainV1.deletedKey key <> key
  /\ (forall key', MainV1.deletedKey key = MainV1.deletedKey key' -> key = key')
  /\ HasPrefix (MainV1.deletedKey key) key = true
  /\ MainV1.listPrefix (MainV1.deletedKey key) w = MainV1.listPrefix key w.
Proof.
  unfold MainV1.deletedKey. split; [|split; [|split]].
  - intros H. apply (f_equal String.length) in H.
    rewrite length_append in H. simpl in H. lia.
  - intros key' H. now apply append_inj_tail_length in H.
  - apply HasPrefix_append.
  - rewrite !listPrefix_run, contains_char_append. simpl contains_char at 2.
    rewrite orb_false_r.
    destruct (contains_char "/" key) eqn:Hc; [|reflexivity].
    destruct (first_sep_exists "/" key Hc) as (a & b & -> & Ha).
    unfold date_segment. rewrite append_assoc. simpl append at 2.
    now rewrite !Split_first_sep by exact Ha.
Qed.

Lemma deletedKey_beside_original_witness :
  MainV1.deletedKey "test-folder/test-file.txt" <> "test-folder/test-file.txt"
  /\ MainV1.listPrefix (MainV1.deletedKey "test-folder/test-file.txt") sample_world
     = Some ("test-folder/", sample_world).
Proof.
  destruct (deletedKey_beside_original "test-folder/test-file.txt" sample_world)
    as (Hne & _ & _ & Hl).
  split; [exact Hne|]. rewrite Hl. reflexivity.
Defined.

(** X11. For bucket names without a slash, the source of the copy
    determines the bucket and the key: its text before the first slash
    is the bucket name and the rest is the key. *)
Theorem copySource_unambiguous (bucket1 key1 bucket2 key2 : string) :
  contains_char "/" bucket1 = false ->
  contains_char "/" bucket2 = false ->
  MainV1.copySource bucket1 key1 = MainV1.copySource bucket2 key2 ->
  bucket1 = bucket2 /\ key1 = key2.
Proof.
  unfold MainV1.copySource. intros H1 H2 H.
  now apply (first_sep_unique "/" bucket1 bucket2 key1 key2).
Qed.

Lemma copySource_unambiguous_witness :
  contains_char "/" "bucket" = false
  /\ MainV1.copySource "bucket" "test-folder/test-file.txt"
     = MainV1.copySource "bucket" "test-folder/test-file.txt"
  /\ "bucket" = "bucket" /\ "test-folder/test-file.txt" = "test-folder/test-file.txt".
Proof.
  split; [reflexivity|]. split; [reflexivity|].
  apply (copySource_unambiguous "bucket" "test-folder/test-file.txt"
           "bucket" "test-folder/test-file.txt"); reflexivity.
Defined.

(* ------------------------------------------------------------------ *)
(** ** What a key tells, how long it is and how keys are ordered *)

Section KeyFacts.

Lemma key_core_inj (t1 t2 : Time) (id1 id2 ext1 ext2 : string) :
  String.length id1 = String.length id2 ->
  Sprintf_key (Format_200601 t1) id1 ext1 = Sprintf_key (Format_200601 t2) id2 ext2 ->
  Format_200601 t1 = Format_200601 t2 /\ id1 = id2 /\ ext1 = ext2.
Proof.
  intros Hl H. rewrite !Sprintf_key_slash in H.
  apply first_sep_unique in H; try (apply Format_excludes; reflexivity).
  destruct H as [HF Hr]. split; [exact HF|].
  apply append_inj_same_length in Hr; [|exact Hl].
  destruct Hr as [Hi He]. split; [exact Hi|]. now injection He.
Qed.

Lemma with_prefix_inj (d1 d2 : bool) (t1 t2 : Time) (id1 id2 ext1 ext2 : string) :
  (if d1 then "dev/" ++ Sprintf_key (Format_200601 t1) id1 ext1
   else Sprintf_key (Format_200601 t1) id1 ext1)
  = (if d2 then "dev/" ++ Sprintf_key (Format_200601 t2) id2 ext2
     else Sprintf_key (Format_200601 t2) id2 ext2) ->
  d1 = d2
  /\ Sprintf_key (Format_200601 t1) id1 ext1 = Sprintf_key (Format_200601 t2) id2 ext2.
Proof.
  destruct d1, d2; intros H.
  - split; [reflexivity|]. now injection H.
  - apply (f_equal (fun s => HasPrefix s "dev/")) in H. cbv beta in H.
    rewrite key_not_dev_prefixed in H. discriminate H.
  - apply (f_equal (fun s => HasPrefix s "dev/")) in H. cbv beta in H.
    rewrite key_not_dev_prefixed in H. discriminate H.
  - now split.
Qed.

Lemma dev_flag_iff (e1 e2 : string) :
  (String.eqb e1 "dev" || String.eqb e1 "development")
  = (String.eqb e2 "dev" || String.eqb e2 "development") ->
  (dev_environment e1 <-> dev_environment e2).
Proof. intros H. now rewrite <- !dev_environment_eqb, H. Qed.

Lemma keys_equal_parts
  (f1 e1 f2 e2 : string) (t1 t2 : Time) (id1 id2 : string) :
  String.length id1 = String.length id2 ->
  (if String.eqb e1 "dev" || String.eqb e1 "development"
   then "dev/" ++ Sprintf_key (Format_200601 t1) id1 (chosen_ext f1)
   else Sprintf_key (Format_200601 t1) id1 (chosen_ext f1))
  = (if String.eqb e2 "dev" || String.eqb e2 "development"
     then "dev/" ++ Sprintf_key (Format_200601 t2) id2 (chosen_ext f2)
     else Sprintf_key (Format_200601 t2) id2 (chosen_ext f2)) ->
  id1 = id2 /\ same_month t1 t2 /\ chosen_ext f1 = chosen_ext f2
  /\ (dev_environment e1 <-> dev_environment e2).
Proof.
  intros Hl H. apply with_prefix_inj in H as [Hd Hk].
  apply key_core_inj in Hk as (HF & Hi & He); [|exact Hl].
  split; [exact Hi|]. split; [now apply Format_inj|]. split; [exact He|].
  now apply dev_flag_iff.
Qed.

(** The key ends in the chosen extension, with or without the
    development prefix. *)
Lemma env_key_after_last_dot (environment filename a b : string) :
  after_last "."
    (if String.eqb environment "dev" || String.eqb environment "development"
     then "dev/" ++ Sprintf_key a b (chosen_ext filename)
     else Sprintf_key a b (chosen_ext filename))
  = Some (chosen_ext filename).
Proof.
  destruct (String.eqb environment "dev" || String.eqb environment "development").
  - change ("dev/" ++ Sprintf_key a b (chosen_ext filename))
      with (Sprintf_key ("dev/" ++ a) b (chosen_ext filename)).
    apply key_after_last_dot.
  - apply key_after_last_dot.
Qed.

Lemma after_last_shorter (c : ascii) (s t : string) :
  after_last c s = Some t -> (String.length t < String.length s)%nat.
Proof.
  intros H. apply after_last_sound in H as [_ [pre ->]].
  rewrite length_append. simpl. lia.
Qed.

Lemma int_char_url_safe (a : ascii) : int_char a = true -> url_safe a = true.
Proof.
  unfold int_char, is_digit, url_safe. intros H.
  apply orb_prop in H as [H|H].
  - rewrite H. now rewrite !orb_true_r.
  - apply Ascii.eqb_eq in H. now subst a.
Qed.

Lemma url_safe_key_char (a : ascii) : url_safe a = true -> key_char a = true.
Proof. unfold key_char. now intros ->. Qed.

(** Strings of digits of one length are ordered as the numbers they
    write. *)
Lemma digit_val_range (a : ascii) : is_digit a = true -> 0 <= digit_val a <= 9.
Proof.
  unfold is_digit, digit_val. intros H. apply andb_prop in H as [H1 H2].
  apply Z.leb_le in H1, H2. lia.
Qed.

Lemma compare_digit_strings (s1 : string) : forall (s2 : string) (acc1 acc2 : Z),
  String.length s1 = String.length s2 ->
  all_chars is_digit s1 = true -> all_chars is_digit s2 = true ->
  Z.compare (atoi_acc acc1 s1) (atoi_acc acc2 s2)
  = match Z.compare acc1 acc2 with
    | Eq => String.compare s1 s2
    | c => c
    end.
Proof.
  induction s1 as [|a1 s1 IH]; intros [|a2 s2] acc1 acc2 Hl H1 H2; simpl in *;
    try discriminate.
  - now destruct (acc1 ?= acc2).
  - apply andb_prop in H1 as [Ha1 H1]. apply andb_prop in H2 as [Ha2 H2].
    injection Hl as Hl. rewrite (IH s2 _ _ Hl H1 H2).
    pose proof (digit_val_range a1 Ha1) as R1.
    pose proof (digit_val_range a2 Ha2) as R2.
    destruct (Z.compare_spec acc1 acc2) as [->|Hlt|Hgt].
    + unfold Ascii.compare.
      replace (acc2 * 10 + digit_val a1 ?= acc2 * 10 + digit_val a2)
        with (N_of_ascii a1 ?= N_of_ascii a2)%N; [reflexivity|].
      rewrite <- N2Z.inj_compare. unfold digit_val.
      destruct (Z.compare_spec (Z.of_N (N_of_ascii a1)) (Z.of_N (N_of_ascii a2)));
        symmetry; [apply Z.compare_eq_iff | apply Z.compare_lt_iff
                   | apply Z.compare_gt_iff]; lia.
    + replace (acc1 * 10 + digit_val a1 ?= acc2 * 10 + digit_val a2) with Lt;
        [reflexivity|]. symmetry. apply Z.compare_lt_iff. lia.
    + replace (acc1 * 10 + digit_val a1 ?= acc2 * 10 + digit_val a2) with Gt;
        [reflexivity|]. symmetry. apply Z.compare_gt_iff. lia.
Qed.

Lemma atoi_acc_shift (s : string) : forall acc,
  atoi_acc acc s = acc * 10 ^ Z.of_nat (String.length s) + atoi_acc 0 s.
Proof.
  induction s as [|a s IH]; intros acc.
  - simpl. lia.
  - cbn [atoi_acc].
    rewrite (IH (acc * 10 + digit_val a)), (IH (0 * 10 + digit_val a)).
    replace (Z.of_nat (String.length (String a s)))
      with (Z.succ (Z.of_nat (String.length s))) by (simpl; lia).
    rewrite Z.pow_succ_r by lia. lia.
Qed.

(** The date segment read as a number. *)
Lemma atoi_Format (t : Time) :
  0 <= Year t <= 9999 ->
  atoi_acc 0 (Format_200601 t) = Year t * 100 + Month_int (Mon t).
Proof.
  intros Hy. unfold Format_200601. rewrite atoi_acc_append.
  destruct (appendInt_in_range (Year t) 4) as [_ Hd]; [lia | simpl; lia |].
  destruct (month_two_digits (Mon t)) as [Hl2 Hd2].
  rewrite <- (parseInt_digits _ Hd), parseInt_appendInt.
  rewrite atoi_acc_shift, Hl2.
  rewrite <- (parseInt_digits _ Hd2), parseInt_appendInt. reflexivity.
Qed.

Lemma compare_Format (t1 t2 : Time) :
  0 <= Year t1 <= 9999 -> 0 <= Year t2 <= 9999 ->
  String.compare (Format_200601 t1) (Format_200601 t2)
  = Z.compare (Year t1 * 100 + Month_int (Mon t1))
              (Year t2 * 100 + Month_int (Mon t2)).
Proof.
  intros H1 H2.
  destruct (Format_six_digits t1 H1) as [Hl1 Hd1].
  destruct (Format_six_digits t2 H2) as [Hl2 Hd2].
  rewrite <- (atoi_Format t1 H1), <- (atoi_Format t2 H2).
  rewrite (compare_digit_strings _ _ 0 0) by congruence. reflexivity.
Qed.

Lemma compare_append_Lt (a1 : string) : forall (a2 b1 b2 : string),
  String.length a1 = String.length a2 ->
  String.compare a1 a2 = Lt -> String.compare (a1 ++ b1) (a2 ++ b2) = Lt.
Proof.
  induction a1 as [|x a1 IH]; intros [|y a2] b1 b2 Hl H; simpl in *;
    try discriminate.
  destruct (Ascii.compare x y); try assumption.
  injection Hl as Hl. now apply IH.
Qed.

Lemma Month_int_range (m : Month) : 1 <= Month_int m <= 12.
Proof. destruct m; simpl; lia. Qed.

End KeyFacts.

(** X12. A key tells what it was made from. Two successful calls of
    [GenerateImageKeyWithEnv] end their keys in the extensions chosen
    for their file names; when the identifiers have the same length and
    the two keys are equal, then the identifiers are equal, the clock
    readings fall within the same calendar month, the extensions chosen
    for the two file names are equal and both environments, or neither,
    are development ones. *)
Theorem key_determines_parts
  (filename1 environment1 filename2 environment2 : string)
  (w1 w2 : World) (id1 id2 : string) :
  next_nanoid w1 = (id1, None) ->
  next_nanoid w2 = (id2, None) ->
  String.length id1 = String.length id2 ->
  exists key1 key2,
    SdkV1.GenerateImageKeyWithEnv filename1 environment1 w1
    = Some ((key1, None), advance w1)
    /\ SdkV1.GenerateImageKeyWithEnv filename2 environment2 w2
       = Some ((key2, None), advance w2)
    /\ after_last "." key1 = Some (chosen_ext filename1)
    /\ after_last "." key2 = Some (chosen_ext filename2)
    /\ (key1 = key2 ->
        id1 = id2
        /\ same_month (wallClock w1) (wallClock w2)
        /\ chosen_ext filename1 = chosen_ext filename2
        /\ (dev_environment environment1 <-> dev_environment environment2)).
Proof.
  intros H1 H2 Hl. rewrite !GenerateImageKeyWithEnv_run, H1, H2.
  simpl snd. simpl fst. cbv zeta.
  eexists _, _. split; [reflexivity|]. split; [reflexivity|].
  split; [apply env_key_after_last_dot|].
  split; [apply env_key_after_last_dot|].
  intros H. now apply keys_equal_parts in H.
Qed.

(** Different identifiers in the same month give different keys. *)
Lemma key_determines_parts_witness :
  next_nanoid two_id_world = (sample_id, None)
  /\ next_nanoid (advance two_id_world) = ("Uakgb_J5m9g-0JD", None)
  /\ String.length sample_id = String.length "Uakgb_J5m9g-0JD"
  /\ exists key1 key2,
       SdkV1.GenerateImageKeyWithEnv "a.png" "dev" two_id_world
       = Some ((key1, None), advance two_id_world)
       /\ SdkV1.GenerateImageKeyWithEnv "a.png" "dev" (advance two_id_world)
          = Some ((key2, None), advance (advance two_id_world))
       /\ key1 <> key2.
Proof.
  split; [reflexivity|]. split; [reflexivity|]. split; [reflexivity|].
  destruct (key_determines_parts "a.png" "dev" "a.png" "dev" two_id_world
              (advance two_id_world) sample_id "Uakgb_J5m9g-0JD"
              eq_refl eq_refl eq_refl)
    as (key1 & key2 & Hr1 & Hr2 & _ & _ & Hinj).
  exists key1, key2. split; [exact Hr1|]. split; [exact Hr2|].
  intros H. destruct (Hinj H) as [Hid _]. discriminate Hid.
Defined.

(** X13. Two calls made one after the other both succeed and return
    different keys whenever the generator returns two different
    identifiers of the same length, whatever the file names and the
    environments. *)
Theorem successive_keys_differ
  (filename1 environment1 filename2 environment2 : string)
  (w : World) (id1 id2 : string) :
  next_nanoid w = (id1, None) ->
  next_nanoid (advance w) = (id2, None) ->
  String.length id1 = String.length id2 ->
  id1 <> id2 ->
  exists key1 key2,
    two_calls filename1 environment1 filename2 environment2 w
    = Some (((key1, None), (key2, None)), advance (advance w))
    /\ key1 <> key2.
Proof.
  intros H1 H2 Hl Hne. unfold two_calls, bind.
  rewrite GenerateImageKeyWithEnv_run, H1. simpl snd. simpl fst. cbv zeta.
  rewrite GenerateImageKeyWithEnv_run, H2. simpl snd. simpl fst. cbv zeta.
  eexists _, _. split; [reflexivity|].
  intros H. apply keys_equal_parts in H as (Hi & _); [|exact Hl].
  now apply Hne.
Qed.

Lemma successive_keys_differ_witness :
  next_nanoid two_id_world = (sample_id, None)
  /\ next_nanoid (advance two_id_world) = ("Uakgb_J5m9g-0JD", None)
  /\ String.length sample_id = String.length "Uakgb_J5m9g-0JD"
  /\ sample_id <> "Uakgb_J5m9g-0JD"
  /\ exists key1 key2,
       two_calls "a.png" "" "a.png" "" two_id_world
       = Some (((key1, None), (key2, None)), advance (advance two_id_world))
       /\ key1 <> key2.
Proof.
  assert (Hne : sample_id <> "Uakgb_J5m9g-0JD") by discriminate.
  split; [reflexivity|]. split; [reflexivity|]. split; [reflexivity|].
  split; [exact Hne|].
  apply (successive_keys_differ "a.png" "" "a.png" "" two_id_world
           sample_id "Uakgb_J5m9g-0JD" eq_refl eq_refl eq_refl Hne).
Defined.

(** X14. With a four-digit year and a well-formed identifier, the key
    has 23 bytes and those of the extension, and 4 more under a
    development environment; so never more than 27 and the larger of 3
    and one less than the length of the file name. *)
Theorem key_length (filename environment : string) (w : World) (id : string) :
  0 <= Year (wallClock w) <= 9999 ->
  next_nanoid w = (id, None) ->
  nanoid_ok 15 id ->
  exists key ext,
    SdkV1.GenerateImageKeyWithEnv filename environment w
    = Some ((key, None), advance w)
    /\ after_last "." key = Some ext
    /\ (dev_environment environment -> len_s key = 27 + len_s ext)
    /\ (~ dev_environment environment -> len_s key = 23 + len_s ext)
    /\ len_s key <= 27 + Z.max 3 (len_s filename - 1).
Proof.
  intros Hy Hn [Hlen _].
  rewrite GenerateImageKeyWithEnv_run, Hn. simpl snd. simpl fst. cbv zeta.
  exists (if String.eqb environment "dev" || String.eqb environment "development"
          then "dev/" ++ Sprintf_key (Format_200601 (wallClock w)) id
                                     (chosen_ext filename)
          else Sprintf_key (Format_200601 (wallClock w)) id (chosen_ext filename)),
         (chosen_ext filename).
  split; [reflexivity|].
  destruct (Format_six_digits (wallClock w) Hy) as [Hl _].
  assert (Hk : len_s (Sprintf_key (Format_200601 (wallClock w)) id
                                  (chosen_ext filename))
               = 23 + len_s (chosen_ext filename)).
  { unfold len_s in *. unfold Sprintf_key.
    rewrite !length_append, Hl. simpl String.length. lia. }
  assert (He : len_s (chosen_ext filename) <= Z.max 3 (len_s filename - 1)).
  { unfold chosen_ext, len_s.
    destruct (after_last "." filename) as [suf|] eqn:E.
    - apply after_last_shorter in E. lia.
    - simpl. lia. }
  rewrite <- dev_environment_eqb.
  destruct (String.eqb environment "dev" || String.eqb environment "development").
  - assert (Hd : len_s ("dev/" ++ Sprintf_key (Format_200601 (wallClock w)) id
                                              (chosen_ext filename))
                 = 27 + len_s (chosen_ext filename)).
    { unfold len_s in *. rewrite length_append. simpl String.length at 1. lia. }
    split.
    + change ("dev/" ++ Sprintf_key ?a ?b ?c) with (Sprintf_key ("dev/" ++ a) b c).
      apply key_after_last_dot.
    + split; [intros _; exact Hd|]. split; [intros H; now contradiction H|]. lia.
  - split; [apply key_after_last_dot|].
    split; [discriminate|]. split; [intros _; exact Hk|]. lia.
Qed.

Lemma key_length_witness :
  0 <= Year (wallClock sample_world) <= 9999
  /\ next_nanoid sample_world = (sample_id, None)
  /\ nanoid_ok 15 sample_id
  /\ exists key,
       SdkV1.GenerateImageKeyWithEnv "photo.jpeg" "dev" sample_world
       = Some ((key, None), advance sample_world)
       /\ len_s key <= 36.
Proof.
  assert (Hy : 0 <= Year (wallClock sample_world) <= 9999) by (simpl; lia).
  split; [exact Hy|]. split; [reflexivity|]. split; [split; reflexivity|].
  destruct (key_length "photo.jpeg" "dev" sample_world sample_id Hy eq_refl
              (conj eq_refl eq_refl)) as (key & ext & Hrun & _ & _ & _ & Hb).
  exists key. split; [exact Hrun|].
  change (len_s "photo.jpeg") with 10 in Hb. lia.
Defined.

(** X15. With a well-formed identifier and an extension made of
    URL-safe characters, every byte of the key is a URL-safe character,
    a slash or a dot, whatever the year. *)
Theorem key_is_url_safe (filename environment : string) (w : World) (id : string) :
  next_nanoid w = (id, None) ->
  nanoid_ok 15 id ->
  (forall suf, after_last "." filename = Some suf -> all_chars url_safe suf = true) ->
  exists key,
    SdkV1.GenerateImageKeyWithEnv filename environment w
    = Some ((key, None), advance w)
    /\ all_chars key_char key = true.
Proof.
  intros Hn [_ Hid] Hext.
  rewrite GenerateImageKeyWithEnv_run, Hn. simpl snd. simpl fst. cbv zeta.
  eexists. split; [reflexivity|].
  assert (He : all_chars key_char (chosen_ext filename) = true).
  { apply (all_chars_weaken url_safe); [exact url_safe_key_char|].
    unfold chosen_ext. destruct (after_last "." filename) as [suf|] eqn:E;
      [now apply Hext | reflexivity]. }
  assert (Hk : all_chars key_char
                 (Sprintf_key (Format_200601 (wallClock w)) id (chosen_ext filename))
               = true).
  { assert (HF : all_chars key_char (Format_200601 (wallClock w)) = true).
    { apply (all_chars_weaken int_char); [|apply Format_chars].
      intros a Ha. now apply url_safe_key_char, int_char_url_safe. }
    assert (Hi : all_chars key_char id = true)
      by (apply (all_chars_weaken url_safe); [exact url_safe_key_char | exact Hid]).
    unfold Sprintf_key. rewrite !all_chars_append, He, HF, Hi. reflexivity. }
  destruct (String.eqb environment "dev" || String.eqb environment "development");
    [|exact Hk].
  rewrite all_chars_append, Hk. reflexivity.
Qed.

Lemma key_is_url_safe_witness :
  next_nanoid sample_world = (sample_id, None)
  /\ nanoid_ok 15 sample_id
  /\ exists key,
       SdkV1.GenerateImageKeyWithEnv "my photo.PNG" "dev" sample_world
       = Some ((key, None), advance sample_world)
       /\ all_chars key_char key = true.
Proof.
  split; [reflexivity|]. split; [split; reflexivity|].
  apply (key_is_url_safe "my photo.PNG" "dev" sample_world sample_id eq_refl
           (conj eq_refl eq_refl)).
  intros suf [= <-]. reflexivity.
Defined.

(** X16. With four-digit years, keys sort by month: when the clock of
    one successful call of [GenerateImageKey] shows an earlier calendar
    month than that of another, its key comes first in byte order,
    whatever the file names and the identifiers. *)
Theorem keys_ordered_by_month
  (filename1 filename2 : string) (w1 w2 : World) (id1 id2 : string) :
  0 <= Year (wallClock w1) <= 9999 ->
  0 <= Year (wallClock w2) <= 9999 ->
  next_nanoid w1 = (id1, None) ->
  next_nanoid w2 = (id2, None) ->
  earlier_month (wallClock w1) (wallClock w2) ->
  exists key1 key2,
    SdkV1.GenerateImageKey filename1 w1 = Some ((key1, None), advance w1)
    /\ SdkV1.GenerateImageKey filename2 w2 = Some ((key2, None), advance w2)
    /\ String.compare key1 key2 = Lt.
Proof.
  intros Hy1 Hy2 H1 H2 He. rewrite !GenerateImageKey_run, H1, H2.
  simpl snd. simpl fst.
  eexists _, _. split; [reflexivity|]. split; [reflexivity|].
  unfold Sprintf_key. apply compare_append_Lt.
  - destruct (Format_six_digits _ Hy1) as [-> _].
    now destruct (Format_six_digits _ Hy2) as [-> _].
  - rewrite compare_Format by assumption. apply Z.compare_lt_iff.
    pose proof (Month_int_range (Mon (wallClock w1))).
    pose proof (Month_int_range (Mon (wallClock w2))).
    destruct He as [Hlt | [Heq Hlt]]; lia.
Qed.

Lemma keys_ordered_by_month_witness :
  0 <= Year (wallClock sample_world) <= 9999
  /\ 0 <= Year (wallClock december_world) <= 9999
  /\ earlier_month (wallClock sample_world) (wallClock december_world)
  /\ exists key1 key2,
       SdkV1.GenerateImageKey "z.png" sample_world
       = Some ((key1, None), advance sample_world)
       /\ SdkV1.GenerateImageKey "a.png" december_world
          = Some ((key2, None), advance december_world)
       /\ String.compare key1 key2 = Lt.
Proof.
  assert (H1 : 0 <= Year (wallClock sample_world) <= 9999) by (simpl; lia).
  assert (H2 : 0 <= Year (wallClock december_world) <= 9999) by (simpl; lia).
  assert (He : earlier_month (wallClock sample_world) (wallClock december_world))
    by (right; simpl; lia).
  split; [exact H1|]. split; [exact H2|]. split; [exact He|].
  apply (keys_ordered_by_month "z.png" "a.png" sample_world december_world
           sample_id sample_id H1 H2 eq_refl eq_refl He).
Defined.

(* ------------------------------------------------------------------ *)
(** ** Runs of [main]: writes and calls *)

Section RunFacts.

Variable backend : nat -> Response.

Lemma after_nothing (st : RunState) : after st [] [] = st.
Proof.
  destruct st as [[c s k o] n cs]. unfold after, printed. simpl.
  now rewrite !app_nil_r.
Qed.

Lemma after_after (st : RunState) (l1 l2 : list string) (r1 r2 : list request) :
  after (after st l1 r1) l2 r2 = after st (l1 ++ l2) (r1 ++ r2).
Proof.
  unfold after, printed. simpl. rewrite length_app, <- !app_assoc. f_equal. lia.
Qed.

Lemma after_eq (st : RunState) (l l' : list string) (r r' : list request) :
  l = l' -> r = r' -> after st l r = after st l' r'.
Proof. now intros -> ->. Qed.

Lemma ncalls_after (st : RunState) (l : list string) (r : list request) :
  ncalls (after st l r) = (List.length r + ncalls st)%nat.
Proof. reflexivity. Qed.

Lemma calls_after (st : RunState) (l : list string) (r : list request) :
  calls (after st l r) = (calls st ++ r)%list.
Proof. reflexivity. Qed.

Lemma last_line_after (st : RunState) (l : list string) (x : string)
  (r : list request) :
  last_line (after st (l ++ [x]) r) = x.
Proof.
  unfold last_line, after, printed. simpl. rewrite app_assoc. apply last_last.
Qed.

Lemma print_after {A : Type} (s : string) (k : Run A) (st : RunState) :
  (printR s ;;> k) st = k (after st [s] []).
Proof.
  unfold bindR, printR, liftGo, fmt_Print. simpl. f_equal.
  unfold after, printed. simpl. now rewrite app_nil_r.
Qed.

Lemma println_after {A : Type} (s : string) (k : Run A) (st : RunState) :
  (printlnR s ;;> k) st = k (after st [s ++ nl] []).
Proof. apply print_after. Qed.

Lemma print_last (s : string) (st : RunState) :
  printR s st = Some (tt, after st [s] []).
Proof.
  unfold printR, liftGo, fmt_Print. simpl. do 2 f_equal.
  unfold after, printed. simpl. now rewrite app_nil_r.
Qed.

Lemma println_last (s : string) (st : RunState) :
  printlnR s st = Some (tt, after st [s ++ nl] []).
Proof. apply print_last. Qed.

Lemma call_after {A : Type} (req : request) (k : Response -> Run A)
  (st : RunState) :
  (x <~ call backend req ;; k x) st
  = k (backend (ncalls st)) (after st [] [req]).
Proof.
  unfold bindR, call. f_equal. destruct st as [[c s n o] m cs].
  unfold after, printed. simpl. now rewrite app_nil_r.
Qed.

Lemma bindR_run {A B : Type} (m : Run A) (k : A -> Run B) (st st1 : RunState)
  (a : A) :
  m st = Some (a, st1) -> (x <~ m ;; k x) st = k a st1.
Proof. unfold bindR. now intros ->. Qed.

Lemma retR_run {A : Type} (a : A) (st : RunState) : retR a st = Some (a, st).
Proof. reflexivity. Qed.

Lemma liftGo_pure {A B : Type} (m : Go A) (a : A) (k : A -> Run B)
  (st : RunState) :
  m (world st) = Some (a, world st) ->
  (x <~ liftGo m ;; k x) st = k a st.
Proof.
  intros H. unfold bindR, liftGo. rewrite H. now destruct st.
Qed.

(** A loop whose body only writes. *)
Lemma forRange_writes {A : Type} (body : Z -> A -> Run unit) (l : list A) :
  (forall i x st, In x l -> exists lines, body i x st = Some (tt, after st lines [])) ->
  forall i st, exists lines, forRange i l body st = Some (tt, after st lines []).
Proof.
  induction l as [|x l IH]; intros Hb i st; simpl.
  - exists []. unfold retR. now rewrite after_nothing.
  - destruct (Hb i x st (or_introl eq_refl)) as [l1 H1].
    destruct (IH (fun j y s Hy => Hb j y s (or_intror Hy)) (i + 1) (after st l1 []))
      as [l2 H2].
    exists (l1 ++ l2)%list. rewrite (bindR_run _ _ _ _ _ H1), H2.
    now rewrite after_after.
Qed.

End RunFacts.

Ltac exec :=
  repeat first
    [ rewrite println_after | rewrite print_after | rewrite call_after
    | rewrite println_last | rewrite print_last | rewrite retR_run
    | rewrite after_after | rewrite ncalls_after ];
  cbn [app List.length Nat.add].

Section SharedSteps.

Variable backend : nat -> Response.
Variable Time_String : Time -> string.

Lemma derefR_some {A B : Type} (a : A) (k : A -> Run B) (st : RunState) :
  (x <~ derefR (Some a) ;; k x) st = k a st.
Proof. reflexivity. Qed.

Lemma listBucketsStep_run (st : RunState) :
  complete_response (backend (ncalls st)) ->
  exists lines,
    listBucketsStep backend st = Some (tt, after st lines [ListBuckets]).
Proof.
  intros (Hb & _). unfold listBucketsStep. exec.
  destruct (respErr (backend (ncalls st))) as [e|].
  - eexists. exec. reflexivity.
  - exec.
    destruct (forRange_writes
                (fun (_ : Z) (bucket : option string) =>
                   name <~ derefR bucket ;; printR ("  - " ++ name ++ nl))
                (respBuckets (backend (ncalls st)))) with
      (i := 0)
      (st := after st
               [(nl ++ "--- Test 1: List Buckets ---") ++ nl;
                "Successfully listed buckets: "
                ++ fmt_d (len (respBuckets (backend (ncalls st))))
                ++ " buckets found" ++ nl] [ListBuckets]) as [lines Hl].
    + intros i x s Hx. rewrite Forall_forall in Hb. specialize (Hb x Hx).
      destruct x as [name|]; [|congruence].
      eexists. rewrite derefR_some. now exec.
    + eexists. rewrite Hl. exec. reflexivity.
Qed.

Lemma headBucketStep_run (bucketName : string) (st : RunState) :
  exists lines,
    headBucketStep backend bucketName st
    = Some (tt, after st lines [HeadBucket bucketName]).
Proof.
  unfold headBucketStep. exec.
  destruct (respErr (backend (ncalls st))); eexists; exec; reflexivity.
Qed.

Lemma metadataStep_run (bucketName key : string) (st : RunState) :
  complete_response (backend (ncalls st)) ->
  exists lines,
    metadataStep backend Time_String bucketName key st
    = Some (respErr (backend (ncalls st)),
            after st lines [HeadObject bucketName key]).
Proof.
  intros (_ & Hc & Hm & He & _). unfold metadataStep. exec.
  destruct (respErr (backend (ncalls st))) as [e|].
  - eexists. exec. reflexivity.
  - exec.
    destruct (ContentLength (respHead (backend (ncalls st)))); [|congruence].
    destruct (LastModified (respHead (backend (ncalls st)))); [|congruence].
    destruct (ETag (respHead (backend (ncalls st)))); [|congruence].
    eexists. rewrite derefR_some. exec. rewrite derefR_some. exec.
    rewrite derefR_some. exec. reflexivity.
Qed.

Lemma reportListing_run (listResult : Response) (prefix : string) (st : RunState) :
  complete_response listResult ->
  exists lines, reportListing listResult prefix st = Some (tt, after st lines []).
Proof.
  intros (_ & _ & _ & _ & Ho). unfold reportListing.
  destruct (respErr listResult) as [e|].
  - eexists. exec. reflexivity.
  - exec.
    match goal with
    | |- context [forRange 0 ?l ?body ?s] =>
        destruct (forRange_writes body l) with (i := 0) (st := s) as [lines Hl]
    end.
    + intros i x s Hx. rewrite Forall_forall in Ho.
      destruct (Ho x Hx) as (Hk & Hs & Hm).
      destruct (Key x); [|congruence]. destruct (Size x); [|congruence].
      destruct (ObjectLastModified x); [|congruence].
      eexists. rewrite !derefR_some. now exec.
    + eexists. rewrite Hl. exec. reflexivity.
Qed.

(** The calls of test 10: the copy, and the removal of the original
    only after a copy that succeeded. *)
Lemma softDeleteStep_run (bucketName key : string) (st : RunState) :
  exists lines,
    softDeleteStep backend bucketName key st
    = Some (match respErr (backend (ncalls st)) with
            | Some err => Some err
            | None => respErr (backend (S (ncalls st)))
            end,
            after st lines
              (CopyObject bucketName (key ++ ".deleted") (bucketName ++ "/" ++ key)
               :: match respErr (backend (ncalls st)) with
                  | Some _ => []
                  | None => [DeleteObject bucketName key]
                  end)).
Proof.
  unfold softDeleteStep. cbv zeta. exec.
  destruct (respErr (backend (ncalls st))) as [e|].
  - eexists. exec. reflexivity.
  - exec. destruct (respErr (backend (S (ncalls st)))); eexists; exec; reflexivity.
Qed.

Lemma verifySoftDeleteStep_run (bucketName key : string) (st : RunState) :
  exists lines,
    verifySoftDeleteStep backend bucketName key st
    = Some (respErr (backend (S (ncalls st))),
            after st lines [HeadObject bucketName key;
                            HeadObject bucketName (key ++ ".deleted")]).
Proof.
  unfold verifySoftDeleteStep. cbv zeta. exec.
  destruct (respErr (backend (ncalls st))) as [e|]; exec;
    destruct (respErr (backend (S (ncalls st)))); eexists; exec; reflexivity.
Qed.

Lemma cleanupStep_run (bucketName key : string) (st : RunState) :
  exists lines,
    cleanupStep backend bucketName key st
    = Some (respErr (backend (ncalls st)),
            after st lines [DeleteObject bucketName (key ++ ".deleted")]).
Proof.
  unfold cleanupStep. cbv zeta. exec.
  destruct (respErr (backend (ncalls st))); eexists; exec; reflexivity.
Qed.

End SharedSteps.

Section ProgramSteps.

Variable backend : nat -> Response.
Variable Time_String : Time -> string.

Hypothesis backend_complete : forall k, complete_response (backend k).

Lemma listStep_run_v1 (bucketName key : string) (st : RunState) :
  exists lines,
    ProgramV1.listStep backend bucketName key st
    = Some (respErr (backend (ncalls st)),
            after st lines
              [ListObjectsV2 bucketName
                 (if contains_char "/" key then date_segment key ++ "/" else "")
                 10]).
Proof.
  unfold ProgramV1.listStep. exec.
  rewrite (liftGo_pure (MainV1.listPrefix key) _ _ _ (listPrefix_run key _)).
  exec.
  match goal with
  | |- context [bindR (reportListing ?r ?p) ?k ?s] =>
      destruct (reportListing_run r p s (backend_complete _)) as [lines Hl];
      rewrite (bindR_run _ k _ _ _ Hl)
  end.
  eexists. exec. reflexivity.
Qed.

Lemma listStep_v2_v1 (bucketName key : string) (st : RunState) :
  ProgramV2.listStep backend bucketName key st
  = ProgramV1.listStep backend bucketName key st.
Proof. reflexivity. Qed.

Lemma presignStep_run (bucketName key : string) (st : RunState) :
  exists lines,
    ProgramV1.presignStep backend bucketName key st
    = Some (respErr (backend (ncalls st)),
            after st lines [PresignGetObject bucketName key fifteen_minutes]).
Proof.
  unfold ProgramV1.presignStep. exec.
  destruct (respErr (backend (ncalls st))); eexists; exec; reflexivity.
Qed.

Lemma publicURLStep_run (endpointURL bucketName region key : string)
  (st : RunState) :
  exists lines,
    ProgramV1.publicURLStep endpointURL bucketName region key st
    = Some (tt, after st lines []).
Proof. unfold ProgramV1.publicURLStep. cbv zeta. eexists. exec. reflexivity. Qed.

(** Tests 6 to 12, whatever comes after them: the calls do not depend
    on what the store answers, but for the removal of the original. *)
Lemma closing_steps_run {A : Type} (region bucketName endpointURL key : string)
  (k : Run A) (st : RunState) :
  exists lines,
    (metadataStep backend Time_String bucketName key ;;>
     ProgramV1.publicURLStep endpointURL bucketName region key ;;>
     ProgramV1.presignStep backend bucketName key ;;>
     ProgramV1.listStep backend bucketName key ;;>
     softDeleteStep backend bucketName key ;;>
     verifySoftDeleteStep backend bucketName key ;;>
     cleanupStep backend bucketName key ;;>
     k) st
    = k (after st lines
           (HeadObject bucketName key
            :: closing_calls bucketName key
                 (if contains_char "/" key then date_segment key ++ "/" else "")
                 (accepted (backend (3 + ncalls st))))).
Proof.
  destruct (metadataStep_run backend Time_String bucketName key st
              (backend_complete _)) as [l1 H1].
  set (s1 := after st l1 [HeadObject bucketName key]) in *.
  destruct (publicURLStep_run endpointURL bucketName region key s1) as [l2 H2].
  set (s2 := after s1 l2 []) in *.
  destruct (presignStep_run bucketName key s2) as [l3 H3].
  set (s3 := after s2 l3 [PresignGetObject bucketName key fifteen_minutes]) in *.
  destruct (listStep_run_v1 bucketName key s3) as [l4 H4].
  match type of H4 with _ = Some (_, ?s) => set (s4 := s) in * end.
  destruct (softDeleteStep_run backend bucketName key s4) as [l5 H5].
  match type of H5 with _ = Some (_, ?s) => set (s5 := s) in * end.
  destruct (verifySoftDeleteStep_run backend bucketName key s5) as [l6 H6].
  match type of H6 with _ = Some (_, ?s) => set (s6 := s) in * end.
  destruct (cleanupStep_run backend bucketName key s6) as [l7 H7].
  match type of H7 with _ = Some (_, ?s) => set (s7 := s) in * end.
  assert (Hn : ncalls s4 = (3 + ncalls st)%nat) by reflexivity.
  exists (l1 ++ l2 ++ l3 ++ l4 ++ l5 ++ l6 ++ l7)%list.
  rewrite (bindR_run _ _ _ _ _ H1), (bindR_run _ _ _ _ _ H2),
          (bindR_run _ _ _ _ _ H3), (bindR_run _ _ _ _ _ H4),
          (bindR_run _ _ _ _ _ H5), (bindR_run _ _ _ _ _ H6),
          (bindR_run _ _ _ _ _ H7).
  f_equal. subst s7 s6 s5. rewrite Hn. unfold accepted, closing_calls.
  subst s4 s3 s2 s1.
  destruct (respErr (backend (3 + ncalls st))); rewrite !after_after;
    cbn [app]; reflexivity.
Qed.

Lemma waitStep_run (bucketName key : string) (st : RunState) :
  exists lines,
    ProgramV1.waitStep backend bucketName key st
    = Some (respErr (backend (ncalls st)),
            after st lines [WaitUntilObjectExists bucketName key]).
Proof.
  unfold ProgramV1.waitStep. exec.
  destruct (respErr (backend (ncalls st))); eexists; exec; reflexivity.
Qed.

Lemma headStep_run (bucketName key : string) (st : RunState) :
  exists lines,
    ProgramV2.headStep backend bucketName key st
    = Some (respErr (backend (ncalls st)),
            after st lines [HeadObject bucketName key]).
Proof.
  unfold ProgramV2.headStep. exec.
  destruct (respErr (backend (ncalls st))); eexists; exec; reflexivity.
Qed.

Lemma uploadStep_accepted_v1 (st : RunState) :
  respErr (backend (ncalls st)) = None ->
  ProgramV1.uploadStep backend st
  = Some (Continue "test-folder/test-file.txt",
          after st
            [(nl ++ "--- Test 4: Upload File ---") ++ nl;
             "✓ File uploaded successfully with key: "
             ++ "test-folder/test-file.txt" ++ " ("
             ++ fmt_d (len_s ProgramV1.fileContent) ++ " bytes)" ++ nl]
            [PutObject "sharex" "test-folder/test-file.txt" ProgramV1.fileContent
                       (Some "text/plain") None]).
Proof.
  intros H. unfold ProgramV1.uploadStep. cbv zeta. exec. rewrite H. exec.
  reflexivity.
Qed.

Lemma uploadStep_refused_v1 (st : RunState) (err : error) :
  respErr (backend (ncalls st)) = Some err ->
  ProgramV1.uploadStep backend st
  = Some (Fatal ("upload failed: " ++ Error err),
          after st [(nl ++ "--- Test 4: Upload File ---") ++ nl]
            [PutObject "sharex" "test-folder/test-file.txt" ProgramV1.fileContent
                       (Some "text/plain") None]).
Proof.
  intros H. unfold ProgramV1.uploadStep. cbv zeta. exec. rewrite H. exec.
  reflexivity.
Qed.

(** The SDK v1 program from the upload on, when the upload succeeds. *)
Lemma afterKey_run_v1 (region bucketName endpointURL : string) (st : RunState) :
  respErr (backend (ncalls st)) = None ->
  exists lines,
    ProgramV1.afterKey backend Time_String region bucketName endpointURL st
    = Some (Continue tt,
            after st
              (lines ++ ["All S3 operations have been tested using AWS SDK v1 (no chunked encoding)." ++ nl])
              (PutObject "sharex" "test-folder/test-file.txt" ProgramV1.fileContent
                         (Some "text/plain") None
               :: WaitUntilObjectExists bucketName "test-folder/test-file.txt"
               :: HeadObject bucketName "test-folder/test-file.txt"
               :: closing_calls bucketName "test-folder/test-file.txt"
                    "test-folder/" (accepted (backend (5 + ncalls st))))).
Proof.
  intros Hput.
  set (key := "test-folder/test-file.txt").
  set (put := PutObject "sharex" key ProgramV1.fileContent (Some "text/plain") None).
  set (l0 := [(nl ++ "--- Test 4: Upload File ---") ++ nl;
              "✓ File uploaded successfully with key: " ++ key ++ " ("
              ++ fmt_d (len_s ProgramV1.fileContent) ++ " bytes)" ++ nl]).
  set (s0 := after st l0 [put]).
  destruct (waitStep_run bucketName key s0) as [l1 H1].
  set (s1 := after s0 l1 [WaitUntilObjectExists bucketName key]) in *.
  destruct (closing_steps_run region bucketName endpointURL key
              (printlnR (nl ++ "--- All Tests Complete ---") ;;>
               printlnR "All S3 operations have been tested using AWS SDK v1 (no chunked encoding)." ;;>
               retR (Continue tt)) s1) as [l2 H2].
  set (done := (nl ++ "--- All Tests Complete ---") ++ nl).
  exists (l0 ++ l1 ++ l2 ++ [done])%list.
  unfold ProgramV1.afterKey, andThen.
  rewrite (bindR_run _ _ _ _ _ (uploadStep_accepted_v1 st Hput)).
  fold key put l0 s0.
  rewrite (bindR_run _ _ _ _ _ H1), H2. exec.
  subst s1 s0. rewrite !after_after.
  change (if contains_char "/" key then date_segment key ++ "/" else "")
    with "test-folder/".
  do 2 f_equal. apply after_eq.
  - cbn [app]. now rewrite <- !app_assoc.
  - rewrite ?ncalls_after. cbn [app List.length Nat.add].
    now rewrite ?app_nil_r.
Qed.

Lemma afterKey_refused_v1 (region bucketName endpointURL : string)
  (st : RunState) (err : error) :
  respErr (backend (ncalls st)) = Some err ->
  exists lines,
    ProgramV1.afterKey backend Time_String region bucketName endpointURL st
    = Some (Fatal ("upload failed: " ++ Error err),
            after st lines
              [PutObject "sharex" "test-folder/test-file.txt" ProgramV1.fileContent
                         (Some "text/plain") None]).
Proof.
  intros Hput. eexists.
  unfold ProgramV1.afterKey, andThen.
  rewrite (bindR_run _ _ _ _ _ (uploadStep_refused_v1 st err Hput)).
  reflexivity.
Qed.

(** The upload of the SDK v2 program, by what the store answers. *)
Lemma uploadStep_first_v2 (bucketName : string) (st : RunState) :
  respErr (backend (ncalls st)) = None ->
  exists lines,
    ProgramV2.uploadStep backend bucketName st
    = Some (("test-folder/test-file-v2.txt", None),
            after st lines
              [PutObject bucketName "test-folder/test-file-v2.txt"
                         ProgramV2.fileContent (Some "text/plain")
                         (Some (len_s ProgramV2.fileContent))]).
Proof.
  intros H. eexists. unfold ProgramV2.uploadStep. cbv zeta. exec. rewrite H.
  exec. reflexivity.
Qed.

Lemma uploadStep_minimal_v2 (bucketName : string) (st : RunState) (err : error) :
  respErr (backend (ncalls st)) = Some err ->
  respErr (backend (S (ncalls st))) = None ->
  exists lines,
    ProgramV2.uploadStep backend bucketName st
    = Some (("test-folder/test-file-v2.txt-minimal", None),
            after st lines
              [PutObject bucketName "test-folder/test-file-v2.txt"
                         ProgramV2.fileContent (Some "text/plain")
                         (Some (len_s ProgramV2.fileContent));
               PutObject bucketName "test-folder/test-file-v2.txt-minimal"
                         ProgramV2.fileContent None None]).
Proof.
  intros H1 H2. eexists. unfold ProgramV2.uploadStep. cbv zeta. exec. rewrite H1.
  exec. rewrite H2. exec. reflexivity.
Qed.

Lemma uploadStep_refused_v2 (bucketName : string) (st : RunState)
  (err1 err2 : error) :
  respErr (backend (ncalls st)) = Some err1 ->
  respErr (backend (S (ncalls st))) = Some err2 ->
  exists lines,
    ProgramV2.uploadStep backend bucketName st
    = Some (("test-folder/test-file-v2.txt", Some err2),
            after st lines
              [PutObject bucketName "test-folder/test-file-v2.txt"
                         ProgramV2.fileContent (Some "text/plain")
                         (Some (len_s ProgramV2.fileContent));
               PutObject bucketName "test-folder/test-file-v2.txt-minimal"
                         ProgramV2.fileContent None None]).
Proof.
  intros H1 H2. eexists. unfold ProgramV2.uploadStep. cbv zeta. exec. rewrite H1.
  exec. rewrite H2. exec. reflexivity.
Qed.

Lemma verifySteps_run (region bucketName endpointURL key : string)
  (st : RunState) :
  exists lines,
    ProgramV2.verifySteps backend Time_String region bucketName endpointURL key st
    = Some (respErr (backend (ncalls st)),
            after st lines
              (HeadObject bucketName key
               :: HeadObject bucketName key
               :: closing_calls bucketName key
                    (if contains_char "/" key then date_segment key ++ "/" else "")
                    (accepted (backend (4 + ncalls st))))).
Proof.
  destruct (headStep_run bucketName key st) as [l1 H1].
  set (s1 := after st l1 [HeadObject bucketName key]) in *.
  destruct (closing_steps_run region bucketName endpointURL key
              (retR (respErr (backend (ncalls st)))) s1) as [l2 H2].
  exists (l1 ++ l2)%list.
  unfold ProgramV2.verifySteps. rewrite (bindR_run _ _ _ _ _ H1).
  change (ProgramV2.publicURLStep endpointURL bucketName region key)
    with (ProgramV1.publicURLStep endpointURL bucketName region key).
  change (ProgramV2.presignStep backend bucketName key)
    with (ProgramV1.presignStep backend bucketName key).
  change (ProgramV2.listStep backend bucketName key)
    with (ProgramV1.listStep backend bucketName key).
  rewrite H2. unfold retR. subst s1. rewrite after_after.
  do 2 f_equal.
Qed.

Lemma summaryStep_run (err : option error) (st : RunState) :
  ProgramV2.summaryStep err st
  = Some (tt,
          after st
            (((nl ++ "--- All Tests Complete ---") ++ nl)
             :: match err with
                | Some _ =>
                    ["Some tests failed due to upload issues with AWS SDK v2 and Tebi.io." ++ nl;
                     "This appears to be a known compatibility issue between AWS SDK v2 and Tebi.io's S3 implementation." ++ nl]
                | None =>
                    ["All S3 operations completed successfully using AWS SDK v2!" ++ nl]
                end) []).
Proof.
  unfold ProgramV2.summaryStep. exec. destruct err; exec; reflexivity.
Qed.

(** The last line of the summary. *)
Lemma summary_last_line (err : option error) (st : RunState) (lines : list string)
  (reqs : list request) :
  last_line
    (after (after st lines reqs)
       (((nl ++ "--- All Tests Complete ---") ++ nl)
        :: match err with
           | Some _ =>
               ["Some tests failed due to upload issues with AWS SDK v2 and Tebi.io." ++ nl;
                "This appears to be a known compatibility issue between AWS SDK v2 and Tebi.io's S3 implementation." ++ nl]
           | None =>
               ["All S3 operations completed successfully using AWS SDK v2!" ++ nl]
           end) [])
  = match err with
    | Some _ => "This appears to be a known compatibility issue between AWS SDK v2 and Tebi.io's S3 implementation." ++ nl
    | None => "All S3 operations completed successfully using AWS SDK v2!" ++ nl
    end.
Proof.
  rewrite after_after. destruct err.
  - match goal with
    | |- context [(lines ++ [?a; ?b; ?c])%list] =>
        replace (lines ++ [a; b; c])%list with ((lines ++ [a; b]) ++ [c])%list
          by now rewrite <- app_assoc
    end.
    apply last_line_after.
  - match goal with
    | |- context [(lines ++ [?a; ?b])%list] =>
        replace (lines ++ [a; b])%list with ((lines ++ [a]) ++ [b])%list
          by now rewrite <- app_assoc
    end.
    apply last_line_after.
Qed.

Lemma liftGo_run {A B : Type} (m : Go A) (a : A) (w' : World) (k : A -> Run B)
  (st : RunState) :
  m (world st) = Some (a, w') ->
  (x <~ liftGo m ;; k x) st = k a (mkRun w' (ncalls st) (calls st)).
Proof. intros H. unfold bindR, liftGo. now rewrite H. Qed.

Lemma configured_report_v1
  (accessKeyID secretAccessKey region bucketName endpointURL : string) (w : World) :
  configured accessKeyID secretAccessKey region bucketName ->
  exists lines,
    MainV1.reportConfig accessKeyID secretAccessKey region bucketName endpointURL w
    = Some (Continue tt, printed w lines).
Proof.
  intros (Ha & Hs & Hr & Hb & Hl). rewrite reportConfig_run_v1.
  destruct (String.eqb accessKeyID "" || String.eqb secretAccessKey ""
            || String.eqb region "" || String.eqb bucketName "") eqn:E.
  - apply required_missing_iff in E. tauto.
  - destruct (Z.ltb_spec (len_s secretAccessKey) 5); [lia|]. eexists. reflexivity.
Qed.

Lemma configured_report_v2
  (accessKeyID secretAccessKey region bucketName endpointURL environment : string)
  (w : World) :
  configured accessKeyID secretAccessKey region bucketName ->
  exists lines,
    MainV2.reportConfig accessKeyID secretAccessKey region bucketName endpointURL
                        environment w
    = Some (Continue tt, printed w lines).
Proof.
  intros (Ha & Hs & Hr & Hb & Hl). rewrite reportConfig_run_v2.
  destruct (String.eqb accessKeyID "" || String.eqb secretAccessKey ""
            || String.eqb region "" || String.eqb bucketName "") eqn:E.
  - apply required_missing_iff in E. tauto.
  - destruct (Z.ltb_spec (len_s secretAccessKey) 5); [lia|]. eexists. reflexivity.
Qed.

Lemma printed_state (st : RunState) (lines : list string) :
  mkRun (printed (world st) lines) (ncalls st) (calls st) = after st lines [].
Proof. unfold after. simpl. now rewrite app_nil_r. Qed.

(** Tests 1 and 2, whatever comes after them. *)
Lemma first_tests_run {A : Type} (bucketName : string) (k : Run A) (st : RunState) :
  exists lines,
    (listBucketsStep backend ;;> headBucketStep backend bucketName ;;> k) st
    = k (after st lines [ListBuckets; HeadBucket bucketName]).
Proof.
  destruct (listBucketsStep_run backend st (backend_complete _)) as [l1 H1].
  destruct (headBucketStep_run backend bucketName (after st l1 [ListBuckets]))
    as [l2 H2].
  exists (l1 ++ l2)%list.
  rewrite (bindR_run _ _ _ _ _ H1), (bindR_run _ _ _ _ _ H2).
  now rewrite after_after.
Qed.

(** Test 3, whatever comes after it. *)
Lemma keyStep_then {B : Type} (environment : string) (k : string -> Run (flow B))
  (st : RunState) (id : string) :
  next_nanoid (world st) = (id, None) ->
  exists key lines,
    andThen (liftGo (MainV1.generateKeyStep environment)) k st
    = k key (after (drawn st) lines []).
Proof.
  intros Hn. unfold andThen.
  pose proof (generateKeyStep_run environment (world st)) as Hr.
  rewrite GenerateImageKeyWithEnv_run, Hn in Hr. simpl snd in Hr. cbv zeta in Hr.
  eexists _, _. rewrite (liftGo_run _ _ _ _ _ Hr).
  f_equal. unfold after, drawn. simpl. now rewrite app_nil_r.
Qed.

Lemma keyStep_returns {B : Type} (environment : string)
  (k : string -> Run (flow B)) (st : RunState) (e : error) :
  snd (next_nanoid (world st)) = Some e ->
  exists lines,
    andThen (liftGo (MainV1.generateKeyStep environment)) k st
    = Some (Returned, after (drawn st) lines []).
Proof.
  intros Hn. unfold andThen.
  pose proof (generateKeyStep_run environment (world st)) as Hr.
  rewrite GenerateImageKeyWithEnv_run, Hn in Hr.
  eexists. rewrite (liftGo_run _ _ _ _ _ Hr). unfold retR.
  do 2 f_equal. unfold after, drawn. simpl. now rewrite app_nil_r.
Qed.

(** [main] of the SDK v1 program up to test 3. *)
Lemma main_to_key_v1
  (accessKeyID secretAccessKey region bucketName endpointURL environment : string)
  (st : RunState) :
  configured accessKeyID secretAccessKey region bucketName ->
  exists lines,
    ProgramV1.mainFromConfig backend Time_String None accessKeyID secretAccessKey
                             region bucketName endpointURL environment st
    = andThen (liftGo (MainV1.generateKeyStep environment))
              (fun _ => ProgramV1.afterKey backend Time_String region bucketName
                                           endpointURL)
              (after st lines [ListBuckets; HeadBucket bucketName]).
Proof.
  intros Hc.
  destruct (configured_report_v1 accessKeyID secretAccessKey region bucketName
              endpointURL (world st) Hc) as [l0 H0].
  set (s0 := after st (l0 ++ [(nl ++ "--- Initializing AWS SDK v1 Client ---") ++ nl;
                              "Using custom endpoint: " ++ endpointURL ++ nl]) []).
  destruct (first_tests_run bucketName
              (andThen (liftGo (MainV1.generateKeyStep environment))
                 (fun _ => ProgramV1.afterKey backend Time_String region bucketName
                                              endpointURL)) s0) as [l1 H1].
  eexists. unfold ProgramV1.mainFromConfig. unfold andThen at 1.
  rewrite (liftGo_run _ _ _ _ _ H0), printed_state.
  unfold andThen at 1, ProgramV1.initClient.
  unfold bindR at 1. exec. fold s0.
  rewrite H1. subst s0. rewrite after_after. reflexivity.
Qed.

(** [main] of the SDK v2 program up to test 3. *)
Lemma main_to_key_v2
  (accessKeyID secretAccessKey region bucketName endpointURL environment : string)
  (st : RunState) :
  configured accessKeyID secretAccessKey region bucketName ->
  exists lines,
    ProgramV2.mainFromConfig backend Time_String None accessKeyID secretAccessKey
                             region bucketName endpointURL environment st
    = andThen (liftGo (MainV1.generateKeyStep environment))
              (fun _ => ProgramV2.afterKey backend Time_String region bucketName
                                           endpointURL)
              (after st lines [ListBuckets; HeadBucket bucketName]).
Proof.
  intros Hc.
  destruct (configured_report_v2 accessKeyID secretAccessKey region bucketName
              endpointURL environment (world st) Hc) as [l0 H0].
  assert (Hgen : forall L, exists l1,
            (listBucketsStep backend ;;> headBucketStep backend bucketName ;;>
             andThen (liftGo (MainV1.generateKeyStep environment))
               (fun _ => ProgramV2.afterKey backend Time_String region bucketName
                                            endpointURL))
              (after st L [])
            = andThen (liftGo (MainV1.generateKeyStep environment))
                (fun _ => ProgramV2.afterKey backend Time_String region bucketName
                                             endpointURL)
                (after (after st L []) l1 [ListBuckets; HeadBucket bucketName]))
    by (intros L; apply first_tests_run).
  unfold ProgramV2.mainFromConfig. unfold andThen at 1.
  rewrite (liftGo_run _ _ _ _ _ H0), printed_state.
  unfold andThen at 1, ProgramV2.initClient.
  unfold bindR at 1. exec.
  change (MainV2.generateKeyStep environment)
    with (MainV1.generateKeyStep environment).
  destruct (negb (String.eqb endpointURL "")); exec;
    match goal with
    | |- context [after st ?L []] => destruct (Hgen L) as [l1 H1]
    end;
    eexists; rewrite H1, after_after; reflexivity.
Qed.

End ProgramSteps.

Section MainRuns.

Variable backend : nat -> Response.
Variable Time_String : Time -> string.

Hypothesis backend_complete : forall k, complete_response (backend k).

Lemma drawn_after (st : RunState) (l : list string) (r : list request) :
  drawn (after st l r) = after (drawn st) l r.
Proof. reflexivity. Qed.

(** [main] of the SDK v1 program up to the upload. *)
Lemma main_to_upload_v1
  (accessKeyID secretAccessKey region bucketName endpointURL environment : string)
  (st : RunState) (id : string) :
  configured accessKeyID secretAccessKey region bucketName ->
  next_nanoid (world st) = (id, None) ->
  exists lines,
    ProgramV1.mainFromConfig backend Time_String None accessKeyID secretAccessKey
                             region bucketName endpointURL environment st
    = ProgramV1.afterKey backend Time_String region bucketName endpointURL
        (after (drawn st) lines [ListBuckets; HeadBucket bucketName]).
Proof.
  intros Hc Hn.
  destruct (main_to_key_v1 backend Time_String backend_complete accessKeyID
              secretAccessKey region bucketName endpointURL environment st Hc)
    as [l1 H1].
  destruct (keyStep_then environment
              (fun _ => ProgramV1.afterKey backend Time_String region bucketName
                                           endpointURL)
              (after st l1 [ListBuckets; HeadBucket bucketName]) id Hn)
    as (key & l2 & H2).
  eexists. rewrite H1, H2, drawn_after, after_after. reflexivity.
Qed.

Lemma main_to_upload_v2
  (accessKeyID secretAccessKey region bucketName endpointURL environment : string)
  (st : RunState) (id : string) :
  configured accessKeyID secretAccessKey region bucketName ->
  next_nanoid (world st) = (id, None) ->
  exists lines,
    ProgramV2.mainFromConfig backend Time_String None accessKeyID secretAccessKey
                             region bucketName endpointURL environment st
    = ProgramV2.afterKey backend Time_String region bucketName endpointURL
        (after (drawn st) lines [ListBuckets; HeadBucket bucketName]).
Proof.
  intros Hc Hn.
  destruct (main_to_key_v2 backend Time_String backend_complete accessKeyID
              secretAccessKey region bucketName endpointURL environment st Hc)
    as [l1 H1].
  destruct (keyStep_then environment
              (fun _ => ProgramV2.afterKey backend Time_String region bucketName
                                           endpointURL)
              (after st l1 [ListBuckets; HeadBucket bucketName]) id Hn)
    as (key & l2 & H2).
  eexists. rewrite H1, H2, drawn_after, after_after. reflexivity.
Qed.

(** The SDK v2 program from the upload on. *)
Lemma afterKey_first_v2 (region bucketName endpointURL : string) (st : RunState) :
  respErr (backend (ncalls st)) = None ->
  exists st',
    ProgramV2.afterKey backend Time_String region bucketName endpointURL st
    = Some (Continue tt, st')
    /\ calls st'
       = (calls st
          ++ PutObject bucketName "test-folder/test-file-v2.txt"
                       ProgramV2.fileContent (Some "text/plain")
                       (Some (len_s ProgramV2.fileContent))
          :: HeadObject bucketName "test-folder/test-file-v2.txt"
          :: HeadObject bucketName "test-folder/test-file-v2.txt"
          :: closing_calls bucketName "test-folder/test-file-v2.txt" "test-folder/"
               (accepted (backend (5 + ncalls st))))%list
    /\ last_line st'
       = if accepted (backend (1 + ncalls st))
         then "All S3 operations completed successfully using AWS SDK v2!" ++ nl
         else "This appears to be a known compatibility issue between AWS SDK v2 and Tebi.io's S3 implementation." ++ nl.
Proof.
  intros Hput.
  destruct (uploadStep_first_v2 backend bucketName st Hput) as [l1 H1].
  match type of H1 with _ = Some (_, ?s) => set (s1 := s) in * end.
  destruct (verifySteps_run backend Time_String backend_complete region bucketName
              endpointURL "test-folder/test-file-v2.txt" s1) as [l2 H2].
  match type of H2 with _ = Some (_, ?s) => set (s2 := s) in * end.
  eexists. unfold ProgramV2.afterKey.
  rewrite (bindR_run _ _ _ _ _ H1), (bindR_run _ _ _ _ _ H2).
  unfold bindR at 1. rewrite summaryStep_run. unfold retR.
  split; [reflexivity|]. split.
  - subst s2 s1. rewrite !after_after, calls_after, ?ncalls_after.
    cbn [app List.length Nat.add]. rewrite ?app_nil_r. reflexivity.
  - subst s2. rewrite summary_last_line. subst s1. unfold accepted.
    change (ncalls (after st l1 [_])) with (1 + ncalls st)%nat.
    now destruct (respErr (backend (1 + ncalls st))).
Qed.

Lemma afterKey_minimal_v2 (region bucketName endpointURL : string)
  (st : RunState) (err : error) :
  respErr (backend (ncalls st)) = Some err ->
  respErr (backend (1 + ncalls st)) = None ->
  exists st',
    ProgramV2.afterKey backend Time_String region bucketName endpointURL st
    = Some (Continue tt, st')
    /\ calls st'
       = (calls st
          ++ PutObject bucketName "test-folder/test-file-v2.txt"
                       ProgramV2.fileContent (Some "text/plain")
                       (Some (len_s ProgramV2.fileContent))
          :: PutObject bucketName "test-folder/test-file-v2.txt-minimal"
                       ProgramV2.fileContent None None
          :: HeadObject bucketName "test-folder/test-file-v2.txt-minimal"
          :: HeadObject bucketName "test-folder/test-file-v2.txt-minimal"
          :: closing_calls bucketName "test-folder/test-file-v2.txt-minimal"
               "test-folder/" (accepted (backend (6 + ncalls st))))%list
    /\ last_line st'
       = if accepted (backend (2 + ncalls st))
         then "All S3 operations completed successfully using AWS SDK v2!" ++ nl
         else "This appears to be a known compatibility issue between AWS SDK v2 and Tebi.io's S3 implementation." ++ nl.
Proof.
  intros Hput1 Hput2.
  destruct (uploadStep_minimal_v2 backend bucketName st err Hput1 Hput2)
    as [l1 H1].
  match type of H1 with _ = Some (_, ?s) => set (s1 := s) in * end.
  destruct (verifySteps_run backend Time_String backend_complete region bucketName
              endpointURL "test-folder/test-file-v2.txt-minimal" s1) as [l2 H2].
  match type of H2 with _ = Some (_, ?s) => set (s2 := s) in * end.
  eexists. unfold ProgramV2.afterKey.
  rewrite (bindR_run _ _ _ _ _ H1), (bindR_run _ _ _ _ _ H2).
  unfold bindR at 1. rewrite summaryStep_run. unfold retR.
  split; [reflexivity|]. split.
  - subst s2 s1. rewrite !after_after, calls_after, ?ncalls_after.
    cbn [app List.length Nat.add]. rewrite ?app_nil_r. reflexivity.
  - subst s2. rewrite summary_last_line. subst s1. unfold accepted.
    change (ncalls (after st l1 [_; _])) with (2 + ncalls st)%nat.
    now destruct (respErr (backend (2 + ncalls st))).
Qed.

Lemma afterKey_refused_v2 (region bucketName endpointURL : string)
  (st : RunState) (err1 err2 : error) :
  respErr (backend (ncalls st)) = Some err1 ->
  respErr (backend (1 + ncalls st)) = Some err2 ->
  exists st',
    ProgramV2.afterKey backend Time_String region bucketName endpointURL st
    = Some (Continue tt, st')
    /\ calls st'
       = (calls st
          ++ [PutObject bucketName "test-folder/test-file-v2.txt"
                        ProgramV2.fileContent (Some "text/plain")
                        (Some (len_s ProgramV2.fileContent));
              PutObject bucketName "test-folder/test-file-v2.txt-minimal"
                        ProgramV2.fileContent None None])%list
    /\ last_line st'
       = "This appears to be a known compatibility issue between AWS SDK v2 and Tebi.io's S3 implementation." ++ nl.
Proof.
  intros Hput1 Hput2.
  destruct (uploadStep_refused_v2 backend bucketName st err1 err2 Hput1 Hput2)
    as [l1 H1].
  eexists. unfold ProgramV2.afterKey.
  rewrite (bindR_run _ _ _ _ _ H1). unfold bindR at 1, retR at 1.
  unfold bindR at 1. rewrite summaryStep_run. unfold retR.
  split; [reflexivity|]. split.
  - rewrite !after_after, calls_after. cbn [app]. now rewrite ?app_nil_r.
  - exact (summary_last_line (Some err2) _ _ _).
Qed.

End MainRuns.

Lemma backend_refusing_complete (ks : list nat) (k : nat) :
  complete_response (backend_refusing ks k).
Proof.
  unfold backend_refusing.
  destruct (existsb (Nat.eqb k) ks); unfold complete_response; simpl;
    repeat split; try discriminate;
    repeat (apply Forall_cons || apply Forall_nil);
    try (unfold complete_object; simpl; repeat split; discriminate).
Qed.

Lemma sample_configured : configured "AKIAEXAMPLE" "s3cr3t-key" "eu" "bucket".
Proof. repeat split; discriminate. Qed.

(* ------------------------------------------------------------------ *)
(** ** What [main] asks of the store *)

(** X17. Neither program calls the store when a required value is
    missing, or when the values are there but the client cannot be set
    up: [main] ends in [log.Fatal] before any call. *)
Theorem main_makes_no_call_without_client
  (backend : nat -> Response) (Time_String : Time -> string)
  (clientErr : option error)
  (accessKeyID secretAccessKey region bucketName endpointURL environment : string)
  (st : RunState) :
  (accessKeyID = "" \/ secretAccessKey = "" \/ region = "" \/ bucketName = "")
  \/ (configured accessKeyID secretAccessKey region bucketName
      /\ clientErr <> None) ->
  (exists msg st',
     ProgramV1.mainFromConfig backend Time_String clientErr accessKeyID
       secretAccessKey region bucketName endpointURL environment st
     = Some (Fatal msg, st')
     /\ calls st' = calls st)
  /\ (exists msg st',
        ProgramV2.mainFromConfig backend Time_String clientErr accessKeyID
          secretAccessKey region bucketName endpointURL environment st
        = Some (Fatal msg, st')
        /\ calls st' = calls st).
Proof.
  intros [Hmiss | [Hc Herr]].
  - apply required_missing_iff in Hmiss.
    unfold ProgramV1.mainFromConfig, ProgramV2.mainFromConfig, andThen, bindR, liftGo.
    rewrite reportConfig_run_v1, reportConfig_run_v2, Hmiss.
    split; eexists _, _; split; reflexivity.
  - destruct clientErr as [err|]; [|congruence].
    destruct (configured_report_v1 accessKeyID secretAccessKey region bucketName
                endpointURL (world st) Hc) as [l1 H1].
    destruct (configured_report_v2 accessKeyID secretAccessKey region bucketName
                endpointURL environment (world st) Hc) as [l2 H2].
    split.
    + eexists _, _. unfold ProgramV1.mainFromConfig. unfold andThen at 1.
      rewrite (liftGo_run _ _ _ _ _ H1).
      unfold andThen, ProgramV1.initClient, bindR, printlnR, liftGo, retR.
      simpl. split; reflexivity.
    + eexists _, _. unfold ProgramV2.mainFromConfig. unfold andThen at 1.
      rewrite (liftGo_run _ _ _ _ _ H2).
      unfold andThen, ProgramV2.initClient, bindR, printlnR, liftGo, retR.
      simpl. split; reflexivity.
Qed.

Lemma main_makes_no_call_without_client_witness :
  exists msg st',
    ProgramV1.mainFromConfig accepting_backend sample_Time_String None
      "AKIAEXAMPLE" "s3cr3t-key" "eu" "" "" "dev" start
    = Some (Fatal msg, st')
    /\ calls st' = [].
Proof.
  apply (main_makes_no_call_without_client accepting_backend sample_Time_String
           None "AKIAEXAMPLE" "s3cr3t-key" "eu" "" "" "dev" start).
  left. right. right. right. reflexivity.
Defined.

(** X18. In both programs, when the identifier generator fails in test
    3, [main] returns having made the calls of tests 1 and 2 only:
    nothing is uploaded. *)
Theorem generator_failure_stops_main
  (backend : nat -> Response) (Time_String : Time -> string)
  (accessKeyID secretAccessKey region bucketName endpointURL environment : string)
  (st : RunState) (err : error) :
  (forall k, complete_response (backend k)) ->
  configured accessKeyID secretAccessKey region bucketName ->
  snd (next_nanoid (world st)) = Some err ->
  (exists st',
     ProgramV1.mainFromConfig backend Time_String None accessKeyID secretAccessKey
       region bucketName endpointURL environment st
     = Some (Returned, st')
     /\ calls st' = (calls st ++ [ListBuckets; HeadBucket bucketName])%list)
  /\ (exists st',
        ProgramV2.mainFromConfig backend Time_String None accessKeyID
          secretAccessKey region bucketName endpointURL environment st
        = Some (Returned, st')
        /\ calls st' = (calls st ++ [ListBuckets; HeadBucket bucketName])%list).
Proof.
  intros Hb Hc Hn. split.
  - destruct (main_to_key_v1 backend Time_String Hb accessKeyID secretAccessKey
                region bucketName endpointURL environment st Hc) as [l1 H1].
    destruct (keyStep_returns environment
                (fun _ => ProgramV1.afterKey backend Time_String region bucketName
                                             endpointURL)
                (after st l1 [ListBuckets; HeadBucket bucketName]) err Hn)
      as [l2 H2].
    eexists. rewrite H1, H2. split; [reflexivity|].
    cbn [calls after drawn]. now rewrite app_nil_r.
  - destruct (main_to_key_v2 backend Time_String Hb accessKeyID secretAccessKey
                region bucketName endpointURL environment st Hc) as [l1 H1].
    destruct (keyStep_returns environment
                (fun _ => ProgramV2.afterKey backend Time_String region bucketName
                                             endpointURL)
                (after st l1 [ListBuckets; HeadBucket bucketName]) err Hn)
      as [l2 H2].
    eexists. rewrite H1, H2. split; [reflexivity|].
    cbn [calls after drawn]. now rewrite app_nil_r.
Qed.

Lemma generator_failure_stops_main_witness :
  exists st',
    ProgramV1.mainFromConfig accepting_backend sample_Time_String None
      "AKIAEXAMPLE" "s3cr3t-key" "eu" "bucket" "" "dev" (mkRun broken_world 0 [])
    = Some (Returned, st')
    /\ calls st' = [ListBuckets; HeadBucket "bucket"].
Proof.
  apply (generator_failure_stops_main accepting_backend sample_Time_String
           "AKIAEXAMPLE" "s3cr3t-key" "eu" "bucket" "" "dev"
           (mkRun broken_world 0 []) (errors_New "entropy exhausted")
           (backend_refusing_complete []) sample_configured eq_refl).
Defined.

(** X19. In the SDK v1 program a refused upload is fatal: [main] ends in
    [log.Fatalf] with the error of the store after its third call, and
    none of the later tests runs. *)
Theorem v1_upload_refused_is_fatal
  (backend : nat -> Response) (Time_String : Time -> string)
  (accessKeyID secretAccessKey region bucketName endpointURL environment : string)
  (st : RunState) (id : string) (err : error) :
  (forall k, complete_response (backend k)) ->
  configured accessKeyID secretAccessKey region bucketName ->
  next_nanoid (world st) = (id, None) ->
  respErr (backend (2 + ncalls st)%nat) = Some err ->
  exists st',
    ProgramV1.mainFromConfig backend Time_String None accessKeyID secretAccessKey
      region bucketName endpointURL environment st
    = Some (Fatal ("upload failed: " ++ Error err), st')
    /\ calls st'
       = (calls st
          ++ [ListBuckets; HeadBucket bucketName;
              PutObject "sharex" "test-folder/test-file.txt" ProgramV1.fileContent
                        (Some "text/plain") None])%list.
Proof.
  intros Hb Hc Hn Hput.
  destruct (main_to_upload_v1 backend Time_String Hb accessKeyID secretAccessKey
              region bucketName endpointURL environment st id Hc Hn) as [l1 H1].
  destruct (afterKey_refused_v1 backend Time_String region bucketName endpointURL
              (after (drawn st) l1 [ListBuckets; HeadBucket bucketName]) err Hput)
    as [l2 H2].
  eexists. rewrite H1, H2. split; [reflexivity|].
  rewrite after_after, calls_after. reflexivity.
Qed.

Lemma v1_upload_refused_is_fatal_witness :
  exists st',
    ProgramV1.mainFromConfig (backend_refusing [2%nat]) sample_Time_String None
      "AKIAEXAMPLE" "s3cr3t-key" "eu" "bucket" "" "dev" start
    = Some (Fatal "upload failed: AccessDenied", st')
    /\ List.length (calls st') = 3%nat.
Proof.
  destruct (v1_upload_refused_is_fatal (backend_refusing [2%nat])
              sample_Time_String "AKIAEXAMPLE" "s3cr3t-key" "eu" "bucket" "" "dev"
              start sample_id (errors_New "AccessDenied")
              (backend_refusing_complete [2%nat]) sample_configured
              eq_refl eq_refl) as (st' & Hrun & Hcalls).
  exists st'. split; [exact Hrun|]. rewrite Hcalls. reflexivity.
Defined.

(** X20. In the SDK v1 program, when the upload succeeds, [main] runs
    to its end and its calls are these, whatever the environment, the
    key of test 3 and the answers of the store: the object is put in
    the bucket "sharex" and looked for in the configured bucket, always
    under the key "test-folder/test-file.txt", and the original is
    removed only when the copy succeeded. *)
Theorem v1_calls_after_upload
  (backend : nat -> Response) (Time_String : Time -> string)
  (accessKeyID secretAccessKey region bucketName endpointURL environment : string)
  (st : RunState) (id : string) :
  (forall k, complete_response (backend k)) ->
  configured accessKeyID secretAccessKey region bucketName ->
  next_nanoid (world st) = (id, None) ->
  respErr (backend (2 + ncalls st)%nat) = None ->
  exists st',
    ProgramV1.mainFromConfig backend Time_String None accessKeyID secretAccessKey
      region bucketName endpointURL environment st
    = Some (Continue tt, st')
    /\ calls st'
       = (calls st
          ++ ListBuckets
          :: HeadBucket bucketName
          :: PutObject "sharex" "test-folder/test-file.txt" ProgramV1.fileContent
                       (Some "text/plain") None
          :: WaitUntilObjectExists bucketName "test-folder/test-file.txt"
          :: HeadObject bucketName "test-folder/test-file.txt"
          :: closing_calls bucketName "test-folder/test-file.txt" "test-folder/"
               (accepted (backend (7 + ncalls st)%nat)))%list
    /\ last_line st'
       = "All S3 operations have been tested using AWS SDK v1 (no chunked encoding)."
         ++ nl.
Proof.
  intros Hb Hc Hn Hput.
  destruct (main_to_upload_v1 backend Time_String Hb accessKeyID secretAccessKey
              region bucketName endpointURL environment st id Hc Hn) as [l1 H1].
  destruct (afterKey_run_v1 backend Time_String Hb region bucketName endpointURL
              (after (drawn st) l1 [ListBuckets; HeadBucket bucketName]) Hput)
    as [l2 H2].
  eexists. rewrite H1, H2. split; [reflexivity|]. split.
  - rewrite after_after, calls_after. reflexivity.
  - rewrite after_after, app_assoc. apply last_line_after.
Qed.

Lemma v1_calls_after_upload_witness :
  exists st',
    ProgramV1.mainFromConfig (backend_refusing [7%nat]) sample_Time_String None
      "AKIAEXAMPLE" "s3cr3t-key" "eu" "bucket" "" "dev" start
    = Some (Continue tt, st')
    /\ calls st'
       = [ListBuckets; HeadBucket "bucket";
          PutObject "sharex" "test-folder/test-file.txt" ProgramV1.fileContent
                    (Some "text/plain") None;
          WaitUntilObjectExists "bucket" "test-folder/test-file.txt";
          HeadObject "bucket" "test-folder/test-file.txt";
          PresignGetObject "bucket" "test-folder/test-file.txt" fifteen_minutes;
          ListObjectsV2 "bucket" "test-folder/" 10;
          CopyObject "bucket" "test-folder/test-file.txt.deleted"
                     "bucket/test-folder/test-file.txt";
          HeadObject "bucket" "test-folder/test-file.txt";
          HeadObject "bucket" "test-folder/test-file.txt.deleted";
          DeleteObject "bucket" "test-folder/test-file.txt.deleted"].
Proof.
  destruct (v1_calls_after_upload (backend_refusing [7%nat]) sample_Time_String
              "AKIAEXAMPLE" "s3cr3t-key" "eu" "bucket" "" "dev" start sample_id
              (backend_refusing_complete [7%nat]) sample_configured
              eq_refl eq_refl) as (st' & Hrun & Hcalls & _).
  exists st'. split; [exact Hrun|]. rewrite Hcalls. reflexivity.
Defined.

(** X21. In the SDK v2 program, when the store refuses the upload and
    the minimal upload after it, [main] makes no further call: tests 5
    to 12 do not run, and [main] ends with the two lines on upload
    issues. *)
Theorem v2_both_uploads_refused
  (backend : nat -> Response) (Time_String : Time -> string)
  (accessKeyID secretAccessKey region bucketName endpointURL environment : string)
  (st : RunState) (id : string) (err1 err2 : error) :
  (forall k, complete_response (backend k)) ->
  configured accessKeyID secretAccessKey region bucketName ->
  next_nanoid (world st) = (id, None) ->
  respErr (backend (2 + ncalls st)%nat) = Some err1 ->
  respErr (backend (3 + ncalls st)%nat) = Some err2 ->
  exists st',
    ProgramV2.mainFromConfig backend Time_String None accessKeyID secretAccessKey
      region bucketName endpointURL environment st
    = Some (Continue tt, st')
    /\ calls st'
       = (calls st
          ++ [ListBuckets; HeadBucket bucketName;
              PutObject bucketName "test-folder/test-file-v2.txt"
                        ProgramV2.fileContent (Some "text/plain")
                        (Some (len_s ProgramV2.fileContent));
              PutObject bucketName "test-folder/test-file-v2.txt-minimal"
                        ProgramV2.fileContent None None])%list
    /\ last_line st'
       = "This appears to be a known compatibility issue between AWS SDK v2 and Tebi.io's S3 implementation." ++ nl.
Proof.
  intros Hb Hc Hn Hput1 Hput2.
  destruct (main_to_upload_v2 backend Time_String Hb accessKeyID secretAccessKey
              region bucketName endpointURL environment st id Hc Hn) as [l1 H1].
  destruct (afterKey_refused_v2 backend Time_String region bucketName endpointURL
              (after (drawn st) l1 [ListBuckets; HeadBucket bucketName])
              err1 err2 Hput1 Hput2) as (st' & H2 & Hcalls & Hlast).
  exists st'. rewrite H1. split; [exact H2|]. split; [|exact Hlast].
  rewrite Hcalls, calls_after. cbn [calls drawn]. now rewrite <- app_assoc.
Qed.

Lemma v2_both_uploads_refused_witness :
  exists st',
    ProgramV2.mainFromConfig (backend_refusing [2%nat; 3%nat]) sample_Time_String
      None "AKIAEXAMPLE" "s3cr3t-key" "eu" "bucket" "" "dev" start
    = Some (Continue tt, st')
    /\ List.length (calls st') = 4%nat.
Proof.
  destruct (v2_both_uploads_refused (backend_refusing [2%nat; 3%nat])
              sample_Time_String "AKIAEXAMPLE" "s3cr3t-key" "eu" "bucket" "" "dev"
              start sample_id (errors_New "AccessDenied") (errors_New "AccessDenied")
              (backend_refusing_complete [2%nat; 3%nat]) sample_configured
              eq_refl eq_refl eq_refl) as (st' & Hrun & Hcalls & _).
  exists st'. split; [exact Hrun|]. rewrite Hcalls. reflexivity.
Defined.

(** X22. In the SDK v2 program, with the four required settings
    present and the identifier generator succeeding, when every response
    of the store carries the fields that [main] reads (no nil pointer
    field) and the store accepts the first upload, [main] runs to its
    end on the key
    "test-folder/test-file-v2.txt" with these calls, and its last line
    tells success or failure by the answer to the call of test 5 alone:
    the errors of tests 6 to 12 do not change it. *)
Theorem v2_first_upload_accepted
  (backend : nat -> Response) (Time_String : Time -> string)
  (accessKeyID secretAccessKey region bucketName endpointURL environment : string)
  (st : RunState) (id : string) :
  (forall k, complete_response (backend k)) ->
  configured accessKeyID secretAccessKey region bucketName ->
  next_nanoid (world st) = (id, None) ->
  respErr (backend (2 + ncalls st)%nat) = None ->
  exists st',
    ProgramV2.mainFromConfig backend Time_String None accessKeyID secretAccessKey
      region bucketName endpointURL environment st
    = Some (Continue tt, st')
    /\ calls st'
       = (calls st
          ++ ListBuckets
          :: HeadBucket bucketName
          :: PutObject bucketName "test-folder/test-file-v2.txt"
                       ProgramV2.fileContent (Some "text/plain")
                       (Some (len_s ProgramV2.fileContent))
          :: HeadObject bucketName "test-folder/test-file-v2.txt"
          :: HeadObject bucketName "test-folder/test-file-v2.txt"
          :: closing_calls bucketName "test-folder/test-file-v2.txt" "test-folder/"
               (accepted (backend (7 + ncalls st)%nat)))%list
    /\ last_line st'
       = if accepted (backend (3 + ncalls st)%nat)
         then "All S3 operations completed successfully using AWS SDK v2!" ++ nl
         else "This appears to be a known compatibility issue between AWS SDK v2 and Tebi.io's S3 implementation." ++ nl.
Proof.
  intros Hb Hc Hn Hput.
  destruct (main_to_upload_v2 backend Time_String Hb accessKeyID secretAccessKey
              region bucketName endpointURL environment st id Hc Hn) as [l1 H1].
  destruct (afterKey_first_v2 backend Time_String Hb region bucketName endpointURL
              (after (drawn st) l1 [ListBuckets; HeadBucket bucketName]) Hput)
    as (st' & H2 & Hcalls & Hlast).
  exists st'. rewrite H1. split; [exact H2|]. split; [|exact Hlast].
  rewrite Hcalls, calls_after. cbn [calls drawn]. now rewrite <- app_assoc.
Qed.

(** The store refuses the calls of tests 6 to 12: the last line still
    tells success. *)
Lemma v2_first_upload_accepted_witness :
  exists st',
    ProgramV2.mainFromConfig
      (backend_refusing [4; 5; 6; 7; 8; 9; 10]%nat) sample_Time_String
      None "AKIAEXAMPLE" "s3cr3t-key" "eu" "bucket" "" "dev" start
    = Some (Continue tt, st')
    /\ last_line st'
       = "All S3 operations completed successfully using AWS SDK v2!" ++ nl.
Proof.
  destruct (v2_first_upload_accepted (backend_refusing [4; 5; 6; 7; 8; 9; 10]%nat)
              sample_Time_String "AKIAEXAMPLE" "s3cr3t-key" "eu" "bucket" "" "dev"
              start sample_id
              (backend_refusing_complete [4; 5; 6; 7; 8; 9; 10]%nat)
              sample_configured eq_refl eq_refl) as (st' & Hrun & _ & Hlast).
  exists st'. split; [exact Hrun|]. rewrite Hlast. reflexivity.
Defined.

(** X23. In the SDK v2 program, with the four required settings
    present and the identifier generator succeeding, when every response
    of the store carries the fields that [main] reads (no nil pointer
    field), the store refuses the first upload and accepts the minimal
    one, [main] runs to its end, every later call is made on the key
    "test-folder/test-file-v2.txt-minimal", and the last line tells
    success or failure by the answer to the call of test 5. *)
Theorem v2_minimal_upload_accepted
  (backend : nat -> Response) (Time_String : Time -> string)
  (accessKeyID secretAccessKey region bucketName endpointURL environment : string)
  (st : RunState) (id : string) (err : error) :
  (forall k, complete_response (backend k)) ->
  configured accessKeyID secretAccessKey region bucketName ->
  next_nanoid (world st) = (id, None) ->
  respErr (backend (2 + ncalls st)%nat) = Some err ->
  respErr (backend (3 + ncalls st)%nat) = None ->
  exists st',
    ProgramV2.mainFromConfig backend Time_String None accessKeyID secretAccessKey
      region bucketName endpointURL environment st
    = Some (Continue tt, st')
    /\ calls st'
       = (calls st
          ++ ListBuckets
          :: HeadBucket bucketName
          :: PutObject bucketName "test-folder/test-file-v2.txt"
                       ProgramV2.fileContent (Some "text/plain")
                       (Some (len_s ProgramV2.fileContent))
          :: PutObject bucketName "test-folder/test-file-v2.txt-minimal"
                       ProgramV2.fileContent None None
          :: HeadObject bucketName "test-folder/test-file-v2.txt-minimal"
          :: HeadObject bucketName "test-folder/test-file-v2.txt-minimal"
          :: closing_calls bucketName "test-folder/test-file-v2.txt-minimal"
               "test-folder/" (accepted (backend (8 + ncalls st)%nat)))%list
    /\ last_line st'
       = if accepted (backend (4 + ncalls st)%nat)
         then "All S3 operations completed successfully using AWS SDK v2!" ++ nl
         else "This appears to be a known compatibility issue between AWS SDK v2 and Tebi.io's S3 implementation." ++ nl.
Proof.
  intros Hb Hc Hn Hput1 Hput2.
  destruct (main_to_upload_v2 backend Time_String Hb accessKeyID secretAccessKey
              region bucketName endpointURL environment st id Hc Hn) as [l1 H1].
  destruct (afterKey_minimal_v2 backend Time_String Hb region bucketName endpointURL
              (after (drawn st) l1 [ListBuckets; HeadBucket bucketName])
              err Hput1 Hput2) as (st' & H2 & Hcalls & Hlast).
  exists st'. rewrite H1. split; [exact H2|]. split; [|exact Hlast].
  rewrite Hcalls, calls_after. cbn [calls drawn]. now rewrite <- app_assoc.
Qed.

(** The upload is verified but test 5 is refused: the last line tells
    failure. *)
Lemma v2_minimal_upload_accepted_witness :
  exists st',
    ProgramV2.mainFromConfig (backend_refusing [2; 4]%nat) sample_Time_String
      None "AKIAEXAMPLE" "s3cr3t-key" "eu" "bucket" "" "dev" start
    = Some (Continue tt, st')
    /\ List.length (calls st') = 13%nat
    /\ last_line st'
       = "This appears to be a known compatibility issue between AWS SDK v2 and Tebi.io's S3 implementation." ++ nl.
Proof.
  destruct (v2_minimal_upload_accepted (backend_refusing [2; 4]%nat)
              sample_Time_String "AKIAEXAMPLE" "s3cr3t-key" "eu" "bucket" "" "dev"
              start sample_id (errors_New "AccessDenied")
              (backend_refusing_complete [2; 4]%nat)
              sample_configured eq_refl eq_refl eq_refl)
    as (st' & Hrun & Hcalls & Hlast).
  exists st'. split; [exact Hrun|]. split.
  - rewrite Hcalls. reflexivity.
  - rewrite Hlast. reflexivity.
Defined.

(** X24. Test 6 panics exactly when the store answers without error
    but with a nil content length, modification time or entity tag;
    otherwise it returns the error of the call, having made that one
    call. *)
Theorem metadataStep_panics_iff_nil_field
  (backend : nat -> Response) (Time_String : Time -> string)
  (bucketName key : string) (st : RunState) :
  (metadataStep backend Time_String bucketName key st = None
   <-> respErr (backend (ncalls st)) = None
       /\ (ContentLength (respHead (backend (ncalls st))) = None
           \/ LastModified (respHead (backend (ncalls st))) = None
           \/ ETag (respHead (backend (ncalls st))) = None))
  /\ (forall r st',
        metadataStep backend Time_String bucketName key st = Some (r, st') ->
        r = respErr (backend (ncalls st))
        /\ calls st' = (calls st ++ [HeadObject bucketName key])%list).
Proof.
  unfold metadataStep. exec.
  destruct (respErr (backend (ncalls st))) as [e|].
  - exec. split.
    + split; [discriminate | intros [H _]; discriminate H].
    + intros r st' [= <- <-]. split; [reflexivity|].
      rewrite calls_after. reflexivity.
  - exec.
    destruct (ContentLength (respHead (backend (ncalls st)))) as [c|].
    + rewrite derefR_some. exec.
      destruct (LastModified (respHead (backend (ncalls st)))) as [m|].
      * rewrite derefR_some. exec.
        destruct (ETag (respHead (backend (ncalls st)))) as [t|].
        -- rewrite derefR_some. exec. split.
           ++ split; [discriminate|]. intros [_ [H|[H|H]]]; discriminate H.
           ++ intros r st' [= <- <-]. split; [reflexivity|].
              rewrite calls_after. reflexivity.
        -- split; [split; [intros _; split; auto | reflexivity]|].
           intros r st' H. discriminate H.
      * split; [split; [intros _; split; auto | reflexivity]|].
        intros r st' H. discriminate H.
    + split; [split; [intros _; split; auto | reflexivity]|].
      intros r st' H. discriminate H.
Qed.

Lemma metadataStep_panics_iff_nil_field_witness :
  metadataStep
    (fun _ => mkResponse None [] (mkHeadObjectOutput (Some 66) None (Some "etag"))
                         "" [])
    sample_Time_String "bucket" "test-folder/test-file.txt" start
  = None.
Proof.
  apply (proj1 (metadataStep_panics_iff_nil_field
                  (fun _ => mkResponse None []
                              (mkHeadObjectOutput (Some 66) None (Some "etag")) "" [])
                  sample_Time_String "bucket" "test-folder/test-file.txt" start)).
  split; [reflexivity|]. right. left. reflexivity.
Defined.
